(** * queryGitHub: the request / retry / pagination engine of GitHubAPIClient

    A shallow embedding of [src/Session1/AzFunction/queryGitHub.py].

    - Python values that travel through the client (decoded JSON payloads,
      query parameters, header maps) are first-order data.
    - Python exceptions are an inductive type; [try]/[except] is a match on
      the outcome of the protected computation.
    - The outside world (the HTTP session, the wall clock) is a record of
      functions of the history of observable events.  A computation threads
      that history: every [session.get] appends a [Get], every
      [time.sleep] that is carried out a [Sleep], every entry into the
      decorated [_make_request] a [Call].
    - A [logger] call is kept where building its message can raise (one
      place, in [search_repositories]); the others have no influence on
      control flow and are left out.
    - Strings are sequences of code points below 256.  The one float of
      the client, the back-off delay, is a rational: the value of a finite
      float, with the two ways the computation leaves the floats (an int
      too large to convert, a length too large to sleep) made explicit. *)

From Stdlib Require Import ZArith QArith String Ascii List Bool Lia.
From Stdlib Require Import DecimalString.
Import ListNotations.

Set Warnings "-register-all".

Local Open Scope string_scope.
Local Open Scope list_scope.
Local Open Scope Z_scope.

(** String concatenation, as [+] on [str] and as juxtaposition inside an
    f-string. *)
Infix "+++" := String.append (at level 60, right associativity).

(* ===================================================================== *)
(** ** Python built-ins used by the client *)
(* ===================================================================== *)

Module Py.

Definition code (c : ascii) : Z := Z.of_N (N_of_ascii c).

(** [str.isspace] on one code point below 256. *)
Definition is_space (c : ascii) : bool :=
  let n := code c in
  ((9 <=? n) && (n <=? 13)) || ((28 <=? n) && (n <=? 32))
  || (n =? 133) || (n =? 160).

(** [str.lower] on one code point below 256. *)
Definition lower_char (c : ascii) : ascii :=
  let n := code c in
  if ((65 <=? n) && (n <=? 90))
     || ((192 <=? n) && (n <=? 222) && negb (n =? 215))
  then ascii_of_N (Z.to_N (n + 32)) else c.

Fixpoint lower (s : string) : string :=
  match s with
  | EmptyString => EmptyString
  | String c t => String (lower_char c) (lower t)
  end.

(** [s.lstrip()] *)
Fixpoint lstrip (s : string) : string :=
  match s with
  | String c t => if is_space c then lstrip t else s
  | EmptyString => EmptyString
  end.

(** [s.rstrip()] *)
Fixpoint rstrip (s : string) : string :=
  match s with
  | EmptyString => EmptyString
  | String c t =>
      match rstrip t with
      | EmptyString => if is_space c then EmptyString else String c EmptyString
      | t' => String c t'
      end
  end.

(** [s.strip()] *)
Definition strip (s : string) : string := rstrip (lstrip s).

(** [s.lstrip('/')] *)
Fixpoint lstrip_slash (s : string) : string :=
  match s with
  | String c t => if (c =? "/")%char then lstrip_slash t else s
  | EmptyString => EmptyString
  end.

(** [needle in hay] for two strings. *)
Fixpoint contains (needle hay : string) : bool :=
  if prefix needle hay then true
  else match hay with
       | EmptyString => false
       | String _ t => contains needle t
       end.

(** [str(n)] / [f"{n}"] for an int. *)
Definition str_of_int (n : Z) : string := NilZero.string_of_int (Z.to_int n).

Definition digit_of (c : ascii) : option Z :=
  let n := code c in
  if (48 <=? n) && (n <=? 57) then Some (n - 48) else None.

(** The whitespace [int()] accepts around a literal: the ASCII whitespace
    and, of the code points from 128 to 255, the two Unicode spaces.  The
    separators 28 to 31, which [str.strip] removes, are not among them. *)
Definition is_int_space (c : ascii) : bool :=
  let n := code c in
  ((9 <=? n) && (n <=? 13)) || (n =? 32) || (n =? 133) || (n =? 160).

Fixpoint skip_int_space (s : string) : string :=
  match s with
  | String c t => if is_int_space c then skip_int_space t else s
  | EmptyString => EmptyString
  end.

(** What the scan of the digits of a literal finds: the value of the
    digits, how many there are and what follows them; or an underscore
    that does not stand between two digits. *)
Inductive scanned : Type :=
| Digits (value count : Z) (rest : string)
| BadUnderscore.

(** The scan runs over digits and underscores and stops at the first other
    character; [after_digit] tells that the character before was a
    digit. *)
Fixpoint scan_digits (s : string) (acc count : Z) (after_digit : bool) : scanned :=
  match s with
  | EmptyString =>
      if after_digit || (count =? 0) then Digits acc count EmptyString else BadUnderscore
  | String c t =>
      match digit_of c with
      | Some d => scan_digits t (10 * acc + d) (count + 1) true
      | None =>
          if (c =? "_")%char then
            if after_digit then scan_digits t acc count false else BadUnderscore
          else if after_digit || (count =? 0) then Digits acc count s
          else BadUnderscore
      end
  end.

(** [sys.int_info.default_max_str_digits], the longest literal [int()]
    converts unless the interpreter is told otherwise. *)
Definition int_max_str_digits : Z := 4300.

(** How [int(s)] ends for a string [s]. *)
Inductive int_literal : Type :=
| IntValue (n : Z)
| InvalidLiteral
| ExceedsLimit (digits : Z).

(** [int(s)]: whitespace, an optional sign, digits that single underscores
    may separate, whitespace.  The limit on the number of digits is
    checked when the digits have been scanned, before anything after them
    is looked at. *)
Definition parse_int (s : string) : int_literal :=
  let s1 := skip_int_space s in
  let (negative, s2) :=
    match s1 with
    | String "+" t => (false, t)
    | String "-" t => (true, t)
    | _ => (false, s1)
    end in
  match scan_digits s2 0 0 false with
  | BadUnderscore => InvalidLiteral
  | Digits value count rest =>
      if count >? int_max_str_digits then ExceedsLimit count
      else if count =? 0 then InvalidLiteral
      else
        match skip_int_space rest with
        | EmptyString => IntValue (if negative then - value else value)
        | _ => InvalidLiteral
        end
  end.

(** [int(s)] where it returns; [None] stands for the [ValueError]. *)
Definition int_of_str (s : string) : option Z :=
  match parse_int s with
  | IntValue n => Some n
  | _ => None
  end.

(** [str.isprintable] on one code point below 256. *)
Definition is_printable (c : ascii) : bool :=
  let n := code c in
  ((32 <=? n) && (n <=? 126)) || ((161 <=? n) && negb (n =? 173)).

Definition hex_digit (n : Z) : ascii :=
  ascii_of_N (Z.to_N (if n <? 10 then 48 + n else 87 + n)).

Definition backslash : ascii := ascii_of_N 92.

Definition double_quote : ascii := ascii_of_N 34.

Fixpoint has_char (c : ascii) (s : string) : bool :=
  match s with
  | EmptyString => false
  | String c' t => (c' =? c)%char || has_char c t
  end.

(** One character of [repr(s)] between the quotes [quote]. *)
Definition repr_char (quote c : ascii) : string :=
  let n := code c in
  if (c =? quote)%char || (n =? 92) then String backslash (String c EmptyString)
  else if n =? 9 then String backslash "t"
  else if n =? 10 then String backslash "n"
  else if n =? 13 then String backslash "r"
  else if is_printable c then String c EmptyString
  else String backslash
         (String "x" (String (hex_digit (n / 16)) (String (hex_digit (n mod 16)) EmptyString))).

Fixpoint repr_chars (quote : ascii) (s : string) : string :=
  match s with
  | EmptyString => String quote EmptyString
  | String c t => repr_char quote c +++ repr_chars quote t
  end.

(** [repr(s)] for a string: in single quotes, unless it holds a single
    quote and no double quote. *)
Definition repr (s : string) : string :=
  let quote := if has_char "'" s && negb (has_char double_quote s) then double_quote
               else "'"%char in
  String quote (repr_chars quote s).

(** [range(lo, lo + n)] *)
Fixpoint range_from (lo : Z) (n : nat) : list Z :=
  match n with
  | O => []
  | S k => lo :: range_from (lo + 1) k
  end.

(** [range(n)] *)
Definition range (n : Z) : list Z := range_from 0 (Z.to_nat n).

(** [len(l)] *)
Definition len {A} (l : list A) : Z := Z.of_nat (List.length l).

End Py.

(* ===================================================================== *)
(** ** Data: JSON payloads, requests, responses, exceptions *)
(* ===================================================================== *)

(** What [response.json()] can produce.  An object keeps its members in
    document order. *)
Inductive json : Type :=
| JNull
| JBool (b : bool)
| JInt (n : Z)
| JFloat (q : Q)
| JStr (s : string)
| JArr (l : list json)
| JObj (members : list (string * json)).

(** A value of a [params] dict. *)
Inductive param : Type :=
| PStr (s : string)
| PInt (n : Z).

Definition params := list (string * param).

(** requests.exceptions.RequestException and the subclasses the client
    names.  [ConnectTimeout] derives from both [ConnectionError] and
    [Timeout]. *)
Inductive request_exception : Type :=
| ReadTimeout
| ConnectTimeout
| ConnectionError
| OtherRequestException (name : string).

Definition is_Timeout (k : request_exception) : bool :=
  match k with ReadTimeout | ConnectTimeout => true | _ => false end.

Definition is_ConnectionError (k : request_exception) : bool :=
  match k with ConnectTimeout | ConnectionError => true | _ => false end.

(** Exceptions.  [RateLimitError] is a subclass of [GitHubAPIError]; the
    string is [str(e)]. *)
Inductive exn : Type :=
| RequestException (k : request_exception)
| GitHubAPIError (msg : string)
| RateLimitError (msg : string)
| ValueError (msg : string)
| TypeError (msg : string)
| KeyError (msg : string)
| OverflowError (msg : string).

(** [isinstance(e, GitHubAPIError)] *)
Definition is_GitHubAPIError (e : exn) : bool :=
  match e with GitHubAPIError _ | RateLimitError _ => true | _ => false end.

(** [str(e)] *)
Definition str_of_exn (e : exn) : string :=
  match e with
  | RequestException ReadTimeout => "ReadTimeout"
  | RequestException ConnectTimeout => "ConnectTimeout"
  | RequestException ConnectionError => "ConnectionError"
  | RequestException (OtherRequestException n) => n
  | GitHubAPIError m | RateLimitError m | ValueError m | TypeError m
  | KeyError m | OverflowError m => m
  end.

(** Outcome of [response.json()]: the payload, or the message of the
    [ValueError] the decoder raised. *)
Inductive decoded : Type :=
| JsonOk (j : json)
| JsonError (msg : string).

(** requests.Response, as far as the client looks at it. *)
Record Response : Type := mkResponse {
  status_code : Z;
  headers : list (string * string);
  text : string;
  url : string;
  json_body : decoded
}.

(** [response.ok]: [raise_for_status] raises for 400 <= status < 600. *)
Definition ok (r : Response) : bool :=
  negb ((400 <=? status_code r) && (status_code r <? 600)).

(** Case-insensitive lookup in [response.headers]. *)
Fixpoint header_lookup (name : string) (h : list (string * string)) : option string :=
  match h with
  | [] => None
  | (k, v) :: t =>
      if (Py.lower k =? Py.lower name)%string then Some v else header_lookup name t
  end.

(** Observable events. *)
Inductive event : Type :=
| Call (endpoint : string) (ps : option params)
| Get (url : string) (ps : option params)
| Sleep (seconds : Q).

Definition trace := list event.

(** What [session.get] gives back. *)
Inductive reply : Type :=
| Resp (r : Response)
| Fail (k : request_exception).

(** How a computation ends; [OutOfFuel] marks a loop cut by the model's
    iteration bound.  The loops of the client stop by themselves within
    that bound (100 pages, 10 search pages), so the paginators never end
    this way; see the last section. *)
Inductive result (A : Type) : Type :=
| Ok (a : A)
| Raise (e : exn)
| OutOfFuel.
Arguments Ok {A} a.
Arguments Raise {A} e.
Arguments OutOfFuel {A}.

(* ===================================================================== *)
(** ** Python operators on decoded payloads *)
(* ===================================================================== *)

(** [bool(x)] *)
Definition truthy (j : json) : bool :=
  match j with
  | JNull => false
  | JBool b => b
  | JInt n => negb (n =? 0)
  | JFloat q => negb (Qnum q =? 0)
  | JStr s => negb (s =? EmptyString)%string
  | JArr l => match l with [] => false | _ => true end
  | JObj m => match m with [] => false | _ => true end
  end.

(** [type(x).__name__] *)
Definition type_name (j : json) : string :=
  match j with
  | JNull => "NoneType"
  | JBool _ => "bool"
  | JInt _ => "int"
  | JFloat _ => "float"
  | JStr _ => "str"
  | JArr _ => "list"
  | JObj _ => "dict"
  end.

Definition is_str (s : string) (j : json) : bool :=
  match j with JStr s' => (s' =? s)%string | _ => false end.

(** Keys of a dict in insertion order; the first binding of a key is the
    one the dict holds. *)
Fixpoint keys (m : list (string * json)) (seen : list string) : list string :=
  match m with
  | [] => []
  | (k, _) :: t =>
      if existsb (String.eqb k) seen then keys t seen
      else k :: keys t (k :: seen)
  end.

Fixpoint lookup (k : string) (m : list (string * json)) : option json :=
  match m with
  | [] => None
  | (k', v) :: t => if (k' =? k)%string then Some v else lookup k t
  end.

Fixpoint chars (s : string) : list json :=
  match s with
  | EmptyString => []
  | String c t => JStr (String c EmptyString) :: chars t
  end.

(** [key in x] for a string [key]. *)
Definition py_in (key : string) (j : json) : result bool :=
  match j with
  | JObj m => Ok (match lookup key m with Some _ => true | None => false end)
  | JArr l => Ok (existsb (is_str key) l)
  | JStr s => Ok (Py.contains key s)
  | _ => Raise (TypeError ("argument of type '" +++ type_name j +++ "' is not iterable"))
  end.

(** [list(x)], the elements [extend] and a comprehension walk through. *)
Definition py_iter (j : json) : result (list json) :=
  match j with
  | JArr l => Ok l
  | JObj m => Ok (map JStr (keys m []))
  | JStr s => Ok (chars s)
  | _ => Raise (TypeError ("'" +++ type_name j +++ "' object is not iterable"))
  end.

(** [len(x)] *)
Definition py_len (j : json) : result Z :=
  match j with
  | JArr l => Ok (Py.len l)
  | JObj m => Ok (Py.len (keys m []))
  | JStr s => Ok (Z.of_nat (String.length s))
  | _ => Raise (TypeError ("object of type '" +++ type_name j +++ "' has no len()"))
  end.

(** [x[key]] for a string [key]. *)
Definition py_getitem (j : json) (key : string) : result json :=
  match j with
  | JObj m =>
      match lookup key m with
      | Some v => Ok v
      | None => Raise (KeyError ("'" +++ key +++ "'"))
      end
  | JArr _ => Raise (TypeError "list indices must be integers or slices, not str")
  | JStr _ => Raise (TypeError "string indices must be integers, not 'str'")
  | _ => Raise (TypeError ("'" +++ type_name j +++ "' object is not subscriptable"))
  end.

(** [[issue for issue in data if 'pull_request' not in issue]], over the
    elements of [data]. *)
Fixpoint without_pull_requests (l : list json) : result (list json) :=
  match l with
  | [] => Ok []
  | issue :: t =>
      match py_in "pull_request" issue with
      | Ok b =>
          match without_pull_requests t with
          | Ok t' => Ok (if b then t' else issue :: t')
          | r => r
          end
      | Raise e => Raise e
      | OutOfFuel => OutOfFuel
      end
  end.

(** The world the client talks to. *)
Record World : Type := mkWorld {
  session_get : trace -> string -> option params -> reply;
  time_time : trace -> Z;
  b64decode_utf8 : json -> result string
}.

(* ===================================================================== *)
(** ** The state-and-exception monad *)
(* ===================================================================== *)

Definition M (A : Type) : Type := trace -> result A * trace.

Definition ret {A} (a : A) : M A := fun tr => (Ok a, tr).

Definition raise {A} (e : exn) : M A := fun tr => (Raise e, tr).

Definition bind {A B} (c : M A) (k : A -> M B) : M B :=
  fun tr =>
    match c tr with
    | (Ok a, tr') => k a tr'
    | (Raise e, tr') => (Raise e, tr')
    | (OutOfFuel, tr') => (OutOfFuel, tr')
    end.

Definition emit (e : event) : M unit := fun tr => (Ok tt, tr ++ [e]).

Definition lift {A} (r : result A) : M A := fun tr => (r, tr).

Declare Scope py_scope.
Delimit Scope py_scope with py.
Notation "x <- c ;; k" := (bind c (fun x => k))
  (at level 61, c at next level, right associativity) : py_scope.
Notation "c ;;; k" := (bind c (fun _ => k))
  (at level 61, right associativity) : py_scope.
Local Open Scope py_scope.

(** [int(x)] where [x] is a header value.  The message of the ValueError
    shows the first 200 characters of [repr(x)]. *)
Definition py_int (s : string) : M Z :=
  match Py.parse_int s with
  | Py.IntValue n => ret n
  | Py.InvalidLiteral =>
      raise (ValueError ("invalid literal for int() with base 10: "
                         +++ substring 0 200 (Py.repr s)))
  | Py.ExceedsLimit digits =>
      raise (ValueError
               ("Exceeds the limit (" +++ Py.str_of_int Py.int_max_str_digits
                +++ " digits) for integer string conversion: value has "
                +++ Py.str_of_int digits
                +++ " digits; use sys.set_int_max_str_digits() to increase the limit"))
  end.

(** [int(headers.get(name, 0))] *)
Definition int_header_or_0 (name : string) (h : list (string * string)) : M Z :=
  match header_lookup name h with
  | Some v => py_int v
  | None => ret 0
  end.

(* ===================================================================== *)
(** ** GitHubAPIClient._handle_response *)
(* ===================================================================== *)

Section Client.

Variable w : World.

Definition now : M Z := fun tr => (Ok (time_time w tr), tr).

Definition _handle_response (response : Response) : M json :=
  (* Check rate limit headers *)
  (match header_lookup "X-RateLimit-Remaining" (headers response) with
   | Some v =>
       remaining <- py_int v ;;
       if remaining <? 10 then
         reset_time <- int_header_or_0 "X-RateLimit-Reset" (headers response) ;;
         current_time <- now ;;
         ret tt
       else ret tt
   | None => ret tt
   end) ;;;
  if (status_code response =? 403)
     && Py.contains "rate limit exceeded" (Py.lower (text response))
  then
    reset_time <- int_header_or_0 "X-RateLimit-Reset" (headers response) ;;
    current_time <- now ;;
    let wait_time := Z.max 0 (reset_time - current_time) in
    raise (RateLimitError
             ("Rate limit exceeded. Try again in " +++ Py.str_of_int wait_time +++ " seconds."))
  else if status_code response =? 404 then
    raise (GitHubAPIError ("Resource not found: " +++ url response))
  else if negb (ok response) then
    raise (GitHubAPIError
             ("GitHub API error " +++ Py.str_of_int (status_code response) +++ ": "
              +++ text response))
  else
    match json_body response with
    | JsonOk j => ret j
    | JsonError m => raise (GitHubAPIError ("Invalid JSON response: " +++ m))
    end.


(* ===================================================================== *)
(** ** retry_with_exponential_backoff *)
(* ===================================================================== *)

(** [except (requests.exceptions.RequestException, RateLimitError)] *)
Definition caught_by_retry (e : exn) : bool :=
  match e with
  | RequestException _ | RateLimitError _ => true
  | _ => false
  end.

(** [delay = base_delay * (2 ** attempt)] for a float [base_delay], given
    by its value.  The int [2 ** attempt] is converted to a float for the
    product, and an int from [2 ** 1024] on has none.  The product of a
    float and a power of two is exact; where it leaves the range of the
    floats the float is an infinity, which [time.sleep] refuses as it
    refuses every length beyond its range. *)
Definition delay (base_delay : Q) (attempt : Z) : result Q :=
  if 1024 <=? attempt then Raise (OverflowError "int too large to convert to float")
  else Ok (Qmult base_delay (inject_Z (2 ^ attempt))).

(** [time.sleep(secs)], as CPython 3.11 has it.  The length is turned into
    a number of nanoseconds kept in 64 bits, and one that does not fit is
    refused (OverflowError); so is a negative one (ValueError).  Otherwise
    the thread sleeps.  What the operating system makes of a sleep that
    would last for centuries is not followed further: the statements below
    about sleeps that are carried out stay with lengths of days
    ([long_sleep]). *)
Definition time_sleep (secs : Q) : M unit :=
  let ns := Qmult secs (inject_Z (10 ^ 9)) in
  if negb (Qle_bool (inject_Z (- 2 ^ 63)) ns) || Qle_bool (inject_Z (2 ^ 63)) ns then
    raise (OverflowError "timestamp too large to convert to C _PyTime_t")
  else if negb (Qle_bool 0%Q secs) then
    raise (ValueError "sleep length must be non-negative")
  else emit (Sleep secs).

(** The [for attempt in ...] loop of [wrapper], over the attempts still to
    make, followed by the call after the loop. *)
Fixpoint retry_for {A} (max_retries : Z) (base_delay : Q) (func : M A)
    (attempts : list Z) : M A :=
  match attempts with
  | [] => func
  | attempt :: rest =>
      fun tr =>
        match func tr with
        | (Raise e, tr') =>
            if caught_by_retry e then
              if attempt =? max_retries then (Raise e, tr')
              else
                (seconds <- lift (delay base_delay attempt) ;;
                 time_sleep seconds ;;;
                 retry_for max_retries base_delay func rest) tr'
            else (Raise e, tr')
        | r => r
        end
  end.

Definition retry_with_exponential_backoff {A} (max_retries : Z) (base_delay : Q)
    (func : M A) : M A :=
  retry_for max_retries base_delay func (Py.range (max_retries + 1)).

(* ===================================================================== *)
(** ** GitHubAPIClient._make_request *)
(* ===================================================================== *)

Definition base_url : string := "https://api.github.com".

(** The undecorated method. *)
Definition _make_request_body (endpoint : string) (ps : option params) : M json :=
  let url := base_url +++ "/" +++ Py.lstrip_slash endpoint in
  fun tr =>
    match session_get w tr url ps with
    | Resp response => _handle_response response (tr ++ [Get url ps])
    | Fail k =>
        if is_Timeout k then (Raise (GitHubAPIError "Request timeout"), tr ++ [Get url ps])
        else if is_ConnectionError k then
          (Raise (GitHubAPIError "Connection error"), tr ++ [Get url ps])
        else (Raise (RequestException k), tr ++ [Get url ps])
    end.

(** [@retry_with_exponential_backoff(max_retries=3)] *)
Definition _make_request (endpoint : string) (ps : option params) : M json :=
  emit (Call endpoint ps) ;;;
  retry_with_exponential_backoff 3 1 (_make_request_body endpoint ps).

(** [try: c  except GitHubAPIError as e: handler e] *)
Definition try_except_GitHubAPIError {A} (c : M A) (handler : exn -> M A) : M A :=
  fun tr =>
    match c tr with
    | (Raise e, tr') => if is_GitHubAPIError e then handler e tr' else (Raise e, tr')
    | r => r
    end.

(* ===================================================================== *)
(** ** GitHubAPIClient._detect_owner_type *)
(* ===================================================================== *)

Definition _detect_owner_type (owner_name : string) : M string :=
  try_except_GitHubAPIError
    (_make_request ("orgs/" +++ owner_name) None ;;; ret "org")
    (fun _ =>
       try_except_GitHubAPIError
         (_make_request ("users/" +++ owner_name) None ;;; ret "user")
         (fun _ =>
            raise (GitHubAPIError
                     ("Owner '" +++ owner_name +++ "' not found as organization or user")))).

(* ===================================================================== *)
(** ** GitHubAPIClient.get_repositories *)
(* ===================================================================== *)

(** The [while True] loop, entered with the current [page] and
    accumulator; [fuel] bounds the iterations the model follows. *)
Fixpoint get_repositories_loop (fuel : nat) (endpoint : string) (per_page page : Z)
    (repositories : list json) : M (list json) :=
  match fuel with
  | O => lift OutOfFuel
  | S fuel' =>
      let ps : params :=
        [("per_page", PInt (Z.min per_page 100)); ("page", PInt page);
         ("sort", PStr "updated"); ("direction", PStr "desc")] in
      data <- _make_request endpoint (Some ps) ;;
      if negb (truthy data) then ret repositories
      else
        items <- lift (py_iter data) ;;
        let repositories := repositories ++ items in
        n <- lift (py_len data) ;;
        if n <? Z.min per_page 100 then ret repositories
        else
          let page := page + 1 in
          if page >? 100 then ret repositories
          else get_repositories_loop fuel' endpoint per_page page repositories
  end.

Definition get_repositories (owner_name owner_type : string) (per_page : Z)
  : M (list json) :=
  if (owner_name =? EmptyString)%string || (Py.strip owner_name =? EmptyString)%string then
    raise (ValueError "Owner name cannot be empty")
  else
    let owner_name := Py.strip owner_name in
    owner_type <- (if (owner_type =? "auto")%string then _detect_owner_type owner_name
                   else ret owner_type) ;;
    if negb ((owner_type =? "org")%string || (owner_type =? "user")%string) then
      raise (ValueError "Owner type must be 'org', 'user', or 'auto'")
    else
      let endpoint :=
        if (owner_type =? "org")%string then "orgs/" +++ owner_name +++ "/repos"
        else "users/" +++ owner_name +++ "/repos" in
      get_repositories_loop 100 endpoint per_page 1 [].

(* ===================================================================== *)
(** ** GitHubAPIClient.get_repository_readme *)
(* ===================================================================== *)

Definition get_repository_readme (owner repo_name : string) : M (option string) :=
  if (owner =? EmptyString)%string || (repo_name =? EmptyString)%string then
    raise (ValueError "Owner and repository name cannot be empty")
  else
    let owner := Py.strip owner in
    let repo_name := Py.strip repo_name in
    try_except_GitHubAPIError
      (data <- _make_request ("repos/" +++ owner +++ "/" +++ repo_name +++ "/readme") None ;;
       has_content <- lift (py_in "content" data) ;;
       if has_content then
         field <- lift (py_getitem data "content") ;;
         content <- lift (b64decode_utf8 w field) ;;
         ret (Some content)
       else ret None)
      (fun e =>
         if Py.contains "not found" (Py.lower (str_of_exn e)) then ret None
         else raise e).

(* ===================================================================== *)
(** ** GitHubAPIClient.get_repository_issues *)
(* ===================================================================== *)

Definition valid_state (state : string) : bool :=
  (state =? "open")%string || (state =? "closed")%string || (state =? "all")%string.

Fixpoint get_repository_issues_loop (fuel : nat) (endpoint state : string)
    (per_page page : Z) (issues : list json) : M (list json) :=
  match fuel with
  | O => lift OutOfFuel
  | S fuel' =>
      let ps : params :=
        [("state", PStr state); ("per_page", PInt (Z.min per_page 100));
         ("page", PInt page); ("sort", PStr "updated"); ("direction", PStr "desc")] in
      data <- _make_request endpoint (Some ps) ;;
      if negb (truthy data) then ret issues
      else
        elements <- lift (py_iter data) ;;
        filtered_issues <- lift (without_pull_requests elements) ;;
        let issues := issues ++ filtered_issues in
        n <- lift (py_len data) ;;
        if n <? Z.min per_page 100 then ret issues
        else
          let page := page + 1 in
          if page >? 100 then ret issues
          else get_repository_issues_loop fuel' endpoint state per_page page issues
  end.

Definition get_repository_issues (owner repo_name state : string) (per_page : Z)
  : M (list json) :=
  if (owner =? EmptyString)%string || (repo_name =? EmptyString)%string then
    raise (ValueError "Owner and repository name cannot be empty")
  else if negb (valid_state state) then
    raise (ValueError "State must be 'open', 'closed', or 'all'")
  else
    let owner := Py.strip owner in
    let repo_name := Py.strip repo_name in
    get_repository_issues_loop 100
      ("repos/" +++ owner +++ "/" +++ repo_name +++ "/issues") state per_page 1 [].

(* ===================================================================== *)
(** ** GitHubAPIClient.search_repositories *)
(* ===================================================================== *)

Definition valid_sort (sort : string) : bool :=
  (sort =? "stars")%string || (sort =? "forks")%string
  || (sort =? "help-wanted-issues")%string || (sort =? "updated")%string.

Definition valid_order (order : string) : bool :=
  (order =? "asc")%string || (order =? "desc")%string.

Definition empty_search_result : json :=
  JObj [("total_count", JInt 0); ("items", JArr [])].

Definition search_repositories (query sort order : string) (per_page : Z) : M json :=
  if (query =? EmptyString)%string || (Py.strip query =? EmptyString)%string then
    raise (ValueError "Search query cannot be empty")
  else if negb (valid_sort sort) then
    raise (ValueError "Sort must be one of: stars, forks, help-wanted-issues, updated")
  else if negb (valid_order order) then
    raise (ValueError "Order must be 'asc' or 'desc'")
  else
    let query := Py.strip query in
    let ps : params :=
      [("q", PStr query); ("sort", PStr sort); ("order", PStr order);
       ("per_page", PInt (Z.min per_page 100))] in
    data <- _make_request "search/repositories" (Some ps) ;;
    has_total <- lift (py_in "total_count" data) ;;
    has_items <- (if has_total then lift (py_in "items" data) else ret false) ;;
    if has_items then
      (* the log line formats data['total_count'] *)
      total_count <- lift (py_getitem data "total_count") ;;
      ret data
    else ret empty_search_result.

(* ===================================================================== *)
(** ** GitHubAPIClient.search_repositories_paginated *)
(* ===================================================================== *)

Definition search_params (query sort order : string) (current_per_page page : Z)
  : params :=
  [("q", PStr query); ("sort", PStr sort); ("order", PStr order);
   ("per_page", PInt current_per_page); ("page", PInt page)].

(** How one pass through the loop body ends: [break], or falling through
    to the next test of the loop condition. *)
Inductive loop_exit : Type :=
| Break (repositories : list json)
| Continue (page : Z) (repositories : list json).

(** The [try] ... [except GitHubAPIError] statement that makes up the loop
    body. *)
Definition search_repositories_paginated_body (query sort order : string)
    (current_per_page page : Z) (repositories : list json) : M loop_exit :=
  let ps := search_params query sort order current_per_page page in
  try_except_GitHubAPIError
    (data <- _make_request "search/repositories" (Some ps) ;;
     has_items <- lift (py_in "items" data) ;;
     if negb has_items then ret (Break repositories)
     else
       items <- lift (py_getitem data "items") ;;
       if negb (truthy items) then ret (Break repositories)
       else
         elements <- lift (py_iter items) ;;
         let repositories := repositories ++ elements in
         n <- lift (py_len items) ;;
         if n <? current_per_page then ret (Break repositories)
         else
           let page := page + 1 in
           if page >? 10 then ret (Break repositories)
           else ret (Continue page repositories))
    (fun e =>
       if Py.contains "rate limit" (Py.lower (str_of_exn e)) then ret (Break repositories)
       else raise e).

(** The [while len(repositories) < max_results] loop. *)
Fixpoint search_repositories_paginated_loop (fuel : nat) (query sort order : string)
    (max_results per_page page : Z) (repositories : list json) : M (list json) :=
  if negb (Py.len repositories <? max_results) then ret repositories
  else
    match fuel with
    | O => lift OutOfFuel
    | S fuel' =>
        let remaining := max_results - Py.len repositories in
        let current_per_page := Z.min per_page remaining in
        exit <- search_repositories_paginated_body query sort order
                  current_per_page page repositories ;;
        match exit with
        | Break repositories => ret repositories
        | Continue page repositories =>
            search_repositories_paginated_loop fuel' query sort order
              max_results per_page page repositories
        end
    end.

Definition search_repositories_paginated (query sort order : string) (max_results : Z)
  : M (list json) :=
  let per_page := Z.min 100 max_results in
  search_repositories_paginated_loop 10 query sort order max_results per_page 1 [].

End Client.

(* ===================================================================== *)
(** ** The other operations of GitHubAPIClient *)
(* ===================================================================== *)

Section Facade.

Variable w : World.

(** [get_organization_repositories] (deprecated in favour of
    [get_repositories]). *)
Definition get_organization_repositories (org_name : string) (per_page : Z)
  : M (list json) :=
  get_repositories w org_name "org" per_page.

Definition get_user_repositories (username : string) (per_page : Z) : M (list json) :=
  get_repositories w username "user" per_page.

(** The [while True] loop of [get_repository_pull_requests]. *)
Fixpoint get_repository_pull_requests_loop (fuel : nat) (endpoint state : string)
    (per_page page : Z) (pull_requests : list json) : M (list json) :=
  match fuel with
  | O => lift OutOfFuel
  | S fuel' =>
      let ps : params :=
        [("state", PStr state); ("per_page", PInt (Z.min per_page 100));
         ("page", PInt page); ("sort", PStr "updated"); ("direction", PStr "desc")] in
      data <- _make_request w endpoint (Some ps) ;;
      if negb (truthy data) then ret pull_requests
      else
        elements <- lift (py_iter data) ;;
        let pull_requests := pull_requests ++ elements in
        n <- lift (py_len data) ;;
        if n <? Z.min per_page 100 then ret pull_requests
        else
          let page := page + 1 in
          if page >? 100 then ret pull_requests
          else get_repository_pull_requests_loop fuel' endpoint state per_page page
                 pull_requests
  end.

Definition get_repository_pull_requests (owner repo_name state : string) (per_page : Z)
  : M (list json) :=
  if (owner =? EmptyString)%string || (repo_name =? EmptyString)%string then
    raise (ValueError "Owner and repository name cannot be empty")
  else if negb (valid_state state) then
    raise (ValueError "State must be 'open', 'closed', or 'all'")
  else
    let owner := Py.strip owner in
    let repo_name := Py.strip repo_name in
    get_repository_pull_requests_loop 100
      ("repos/" +++ owner +++ "/" +++ repo_name +++ "/pulls") state per_page 1 [].

(** The [while True] loop of [get_repository_contributors]. *)
Fixpoint get_repository_contributors_loop (fuel : nat) (endpoint : string)
    (per_page page : Z) (contributors : list json) : M (list json) :=
  match fuel with
  | O => lift OutOfFuel
  | S fuel' =>
      let ps : params :=
        [("per_page", PInt (Z.min per_page 100)); ("page", PInt page)] in
      data <- _make_request w endpoint (Some ps) ;;
      if negb (truthy data) then ret contributors
      else
        elements <- lift (py_iter data) ;;
        let contributors := contributors ++ elements in
        n <- lift (py_len data) ;;
        if n <? Z.min per_page 100 then ret contributors
        else
          let page := page + 1 in
          if page >? 100 then ret contributors
          else get_repository_contributors_loop fuel' endpoint per_page page contributors
  end.

Definition get_repository_contributors (owner repo_name : string) (per_page : Z)
  : M (list json) :=
  if (owner =? EmptyString)%string || (repo_name =? EmptyString)%string then
    raise (ValueError "Owner and repository name cannot be empty")
  else
    let owner := Py.strip owner in
    let repo_name := Py.strip repo_name in
    get_repository_contributors_loop 100
      ("repos/" +++ owner +++ "/" +++ repo_name +++ "/contributors") per_page 1 [].

End Facade.

(* ===================================================================== *)
(** ** GitHubAPIClient.__init__ *)
(* ===================================================================== *)

(** What the constructor leaves in [self]: the token, the base URL and the
    headers of the session. *)
Record GitHubAPIClient : Type := mkClient {
  self_token : option string;
  self_base_url : string;
  self_headers : list (string * string)
}.

(** [bool(x)] for an optional string. *)
Definition str_truthy (x : option string) : bool :=
  match x with
  | Some (String _ _) => true
  | _ => false
  end.

(** [headers[name] = value] on the case-insensitive header map. *)
Fixpoint header_set (name value : string) (h : list (string * string))
  : list (string * string) :=
  match h with
  | [] => [(name, value)]
  | (k, v) :: t =>
      if (Py.lower k =? Py.lower name)%string then (name, value) :: t
      else (k, v) :: header_set name value t
  end.

(** The constructor.  [environ_GITHUB_TOKEN] is [os.getenv('GITHUB_TOKEN')],
    [default_headers] the headers a fresh [requests.Session] comes with. *)
Definition __init__ (token environ_GITHUB_TOKEN : option string)
    (default_headers : list (string * string)) : GitHubAPIClient :=
  let token := if str_truthy token then token else environ_GITHUB_TOKEN in
  let h := header_set "Accept" "application/vnd.github.v3+json" default_headers in
  let h := header_set "User-Agent" "Azure-Function-GitHub-Query-Client/1.0" h in
  let h :=
    match token with
    | Some t => if str_truthy token then header_set "Authorization" ("token " +++ t) h else h
    | None => h
    end in
  mkClient token "https://api.github.com" h.

(* ===================================================================== *)
(** ** Observations on a trace *)
(* ===================================================================== *)

Fixpoint param_int (name : string) (ps : params) : option Z :=
  match ps with
  | [] => None
  | (k, PInt n) :: t => if (k =? name)%string then Some n else param_int name t
  | (k, PStr _) :: t => if (k =? name)%string then None else param_int name t
  end.

(** A call of [_make_request] that asks for a page. *)
Definition is_page_request (e : event) : bool :=
  match e with
  | Call _ (Some ps) => match param_int "page" ps with Some _ => true | None => false end
  | _ => false
  end.

Definition is_call (e : event) : bool :=
  match e with Call _ _ => true | _ => false end.

Definition is_get (e : event) : bool :=
  match e with Get _ _ => true | _ => false end.

Definition page_requests (evs : trace) : nat := length (filter is_page_request evs).

Definition calls (evs : trace) : nat := length (filter is_call evs).

Definition gets (evs : trace) : nat := length (filter is_get evs).

Fixpoint sleeps (evs : trace) : list Q :=
  match evs with
  | [] => []
  | Sleep d :: t => d :: sleeps t
  | _ :: t => sleeps t
  end.

(** The [per_page] values of the calls made, in order. *)
Fixpoint requested_sizes (evs : trace) : list Z :=
  match evs with
  | [] => []
  | Call _ (Some ps) :: t =>
      match param_int "per_page" ps with
      | Some k => k :: requested_sizes t
      | None => requested_sizes t
      end
  | _ :: t => requested_sizes t
  end.

(* ===================================================================== *)
(** ** Providers used to exercise the client *)
(* ===================================================================== *)

(** Page [page] of [items] cut into pages of [size]. *)
Definition page_of (items : list json) (size page : Z) : list json :=
  firstn (Z.to_nat size) (skipn (Z.to_nat ((page - 1) * size)) items).

Module Mock.

(** A stand-in for [base64.b64decode(x).decode('utf-8')]. *)
Definition b64 (j : json) : result string :=
  match j with
  | JStr s => Ok s
  | _ => Raise (TypeError "argument should be a bytes-like object or ASCII string")
  end.

Definition world (session : trace -> string -> option params -> reply) : World :=
  mkWorld session (fun _ => 1000) b64.

(** A response with the given status and body text and no JSON in it. *)
Definition plain (status : Z) (body : string) : Response :=
  mkResponse status [] body "https://api.github.com/x" (JsonError "Expecting value").

(** A 200 response carrying a payload. *)
Definition payload (j : json) : Response :=
  mkResponse 200 [] EmptyString "https://api.github.com/x" (JsonOk j).

Definition always (r : reply) : World := world (fun _ _ _ => r).

(** The rate-limit response of the provider. *)
Definition rate_limited : Response :=
  mkResponse 403 [("X-RateLimit-Remaining", "0"); ("X-RateLimit-Reset", "1060")]
    "API rate limit exceeded for 203.0.113.7." "https://api.github.com/x"
    (JsonError "Expecting value").

(** [n] distinct repository objects, numbered from [from]. *)
Fixpoint repos (from : Z) (n : nat) : list json :=
  match n with
  | O => []
  | S k => JObj [("id", JInt from)] :: repos (from + 1) k
  end.

Definition issue (number : Z) : json :=
  JObj [("number", JInt number); ("title", JStr "It does not work")].

Definition pull_request (number : Z) : json :=
  JObj [("number", JInt number); ("title", JStr "Make it work");
        ("pull_request", JObj [("url", JStr "https://api.github.com/x")])].

(** Three issues and two pull requests, as the issues endpoint lists
    them. *)
Definition issues_and_pull_requests : list json :=
  [issue 1; pull_request 2; issue 3; pull_request 4; issue 5].

(** A listing endpoint holding [items], served in pages. *)
Definition listing (items : list json) : World :=
  world (fun _ _ ps =>
           match ps with
           | Some ps =>
               match param_int "page" ps, param_int "per_page" ps with
               | Some p, Some k => Resp (payload (JArr (page_of items k p)))
               | _, _ => Resp (plain 422 "Validation Failed")
               end
           | None => Resp (plain 422 "Validation Failed")
           end).

(** A search endpoint that answers every request with [size] items. *)
Definition search_fixed (size : nat) : World :=
  always (Resp (payload (JObj [("total_count", JInt 5000);
                               ("items", JArr (repos 0 size))]))).

(** A search endpoint that answers every request with as many items as it
    asks for. *)
Definition search_full : World :=
  world (fun _ _ ps =>
           match ps with
           | Some ps =>
               match param_int "per_page" ps with
               | Some k =>
                   Resp (payload (JObj [("total_count", JInt 5000);
                                        ("items", JArr (repos 0 (Z.to_nat k)))]))
               | None => Resp (plain 422 "Validation Failed")
               end
           | None => Resp (plain 422 "Validation Failed")
           end).

(** A search endpoint that fills the first page and is rate limited from
    then on. *)
Definition search_then_rate_limited : World :=
  world (fun tr _ _ =>
           if (gets tr =? 0)%nat then
             Resp (payload (JObj [("total_count", JInt 5000);
                                  ("items", JArr (repos 0 100))]))
           else Resp rate_limited).

(** A search endpoint that fills the pages up to page [n], with items
    numbered through, and is rate limited for every later page. *)
Definition search_rate_limited_after (n : Z) : World :=
  world (fun _ _ ps =>
           match ps with
           | Some ps =>
               match param_int "page" ps, param_int "per_page" ps with
               | Some p, Some k =>
                   if p <=? n then
                     Resp (payload (JObj [("total_count", JInt 5000);
                                          ("items", JArr (repos (100 * (p - 1))
                                                            (Z.to_nat k)))]))
                   else Resp rate_limited
               | _, _ => Resp (plain 422 "Validation Failed")
               end
           | None => Resp (plain 422 "Validation Failed")
           end).

(** A provider that is rate limited for the first [n] GETs and answers
    with the payload [j] from then on. *)
Definition rate_limited_first (n : nat) (j : json) : World :=
  world (fun tr _ _ => if (gets tr <? n)%nat then Resp rate_limited else Resp (payload j)).

(** A success response that announces plenty of remaining requests and
    whose reset header is not a number. *)
Definition odd_reset_header : Response :=
  mkResponse 200 [("X-RateLimit-Remaining", "4999"); ("X-RateLimit-Reset", "soon")]
    "{}" "https://api.github.com/x" (JsonOk (JObj [("id", JInt 7)])).

(** A provider that knows one user account (no organization of that name)
    with the repositories [items]: the organization detail answers 404,
    the user detail answers, listings are served in pages. *)
Definition user_account (items : list json) : World :=
  world (fun _ u ps =>
           match ps with
           | Some ps =>
               match param_int "page" ps, param_int "per_page" ps with
               | Some p, Some k => Resp (payload (JArr (page_of items k p)))
               | _, _ => Resp (plain 422 "Validation Failed")
               end
           | None =>
               if Py.contains "/orgs/" u then Resp (plain 404 "Not Found")
               else Resp (payload (JObj [("login", JStr "octocat")]))
           end).

(** The request about to be made is the first attempt of a call. *)
Definition first_attempt (tr : trace) : bool :=
  match last tr (Sleep 0%Q) with
  | Call _ _ => true
  | _ => false
  end.

(** A listing endpoint that holds [items] and is rate limited at the first
    attempt of every call; the second attempt gets the page. *)
Definition flaky_listing (items : list json) : World :=
  world (fun tr _ ps =>
           if first_attempt tr then Resp rate_limited
           else
             match ps with
             | Some ps =>
                 match param_int "page" ps, param_int "per_page" ps with
                 | Some p, Some k => Resp (payload (JArr (page_of items k p)))
                 | _, _ => Resp (plain 422 "Validation Failed")
                 end
             | None => Resp (plain 422 "Validation Failed")
             end).

End Mock.

(* ===================================================================== *)
(** ** The response interpreter as the specification words it *)
(* ===================================================================== *)

Module Spec.

(** The classified outcomes of section 4.2. *)
Inductive outcome : Type :=
| Decoded (payload : json)
| RateLimited (wait : Z)
| NotFound
| Generic (status : Z) (body : string)
| Malformed (why : string).

Definition indicates_rate_limit (body : string) : bool :=
  Py.contains "rate limit exceeded" (Py.lower body).

(** The reset instant announced by the response, 0 when it announces
    none. *)
Definition reset (r : Response) : Z :=
  match header_lookup "X-RateLimit-Reset" (headers r) with
  | Some v => match Py.int_of_str v with Some n => n | None => 0 end
  | None => 0
  end.

(** The success range of rule 4: the statuses 200 to 299. *)
Definition success (status : Z) : bool := (200 <=? status) && (status <? 300).

(** Rules 2 to 5, tried in this order. *)
Definition interpret (now : Z) (r : Response) : outcome :=
  if (status_code r =? 403) && indicates_rate_limit (text r) then
    RateLimited (Z.max 0 (reset r - now))
  else if status_code r =? 404 then NotFound
  else if negb (success (status_code r)) then Generic (status_code r) (text r)
  else
    match json_body r with
    | JsonError why => Malformed why
    | JsonOk payload => Decoded payload
    end.

(** How the client renders an outcome for the response [r]. *)
Definition rendered (r : Response) (o : outcome) : result json :=
  match o with
  | Decoded payload => Ok payload
  | RateLimited wait =>
      Raise (RateLimitError
               ("Rate limit exceeded. Try again in " +++ Py.str_of_int wait +++ " seconds."))
  | NotFound => Raise (GitHubAPIError ("Resource not found: " +++ url r))
  | Generic status body =>
      Raise (GitHubAPIError ("GitHub API error " +++ Py.str_of_int status +++ ": " +++ body))
  | Malformed why => Raise (GitHubAPIError ("Invalid JSON response: " +++ why))
  end.

(** A rate-limit header, when the response has it, is an int literal. *)
Definition int_header (name : string) (r : Response) : bool :=
  match header_lookup name (headers r) with
  | Some v => match Py.int_of_str v with Some _ => true | None => false end
  | None => true
  end.

Definition well_formed_headers (r : Response) : bool :=
  int_header "X-RateLimit-Remaining" r && int_header "X-RateLimit-Reset" r.

End Spec.

(* ===================================================================== *)
(** ** Vocabulary of the statements *)
(* ===================================================================== *)

(** A success response whose X-RateLimit-Remaining header is not a
    number. *)
Definition response_with_odd_header : Response :=
  mkResponse 200 [("X-RateLimit-Remaining", "many")] "{}" "https://api.github.com/x"
    (JsonOk (JObj [])).

(** A 304 Not Modified answer: no headers of interest and no body. *)
Definition not_modified : Response :=
  mkResponse 304 [] EmptyString "https://api.github.com/x" (JsonError "Expecting value").

(** The status is one of the success range or an error status (4xx,
    5xx). *)
Definition success_or_error (r : Response) : bool :=
  Spec.success (status_code r) || ((400 <=? status_code r) && (status_code r <? 600)).

(** The attempts of the [for] loop that are still ahead when attempt number
    [attempt] starts. *)
Definition attempts_from (max_retries attempt : Z) : list Z :=
  Py.range_from attempt (Z.to_nat (max_retries + 1 - attempt)).

Definition is_GitHubAPIError_result {A} (r : result A) : bool :=
  match r with Raise e => is_GitHubAPIError e && negb (caught_by_retry e) | _ => false end.

Definition raises_caught (r : result json) : bool :=
  match r with Raise e => caught_by_retry e | _ => false end.

Definition has_key (k : string) (j : json) : bool :=
  match j with
  | JObj m => match lookup k m with Some _ => true | None => false end
  | _ => false
  end.

Definition valid_search (query sort order : string) : bool :=
  negb ((query =? EmptyString)%string || (Py.strip query =? EmptyString)%string)
  && valid_sort sort && valid_order order.

(** The text of the only RateLimitError the client ever builds. *)
Definition rate_limit_message (wait : Z) : string :=
  "Rate limit exceeded. Try again in " +++ Py.str_of_int wait +++ " seconds.".

(** A success response with well-formed headers whose body decodes to
    [j]. *)
Definition delivers (r : Response) (j : json) : Prop :=
  200 <= status_code r < 300
  /\ Spec.well_formed_headers r = true
  /\ json_body r = JsonOk j.

Definition url_of (endpoint : string) : string :=
  base_url +++ "/" +++ Py.lstrip_slash endpoint.

(** The shape the listing loops share: [mk_params] builds the query of a
    page, [size] is the page size asked for, [post] is what is done to the
    elements of a page before they are accumulated.  It serves the proofs
    only; each loop of the client is shown to be an instance of it. *)
Fixpoint paginate (w : World) (fuel : nat) (endpoint : string) (mk_params : Z -> params)
    (size : Z) (post : list json -> result (list json)) (page : Z) (acc : list json)
  : M (list json) :=
  match fuel with
  | O => lift OutOfFuel
  | S fuel' =>
      data <- _make_request w endpoint (Some (mk_params page)) ;;
      if negb (truthy data) then ret acc
      else
        elements <- lift (py_iter data) ;;
        kept <- lift (post elements) ;;
        n <- lift (py_len data) ;;
        if n <? size then ret (acc ++ kept)
        else if page + 1 >? 100 then ret (acc ++ kept)
        else paginate w fuel' endpoint mk_params size post (page + 1) (acc ++ kept)
  end.

Definition repositories_params (per_page page : Z) : params :=
  [("per_page", PInt (Z.min per_page 100)); ("page", PInt page);
   ("sort", PStr "updated"); ("direction", PStr "desc")].

Definition issues_params (state : string) (per_page page : Z) : params :=
  [("state", PStr state); ("per_page", PInt (Z.min per_page 100)); ("page", PInt page);
   ("sort", PStr "updated"); ("direction", PStr "desc")].

(** The history of [n] consecutive page requests that each succeed at the
    first attempt, starting with [page]. *)
Definition page_events (endpoint : string) (mk_params : Z -> params) (page : Z) (n : nat)
  : trace :=
  flat_map (fun p => [Call endpoint (Some (mk_params p));
                      Get (url_of endpoint) (Some (mk_params p))])
    (Py.range_from page n).

(** The provider holds [items] behind [endpoint] and serves them in pages:
    every request for page [p] gets the [p]-th slice of [size] items, at
    the first attempt. *)
Definition serves_pages (w : World) (endpoint : string) (mk_params : Z -> params)
    (size : Z) (items : list json) : Prop :=
  forall tr page, 1 <= page ->
    exists r, session_get w tr (url_of endpoint) (Some (mk_params page)) = Resp r
              /\ delivers r (JArr (page_of items size page)).

Definition valid_owner (owner_name : string) : bool :=
  negb ((owner_name =? EmptyString)%string
        || (Py.strip owner_name =? EmptyString)%string).

Definition repos_endpoint (owner_type owner_name : string) : string :=
  if (owner_type =? "org")%string then "orgs/" +++ Py.strip owner_name +++ "/repos"
  else "users/" +++ Py.strip owner_name +++ "/repos".

(** ceil(n / p) *)
Definition ceil_div (n p : Z) : Z := (n + p - 1) / p.

Definition is_object (j : json) : bool :=
  match j with JObj _ => true | _ => false end.

(** An entry that does not carry a 'pull_request' field. *)
Definition is_issue (j : json) : bool := negb (has_key "pull_request" j).

Definition valid_issue_query (owner repo_name state : string) : bool :=
  negb ((owner =? EmptyString)%string || (repo_name =? EmptyString)%string)
  && valid_state state.

Definition issues_endpoint (owner repo_name : string) : string :=
  "repos/" +++ Py.strip owner +++ "/" +++ Py.strip repo_name +++ "/issues".

(** Every search request is answered, at the first attempt, with exactly as
    many items as its [per_page] asks for. *)
Definition fills_pages (w : World) : Prop :=
  forall tr query sort order k page,
    exists r members l,
      session_get w tr (url_of "search/repositories")
        (Some (search_params query sort order k page)) = Resp r
      /\ delivers r (JObj members)
      /\ lookup "items" members = Some (JArr l)
      /\ Py.len l = Z.max 0 k.

(** A 403 answer that announces the exhausted rate limit, its rate-limit
    headers well formed. *)
Definition is_rate_limited (r : Response) : bool :=
  (status_code r =? 403) && Spec.indicates_rate_limit (text r)
  && Spec.well_formed_headers r.

(** The items of the pages 1 to [p], when page [i] holds [pages i]. *)
Definition fetched (pages : Z -> list json) (p : nat) : list json :=
  flat_map pages (Py.range_from 1 p).

(** The number of items the pager asks for with page [p], when the pages
    before it held [pages 1], [pages 2], ...: at most 100 and no more than
    are still missing of [max_results]. *)
Definition asked (max_results : Z) (pages : Z -> list json) (p : Z) : Z :=
  Z.min 100 (max_results - Py.len (fetched pages (Z.to_nat (p - 1)))).

(** The search provider answers the requests for the pages 1 to [n] at the
    first attempt, page [p] with the items [pages p], which are at least as
    many as asked for; and it answers every request for page [n + 1] with a
    rate-limited 403. *)
Definition rate_limited_after (w : World) (query sort order : string) (max_results n : Z)
    (pages : Z -> list json) : Prop :=
  (forall tr page, 1 <= page <= n ->
     exists r members,
       session_get w tr (url_of "search/repositories")
         (Some (search_params query sort order (asked max_results pages page) page))
       = Resp r
       /\ delivers r (JObj members)
       /\ lookup "items" members = Some (JArr (pages page))
       /\ asked max_results pages page <= Py.len (pages page))
  /\ (forall tr, exists r,
        session_get w tr (url_of "search/repositories")
          (Some (search_params query sort order (asked max_results pages (n + 1)) (n + 1)))
        = Resp r
        /\ is_rate_limited r = true).

(** The page sizes the pager asks for when [remaining] results are still
    wanted and [pages] pages are left of the ten the search API gives. *)
Fixpoint chunks (pages : nat) (remaining : Z) : list Z :=
  match pages with
  | O => []
  | S pages' =>
      if remaining <=? 0 then []
      else Z.min 100 remaining :: chunks pages' (remaining - Z.min 100 remaining)
  end.

Definition total (sizes : list Z) : Z := fold_right Z.add 0 sizes.

(** The length of the sleep that follows attempt number [attempt], in
    seconds. *)
Definition delay_seconds (base_delay : Q) (attempt : Z) : Q :=
  Qmult base_delay (inject_Z (2 ^ attempt)).

(** A length every platform sleeps without objection: a million seconds,
    between eleven and twelve days. *)
Definition long_sleep : Q := inject_Z (10 ^ 6).

(** The governor can back off after attempt number [attempt]: the factor
    [2 ** attempt] has a float, and the length of the sleep is not negative
    and not beyond [long_sleep]. *)
Definition can_back_off (base_delay : Q) (attempt : Z) : bool :=
  (attempt <? 1024)
  && Qle_bool 0%Q (delay_seconds base_delay attempt)
  && Qle_bool (delay_seconds base_delay attempt) long_sleep.

(** What the governor does between two attempts: it computes the delay
    and sleeps. *)
Definition back_off (base_delay : Q) (attempt : Z) : M unit :=
  seconds <- lift (delay base_delay attempt) ;; time_sleep seconds.

(** The history one governed request leaves after its [Call]: a GET, then
    [k] times a sleep and another GET, the sleeps starting with the one
    that follows attempt number [attempt]. *)
Definition attempt_events (url : string) (ps : option params) (base_delay : Q)
    (attempt : Z) (k : nat) : trace :=
  Get url ps
  :: flat_map (fun a => [Sleep (delay_seconds base_delay a); Get url ps])
       (Py.range_from attempt k).

Definition is_caught_failure {A} (r : result A) : bool :=
  match r with Raise e => caught_by_retry e | _ => false end.

(** [func] fails [k] times in a row with an exception the governor
    catches, the governor's sleeps in between, and then ends as [final]. *)
Fixpoint retries_then {A} (base_delay : Q) (func : M A) (k : nat) (attempt : Z)
    (tr : trace) (final : result A * trace) : Prop :=
  match k with
  | O => func tr = final
  | S k' =>
      exists e t,
        func tr = (Raise e, t)
        /\ caught_by_retry e = true
        /\ retries_then base_delay func k' (attempt + 1)
             (t ++ [Sleep (delay_seconds base_delay attempt)]) final
  end.

(** The X-RateLimit-Remaining header is absent, or an int of at least
    10. *)
Definition remaining_not_low (r : Response) : bool :=
  match header_lookup "X-RateLimit-Remaining" (headers r) with
  | Some v => match Py.int_of_str v with Some n => negb (n <? 10) | None => false end
  | None => true
  end.

Fixpoint all_chars (p : ascii -> bool) (s : string) : bool :=
  match s with
  | EmptyString => true
  | String c t => p c && all_chars p t
  end.

(** A decimal digit or the minus sign. *)
Definition numeric_char (c : ascii) : bool :=
  ((48 <=? Py.code c) && (Py.code c <=? 57)) || (Py.code c =? 45).

Definition readme_endpoint (owner repo_name : string) : string :=
  "repos/" +++ Py.strip owner +++ "/" +++ Py.strip repo_name +++ "/readme".

Definition valid_names (owner repo_name : string) : bool :=
  negb ((owner =? EmptyString)%string || (repo_name =? EmptyString)%string).

(** The calls for [n] consecutive pages of one endpoint, starting with
    [page]. *)
Definition page_calls (endpoint : string) (mk_params : Z -> params) (page : Z) (n : nat)
  : trace :=
  map (fun p => Call endpoint (Some (mk_params p))) (Py.range_from page n).

Definition contributors_params (per_page page : Z) : params :=
  [("per_page", PInt (Z.min per_page 100)); ("page", PInt page)].

Definition pulls_endpoint (owner repo_name : string) : string :=
  "repos/" +++ Py.strip owner +++ "/" +++ Py.strip repo_name +++ "/pulls".

Definition contributors_endpoint (owner repo_name : string) : string :=
  "repos/" +++ Py.strip owner +++ "/" +++ Py.strip repo_name +++ "/contributors".

(** The owner kind [get_repositories] goes on with: detected when "auto"
    is asked for, as given otherwise. *)
Definition owner_kind (w : World) (owner_name owner_type : string) : M string :=
  if (owner_type =? "auto")%string then _detect_owner_type w (Py.strip owner_name)
  else ret owner_type.

(** The query [search_repositories] sends. *)
Definition search_repositories_params (query sort order : string) (per_page : Z)
  : params :=
  [("q", PStr (Py.strip query)); ("sort", PStr sort); ("order", PStr order);
   ("per_page", PInt (Z.min per_page 100))].

(** Every [per_page] asked for lies between 1 and 100. *)
Definition sizes_in_range (evs : trace) : Prop :=
  Forall (fun k => 1 <= k <= 100) (requested_sizes evs).

(** The token the client ends up with: the argument if it is a non-empty
    string, the environment's otherwise. *)
Definition effective_token (token environ_GITHUB_TOKEN : option string) : option string :=
  if str_truthy token then token else environ_GITHUB_TOKEN.

(** Every call for a page of [endpoint] returns that page of [items] in the
    end, after however many attempts. *)
Definition answers_pages (w : World) (endpoint : string) (mk_params : Z -> params)
    (size : Z) (items : list json) : Prop :=
  forall tr page, 1 <= page ->
    exists tr', _make_request w endpoint (Some (mk_params page)) tr
                = (Ok (JArr (page_of items size page)), tr').

(** A decoded value that is neither a string, nor a list, nor an object. *)
Definition is_scalar (j : json) : bool :=
  match j with
  | JNull | JBool _ | JInt _ | JFloat _ => true
  | _ => false
  end.

(** How a repository operation ends when it refuses its names: with this
    ValueError and the history as it was. *)
Definition names_refused {A} (tr : trace) : result A * trace :=
  (Raise (ValueError "Owner and repository name cannot be empty"), tr).

Definition is_TypeError {A} (r : result A) : bool :=
  match r with Raise (TypeError _) => true | _ => false end.

(* ===================================================================== *)
(** * Properties *)
(* ===================================================================== *)

Local Open Scope py_scope.

(** ** The response interpreter *)

Lemma py_int_cases (s : string) (tr : trace) :
  (exists n, Py.int_of_str s = Some n /\ py_int s tr = (Ok n, tr))
  \/ (Py.int_of_str s = None /\ exists m, py_int s tr = (Raise (ValueError m), tr)).
Proof.
  unfold py_int, Py.int_of_str.
  destruct (Py.parse_int s) as [n| |d].
  - left. exists n. split; reflexivity.
  - right. split; [reflexivity|]. eexists. reflexivity.
  - right. split; [reflexivity|]. eexists. reflexivity.
Qed.

Lemma py_int_value (s : string) (n : Z) (tr : trace) :
  Py.int_of_str s = Some n -> py_int s tr = (Ok n, tr).
Proof.
  intros H. destruct (py_int_cases s tr) as [(n' & Hn & ->)|(Hn & _)]; congruence.
Qed.

Lemma int_header_or_0_cases (name : string) (h : list (string * string)) (tr : trace) :
  (exists n, int_header_or_0 name h tr = (Ok n, tr))
  \/ (exists m, int_header_or_0 name h tr = (Raise (ValueError m), tr)).
Proof.
  unfold int_header_or_0. destruct (header_lookup name h) as [v|].
  - destruct (py_int_cases v tr) as [(n & _ & ->)|(_ & m & ->)];
      [left|right]; eexists; reflexivity.
  - left. eexists. reflexivity.
Qed.

Lemma handle_response_total (w : World) (r : Response) (tr : trace) :
  exists res, _handle_response w r tr = (res, tr) /\ res <> OutOfFuel.
Proof.
  unfold _handle_response, bind at 1.
  set (check := match header_lookup "X-RateLimit-Remaining" (headers r) with
                | Some v => _ | None => _ end).
  assert (Hcheck : check tr = (Ok tt, tr) \/ exists m, check tr = (Raise (ValueError m), tr)).
  { subst check. destruct (header_lookup "X-RateLimit-Remaining" (headers r)) as [v|].
    - unfold bind.
      destruct (py_int_cases v tr) as [(n & _ & ->)|(_ & m & ->)];
        [|right; eexists; reflexivity].
      destruct (n <? 10); [|left; reflexivity].
      destruct (int_header_or_0_cases "X-RateLimit-Reset" (headers r) tr)
        as [[n' ->]|[m ->]]; [left; reflexivity|right; eexists; reflexivity].
    - left. reflexivity. }
  destruct Hcheck as [->|[m ->]]; [|eexists; split; [reflexivity|discriminate]].
  destruct ((status_code r =? 403)
            && Py.contains "rate limit exceeded" (Py.lower (text r))).
  - unfold bind at 1.
    destruct (int_header_or_0_cases "X-RateLimit-Reset" (headers r) tr)
      as [[n ->]|[m ->]]; eexists; (split; [reflexivity|discriminate]).
  - destruct (status_code r =? 404); [eexists; split; [reflexivity|discriminate]|].
    destruct (negb (ok r)); [eexists; split; [reflexivity|discriminate]|].
    destruct (json_body r); eexists; (split; [reflexivity|discriminate]).
Qed.

Lemma int_header_or_0_spec (r : Response) (tr : trace) :
  Spec.int_header "X-RateLimit-Reset" r = true ->
  int_header_or_0 "X-RateLimit-Reset" (headers r) tr = (Ok (Spec.reset r), tr).
Proof.
  unfold Spec.int_header, Spec.reset, int_header_or_0.
  destruct (header_lookup "X-RateLimit-Reset" (headers r)) as [v|]; [|reflexivity].
  destruct (Py.int_of_str v) as [n|] eqn:Hv; [|discriminate].
  intros _. apply py_int_value. exact Hv.
Qed.

(** The header inspection that opens [_handle_response] is silent on a
    response with well-formed headers. *)
Lemma handle_response_after_header_check (w : World) (r : Response) (tr : trace) :
  Spec.well_formed_headers r = true ->
  _handle_response w r tr =
  (if (status_code r =? 403)
      && Py.contains "rate limit exceeded" (Py.lower (text r))
   then
     reset_time <- int_header_or_0 "X-RateLimit-Reset" (headers r) ;;
     current_time <- now w ;;
     raise (RateLimitError
              ("Rate limit exceeded. Try again in "
               +++ Py.str_of_int (Z.max 0 (reset_time - current_time)) +++ " seconds."))
   else if status_code r =? 404 then
     raise (GitHubAPIError ("Resource not found: " +++ url r))
   else if negb (ok r) then
     raise (GitHubAPIError
              ("GitHub API error " +++ Py.str_of_int (status_code r) +++ ": " +++ text r))
   else
     match json_body r with
     | JsonOk j => ret j
     | JsonError m => raise (GitHubAPIError ("Invalid JSON response: " +++ m))
     end) tr.
Proof.
  intros Hwf. apply andb_prop in Hwf as [Hrem Hreset].
  unfold _handle_response at 1.
  unfold bind at 1.
  unfold Spec.int_header in Hrem.
  destruct (header_lookup "X-RateLimit-Remaining" (headers r)) as [v|]; [|reflexivity].
  destruct (Py.int_of_str v) as [n|] eqn:Hv; [|discriminate].
  unfold bind at 1. rewrite (py_int_value v n tr Hv).
  destruct (n <? 10); [|reflexivity].
  unfold bind at 1. rewrite (int_header_or_0_spec r tr Hreset). reflexivity.
Qed.

(** On the statuses of the success range and on the error statuses, the
    test [response.ok] of the client and the success range of rule 4
    agree. *)
Lemma ok_is_success (r : Response) :
  success_or_error r = true -> ok r = Spec.success (status_code r).
Proof.
  unfold success_or_error, Spec.success, ok. intros H.
  destruct (Z.leb_spec 200 (status_code r)), (Z.ltb_spec (status_code r) 300),
    (Z.leb_spec 400 (status_code r)), (Z.ltb_spec (status_code r) 600);
    cbn in *; try reflexivity; try discriminate; lia.
Qed.

(** C6, as amended: on every response whose status is one of the success
    range (200 to 299) or an error status (400 to 599) and whose rate-limit
    headers, where present, are int literals, [_handle_response] produces
    exactly the one outcome the ordered rules select (rate-limited 403
    first, with wait = max(0, reset - now); then 404; then any other status
    outside the success range; then an undecodable body; otherwise the
    payload), and leaves the history as it was. *)
Theorem handle_response_refines_interpret (w : World) (r : Response) (tr : trace) :
  Spec.well_formed_headers r = true ->
  success_or_error r = true ->
  _handle_response w r tr = (Spec.rendered r (Spec.interpret (time_time w tr) r), tr).
Proof.
  intros Hwf Hstatus. rewrite (handle_response_after_header_check w r tr Hwf).
  apply andb_prop in Hwf as [_ Hreset].
  unfold Spec.interpret, Spec.indicates_rate_limit.
  rewrite <- (ok_is_success r Hstatus).
  destruct ((status_code r =? 403)
            && Py.contains "rate limit exceeded" (Py.lower (text r))).
  - unfold bind. rewrite (int_header_or_0_spec r tr Hreset). reflexivity.
  - destruct (status_code r =? 404); [reflexivity|].
    destruct (negb (ok r)); [reflexivity|].
    destruct (json_body r); reflexivity.
Qed.

Lemma handle_response_refines_interpret_witness :
  Spec.well_formed_headers Mock.rate_limited = true
  /\ success_or_error Mock.rate_limited = true
  /\ _handle_response (Mock.always (Fail ReadTimeout)) Mock.rate_limited [] =
     (Raise (RateLimitError "Rate limit exceeded. Try again in 60 seconds."), []).
Proof.
  split; [reflexivity|]. split; [reflexivity|].
  exact (handle_response_refines_interpret (Mock.always (Fail ReadTimeout))
           Mock.rate_limited [] eq_refl eq_refl).
Defined.

(** C6 as written fails, in two ways.  A 200 response whose
    X-RateLimit-Remaining header is not an int literal yields none of the
    five outcomes: the [int()] conversion raises ValueError before any rule
    is tried.  And a status outside the success range is not always
    Generic: for a 304 answer (no body) the rules say Generic, and the
    client, for which every status below 400 is a success, goes on to
    decode the body and reports it as malformed. *)
Lemma handle_response_outside_the_rules :
  let w := Mock.always (Fail ReadTimeout) in
  (_handle_response w response_with_odd_header [] =
     (Raise (ValueError "invalid literal for int() with base 10: 'many'"), [])
   /\ Spec.interpret (time_time w []) response_with_odd_header = Spec.Decoded (JObj [])
   /\ (forall o, fst (_handle_response w response_with_odd_header [])
                 <> Spec.rendered response_with_odd_header o))
  /\ (Spec.well_formed_headers not_modified = true
      /\ Spec.interpret (time_time w []) not_modified = Spec.Generic 304 EmptyString
      /\ _handle_response w not_modified [] =
         (Spec.rendered not_modified (Spec.Malformed "Expecting value"), [])
      /\ fst (_handle_response w not_modified [])
         <> Spec.rendered not_modified (Spec.interpret (time_time w []) not_modified)).
Proof.
  cbv zeta. split.
  - split; [reflexivity|]. split; [reflexivity|].
    intros o. destruct o; vm_compute; discriminate.
  - split; [reflexivity|]. split; [reflexivity|]. split; [reflexivity|].
    vm_compute. discriminate.
Qed.

(** ** The retry governor *)

(** A sleep of a length between 0 and [long_sleep] is carried out. *)
Lemma time_sleep_sleeps (secs : Q) (tr : trace) :
  (0 <= secs)%Q -> (secs <= long_sleep)%Q ->
  time_sleep secs tr = (Ok tt, tr ++ [Sleep secs]).
Proof.
  intros H0 Hmax. unfold time_sleep.
  assert (Hns0 : (0 <= secs * inject_Z (10 ^ 9))%Q).
  { apply Qmult_le_0_compat; [exact H0|]. unfold Qle. simpl. lia. }
  assert (Hns : (secs * inject_Z (10 ^ 9) <= long_sleep * inject_Z (10 ^ 9))%Q).
  { apply Qmult_le_compat_r; [exact Hmax|]. unfold Qle. simpl. lia. }
  replace (Qle_bool (inject_Z (- 2 ^ 63)) (secs * inject_Z (10 ^ 9))) with true.
  2:{ symmetry. apply Qle_bool_iff. apply Qle_trans with (y := 0%Q); [|exact Hns0].
      unfold Qle. simpl. lia. }
  replace (Qle_bool (inject_Z (2 ^ 63)) (secs * inject_Z (10 ^ 9))) with false.
  2:{ symmetry. apply not_true_is_false. intros Hle. apply Qle_bool_iff in Hle.
      apply (Qlt_not_le (long_sleep * inject_Z (10 ^ 9)) (inject_Z (2 ^ 63))).
      - unfold Qlt. simpl. lia.
      - apply Qle_trans with (y := (secs * inject_Z (10 ^ 9))%Q); assumption. }
  replace (Qle_bool 0 secs) with true by (symmetry; apply Qle_bool_iff; exact H0).
  reflexivity.
Qed.

(** A negative length that fits the 64 bits is refused. *)
Lemma time_sleep_negative (secs : Q) (tr : trace) :
  (secs < 0)%Q -> (- long_sleep <= secs)%Q ->
  time_sleep secs tr = (Raise (ValueError "sleep length must be non-negative"), tr).
Proof.
  intros H0 Hmin. unfold time_sleep.
  assert (Hns0 : (secs * inject_Z (10 ^ 9) <= 0)%Q).
  { setoid_replace 0%Q with (0 * inject_Z (10 ^ 9))%Q by reflexivity.
    apply Qmult_le_compat_r; [apply Qlt_le_weak; exact H0|]. unfold Qle. simpl. lia. }
  assert (Hns : (- long_sleep * inject_Z (10 ^ 9) <= secs * inject_Z (10 ^ 9))%Q).
  { apply Qmult_le_compat_r; [exact Hmin|]. unfold Qle. simpl. lia. }
  replace (Qle_bool (inject_Z (- 2 ^ 63)) (secs * inject_Z (10 ^ 9))) with true.
  2:{ symmetry. apply Qle_bool_iff.
      apply Qle_trans with (y := (- long_sleep * inject_Z (10 ^ 9))%Q); [|exact Hns].
      unfold Qle. simpl. lia. }
  replace (Qle_bool (inject_Z (2 ^ 63)) (secs * inject_Z (10 ^ 9))) with false.
  2:{ symmetry. apply not_true_is_false. intros Hle. apply Qle_bool_iff in Hle.
      apply (Qlt_not_le 0 (inject_Z (2 ^ 63))).
      - unfold Qlt. simpl. lia.
      - apply Qle_trans with (y := (secs * inject_Z (10 ^ 9))%Q); assumption. }
  replace (Qle_bool 0 secs) with false.
  2:{ symmetry. apply not_true_is_false. intros Hle. apply Qle_bool_iff in Hle.
      exact (Qlt_not_le _ _ H0 Hle). }
  reflexivity.
Qed.

(** The back-off after an attempt, where the governor can carry it out:
    it leaves one sleep in the history. *)
Lemma back_off_sleeps (base_delay : Q) (attempt : Z) (tr : trace) :
  can_back_off base_delay attempt = true ->
  back_off base_delay attempt tr = (Ok tt, tr ++ [Sleep (delay_seconds base_delay attempt)]).
Proof.
  unfold can_back_off. intros H.
  apply andb_prop in H as [H Hmax]. apply andb_prop in H as [Ha H0].
  apply Z.ltb_lt in Ha. apply Qle_bool_iff in H0. apply Qle_bool_iff in Hmax.
  unfold back_off, bind, lift, delay.
  replace (1024 <=? attempt) with false by (symmetry; apply Z.leb_gt; exact Ha).
  fold (delay_seconds base_delay attempt).
  apply (time_sleep_sleeps _ tr H0 Hmax).
Qed.

(** However the back-off ends, it leaves the history as it was or adds
    one sleep to it. *)
Lemma back_off_total (base_delay : Q) (attempt : Z) (tr : trace) :
  exists res evs,
    back_off base_delay attempt tr = (res, tr ++ evs)
    /\ res <> OutOfFuel
    /\ (evs = [] \/ evs = [Sleep (delay_seconds base_delay attempt)])
    /\ match res with
       | Raise e => caught_by_retry e = false /\ is_GitHubAPIError e = false
       | _ => True
       end.
Proof.
  unfold back_off, bind, lift, delay.
  destruct (1024 <=? attempt).
  - eexists. exists []. rewrite app_nil_r.
    split; [reflexivity|]. split; [discriminate|]. split; [left; reflexivity|].
    split; reflexivity.
  - fold (delay_seconds base_delay attempt). unfold time_sleep.
    destruct (negb _ || _).
    + eexists. exists []. rewrite app_nil_r.
      split; [reflexivity|]. split; [discriminate|]. split; [left; reflexivity|].
      split; reflexivity.
    + destruct (negb _).
      * eexists. exists []. rewrite app_nil_r.
        split; [reflexivity|]. split; [discriminate|]. split; [left; reflexivity|].
        split; reflexivity.
      * eexists. eexists.
        split; [reflexivity|]. split; [discriminate|]. split; [right; reflexivity|].
        exact I.
Qed.

Section Retry.

Context {A : Type}.
Variables (max_retries : Z) (base_delay : Q) (func : M A).

Lemma retry_for_uncaught (attempts : list Z) (tr tr' : trace) (e : exn) :
  func tr = (Raise e, tr') ->
  caught_by_retry e = false ->
  retry_for max_retries base_delay func attempts tr = (Raise e, tr').
Proof.
  intros Hf Hc. destruct attempts as [|attempt rest]; simpl.
  - exact Hf.
  - rewrite Hf, Hc. reflexivity.
Qed.

Lemma retry_for_returns (attempts : list Z) (tr tr' : trace) (a : A) :
  func tr = (Ok a, tr') ->
  retry_for max_retries base_delay func attempts tr = (Ok a, tr').
Proof.
  intros Hf. destruct attempts as [|attempt rest]; simpl.
  - exact Hf.
  - rewrite Hf. reflexivity.
Qed.

Lemma retry_for_caught (attempt : Z) (rest : list Z) (tr tr' : trace) (e : exn) :
  func tr = (Raise e, tr') ->
  caught_by_retry e = true ->
  retry_for max_retries base_delay func (attempt :: rest) tr =
  if attempt =? max_retries then (Raise e, tr')
  else (back_off base_delay attempt ;;; retry_for max_retries base_delay func rest) tr'.
Proof.
  intros Hf Hc. cbn [retry_for]. rewrite Hf, Hc.
  destruct (attempt =? max_retries); [reflexivity|].
  unfold back_off, bind, lift. destruct (delay base_delay attempt); reflexivity.
Qed.

Lemma retry_for_backs_off (attempt : Z) (rest : list Z) (tr tr' : trace) (e : exn) :
  func tr = (Raise e, tr') ->
  caught_by_retry e = true ->
  (attempt =? max_retries) = false ->
  can_back_off base_delay attempt = true ->
  retry_for max_retries base_delay func (attempt :: rest) tr =
  retry_for max_retries base_delay func rest
    (tr' ++ [Sleep (delay_seconds base_delay attempt)]).
Proof.
  intros Hf Hc Hne Hok.
  rewrite (retry_for_caught attempt rest tr tr' e Hf Hc), Hne.
  unfold bind at 1. rewrite (back_off_sleeps base_delay attempt tr' Hok). reflexivity.
Qed.

End Retry.

Lemma attempts_from_0 (max_retries : Z) :
  attempts_from max_retries 0 = Py.range (max_retries + 1).
Proof. unfold attempts_from, Py.range. now rewrite Z.sub_0_r. Qed.

Lemma attempts_from_step (max_retries attempt : Z) :
  attempt <= max_retries ->
  attempts_from max_retries attempt = attempt :: attempts_from max_retries (attempt + 1).
Proof.
  intros H. unfold attempts_from.
  replace (Z.to_nat (max_retries + 1 - attempt))
    with (S (Z.to_nat (max_retries + 1 - (attempt + 1)))) by lia.
  reflexivity.
Qed.

(** Which failures of the interpreter the governor catches: the
    rate-limited 403 and nothing else. *)
Lemma handle_response_caught (w : World) (r : Response) (tr : trace) :
  Spec.well_formed_headers r = true ->
  raises_caught (fst (_handle_response w r tr))
  = (status_code r =? 403) && Spec.indicates_rate_limit (text r).
Proof.
  intros Hwf. rewrite (handle_response_after_header_check w r tr Hwf).
  apply andb_prop in Hwf as [_ Hreset].
  unfold Spec.indicates_rate_limit.
  destruct ((status_code r =? 403)
            && Py.contains "rate limit exceeded" (Py.lower (text r))).
  - unfold bind. rewrite (int_header_or_0_spec r tr Hreset). reflexivity.
  - destruct (status_code r =? 404); [reflexivity|].
    destruct (negb (ok r)); [reflexivity|].
    destruct (json_body r); reflexivity.
Qed.

(** C1, as amended.  The governor, for any wrapped operation: an attempt
    that fails with an exception the governor does not catch ends the call
    at once, with that exception, without a sleep and without another
    attempt; an attempt that fails with an exception it catches (a requests
    exception that reaches it, or RateLimitError) while attempts remain is
    followed by a sleep of base_delay * 2^attempt and the next attempt
    (where the governor can back off: a delay between 0 and a million
    seconds); at the last attempt that exception ends the call.  The
    interpreter: of what it raises on a response only the rate-limited 403
    is caught; a 5xx status is the generic error, which is not.  The
    wrapped operation of the client: when the answer to the first GET is
    anything but a rate-limited 403, [_make_request] ends with the
    interpreter's outcome for it after that one GET and no sleep. *)
Theorem retry_policy :
  (forall (A : Type) (max_retries : Z) (base_delay : Q) (func : M A)
          (attempt : Z) (tr tr' : trace) (e : exn),
      func tr = (Raise e, tr') ->
      caught_by_retry e = false ->
      retry_for max_retries base_delay func (attempts_from max_retries attempt) tr
      = (Raise e, tr'))
  /\ (forall (A : Type) (max_retries : Z) (base_delay : Q) (func : M A)
             (attempt : Z) (tr tr' : trace) (e : exn),
         0 <= attempt < max_retries ->
         can_back_off base_delay attempt = true ->
         func tr = (Raise e, tr') ->
         caught_by_retry e = true ->
         retry_for max_retries base_delay func (attempts_from max_retries attempt) tr =
         retry_for max_retries base_delay func (attempts_from max_retries (attempt + 1))
           (tr' ++ [Sleep (delay_seconds base_delay attempt)]))
  /\ (forall (A : Type) (max_retries : Z) (base_delay : Q) (func : M A)
             (tr tr' : trace) (e : exn),
         0 <= max_retries ->
         func tr = (Raise e, tr') ->
         caught_by_retry e = true ->
         retry_for max_retries base_delay func (attempts_from max_retries max_retries) tr
         = (Raise e, tr'))
  /\ (forall (w : World) (r : Response) (tr : trace),
         Spec.well_formed_headers r = true ->
         raises_caught (fst (_handle_response w r tr))
         = (status_code r =? 403) && Spec.indicates_rate_limit (text r))
  /\ (forall (w : World) (r : Response) (tr : trace),
         Spec.well_formed_headers r = true ->
         500 <= status_code r < 600 ->
         _handle_response w r tr =
         (Raise (GitHubAPIError
                   ("GitHub API error " +++ Py.str_of_int (status_code r) +++ ": "
                    +++ text r)), tr))
  /\ (forall (w : World) (endpoint : string) (ps : option params) (tr : trace)
             (r : Response),
         session_get w (tr ++ [Call endpoint ps]) (url_of endpoint) ps = Resp r ->
         Spec.well_formed_headers r = true ->
         (status_code r =? 403) && Spec.indicates_rate_limit (text r) = false ->
         let tr' := tr ++ [Call endpoint ps; Get (url_of endpoint) ps] in
         _make_request w endpoint ps tr = (fst (_handle_response w r tr'), tr')).
Proof.
  split; [|split; [|split; [|split; [|split]]]].
  - intros A max_retries base_delay func attempt tr tr' e Hf Hc.
    apply retry_for_uncaught; assumption.
  - intros A max_retries base_delay func attempt tr tr' e Hrange Hok Hf Hc.
    rewrite (attempts_from_step max_retries attempt) by lia.
    apply (retry_for_backs_off max_retries base_delay func attempt _ tr tr' e Hf Hc);
      [apply Z.eqb_neq; lia|exact Hok].
  - intros A max_retries base_delay func tr tr' e Hmax Hf Hc.
    rewrite (attempts_from_step max_retries max_retries) by lia.
    rewrite (retry_for_caught max_retries base_delay func max_retries _ tr tr' e Hf Hc).
    rewrite Z.eqb_refl. reflexivity.
  - exact handle_response_caught.
  - intros w r tr Hwf Hs.
    rewrite (handle_response_after_header_check w r tr Hwf). unfold ok.
    replace (status_code r =? 403) with false by (symmetry; apply Z.eqb_neq; lia).
    replace (status_code r =? 404) with false by (symmetry; apply Z.eqb_neq; lia).
    replace (400 <=? status_code r) with true by (symmetry; apply Z.leb_le; lia).
    replace (status_code r <? 600) with true by (symmetry; apply Z.ltb_lt; lia).
    reflexivity.
  - intros w endpoint ps tr r Hget Hwf Hnot tr'.
    pose proof (handle_response_caught w r tr' Hwf) as Hc. rewrite Hnot in Hc.
    unfold _make_request, bind, emit, retry_with_exponential_backoff.
    assert (Hbody : _make_request_body w endpoint ps (tr ++ [Call endpoint ps])
                    = _handle_response w r tr').
    { unfold _make_request_body. fold (url_of endpoint). rewrite Hget.
      subst tr'. rewrite <- app_assoc. reflexivity. }
    destruct (handle_response_total w r tr') as (res & Hres & Hfuel).
    rewrite Hres in Hc, Hbody |- *. cbn [fst].
    destruct res as [j|e|]; [| |contradiction].
    + apply retry_for_returns. exact Hbody.
    + apply retry_for_uncaught; [exact Hbody|exact Hc].
Qed.

Lemma retry_policy_witness :
  let w := Mock.always (Resp Mock.rate_limited) in
  let w' := Mock.always (Resp (Mock.plain 503 "Service Unavailable")) in
  let func := _make_request_body w "repos/a/b" None in
  let url := "https://api.github.com/repos/a/b" in
  let e := RateLimitError "Rate limit exceeded. Try again in 60 seconds." in
  let e' := GitHubAPIError "GitHub API error 503: Service Unavailable" in
  (0 <= 0 < 3 /\ can_back_off 1 0 = true /\ func [] = (Raise e, [Get url None])
   /\ caught_by_retry e = true
   /\ retry_with_exponential_backoff 3 1 func [] =
      retry_for 3 1 func [1; 2; 3] [Get url None; Sleep 1])
  /\ (0 <= 3
      /\ func [Get url None; Sleep 1; Get url None; Sleep 2; Get url None; Sleep 4]
         = (Raise e, [Get url None; Sleep 1; Get url None; Sleep 2; Get url None; Sleep 4;
                      Get url None])
      /\ retry_for 3 1 func [3]
           [Get url None; Sleep 1; Get url None; Sleep 2; Get url None; Sleep 4]
         = (Raise e, [Get url None; Sleep 1; Get url None; Sleep 2; Get url None; Sleep 4;
                      Get url None]))
  /\ (Spec.well_formed_headers (Mock.plain 503 "Service Unavailable") = true
      /\ 500 <= 503 < 600
      /\ _handle_response w' (Mock.plain 503 "Service Unavailable") [] = (Raise e', [])
      /\ caught_by_retry e' = false
      /\ retry_with_exponential_backoff 3 1 (_make_request_body w' "repos/a/b" None) []
         = (Raise e', [Get url None]))
  /\ _make_request w' "repos/a/b" None []
     = (Raise e', [Call "repos/a/b" None; Get url None]).
Proof.
  cbv zeta.
  destruct retry_policy as (Huncaught & Hcaught & Hlast & _ & Hserver & Hrequest).
  split; [|split; [|split]].
  - split; [lia|]. split; [reflexivity|]. split; [reflexivity|]. split; [reflexivity|].
    exact (Hcaught json 3 1%Q
             (_make_request_body (Mock.always (Resp Mock.rate_limited)) "repos/a/b" None)
             0 [] _ _ (conj (Z.le_refl 0) (proj1 (Z.ltb_lt 0 3) eq_refl))
             eq_refl eq_refl eq_refl).
  - split; [lia|]. split; [reflexivity|].
    exact (Hlast json 3 1%Q
             (_make_request_body (Mock.always (Resp Mock.rate_limited)) "repos/a/b" None)
             _ _ _ (Zle_bool_imp_le 0 3 eq_refl) eq_refl eq_refl).
  - split; [reflexivity|]. split; [lia|]. split.
    + exact (Hserver (Mock.always (Resp (Mock.plain 503 "Service Unavailable")))
               (Mock.plain 503 "Service Unavailable") [] eq_refl
               (conj (Zle_bool_imp_le 500 503 eq_refl) (proj1 (Z.ltb_lt 503 600) eq_refl))).
    + split; [reflexivity|].
      exact (Huncaught json 3 1%Q
               (_make_request_body (Mock.always (Resp (Mock.plain 503 "Service Unavailable")))
                  "repos/a/b" None)
               0 [] _ _ eq_refl eq_refl).
  - exact (Hrequest (Mock.always (Resp (Mock.plain 503 "Service Unavailable")))
             "repos/a/b" None [] (Mock.plain 503 "Service Unavailable")
             eq_refl eq_refl eq_refl).
Defined.

(** C1 as written fails: a 503 answer, which the claim counts as Transient,
    is not retried.  [_make_request] makes one GET, does not sleep, and
    raises the generic error. *)
Lemma server_error_not_retried :
  let run := _make_request (Mock.always (Resp (Mock.plain 503 "Service Unavailable")))
               "repos/a/b" None [] in
  fst run = Raise (GitHubAPIError "GitHub API error 503: Service Unavailable")
  /\ gets (snd run) = 1%nat
  /\ sleeps (snd run) = [].
Proof. cbv zeta. repeat split. Qed.

(** C5: with the default budget (max_retries = 3, four attempts) and
    base_delay = 1.0, an operation that fails with a caught exception every
    time is attempted four times, the governor sleeps 1, 2 and 4 seconds
    between the attempts, and the failure of the fourth attempt is the
    outcome of the call, in the state that attempt left (no sleep after
    it). *)
Theorem backoff_sequence {A : Type} (func : M A) (tr : trace) :
  (forall t, exists e t', func t = (Raise e, t') /\ caught_by_retry e = true) ->
  exists e1 t1 e2 t2 e3 t3 e4 t4,
    func tr = (Raise e1, t1)
    /\ func (t1 ++ [Sleep 1]) = (Raise e2, t2)
    /\ func (t2 ++ [Sleep 2]) = (Raise e3, t3)
    /\ func (t3 ++ [Sleep 4]) = (Raise e4, t4)
    /\ retry_with_exponential_backoff 3 1 func tr = (Raise e4, t4).
Proof.
  intros Hfail.
  destruct (Hfail tr) as (e1 & t1 & H1 & C1).
  destruct (Hfail (t1 ++ [Sleep 1])) as (e2 & t2 & H2 & C2).
  destruct (Hfail (t2 ++ [Sleep 2])) as (e3 & t3 & H3 & C3).
  destruct (Hfail (t3 ++ [Sleep 4])) as (e4 & t4 & H4 & C4).
  exists e1, t1, e2, t2, e3, t3, e4, t4.
  repeat (split; [assumption|]).
  unfold retry_with_exponential_backoff.
  change (Py.range (3 + 1)) with [0; 1; 2; 3].
  rewrite (retry_for_backs_off 3 1 func 0 _ tr t1 e1 H1 C1 eq_refl eq_refl).
  change (delay_seconds 1 0) with 1%Q.
  rewrite (retry_for_backs_off 3 1 func 1 _ _ t2 e2 H2 C2 eq_refl eq_refl).
  change (delay_seconds 1 1) with 2%Q.
  rewrite (retry_for_backs_off 3 1 func 2 _ _ t3 e3 H3 C3 eq_refl eq_refl).
  change (delay_seconds 1 2) with 4%Q.
  rewrite (retry_for_caught 3 1 func 3 _ _ t4 e4 H4 C4).
  reflexivity.
Qed.

Lemma backoff_sequence_witness :
  let func := _make_request_body (Mock.always (Resp Mock.rate_limited)) "repos/a/b" None in
  (forall t, exists e t', func t = (Raise e, t') /\ caught_by_retry e = true)
  /\ exists e1 t1 e2 t2 e3 t3 e4 t4,
      func [] = (Raise e1, t1)
      /\ func (t1 ++ [Sleep 1]) = (Raise e2, t2)
      /\ func (t2 ++ [Sleep 2]) = (Raise e3, t3)
      /\ func (t3 ++ [Sleep 4]) = (Raise e4, t4)
      /\ retry_with_exponential_backoff 3 1 func [] = (Raise e4, t4).
Proof.
  cbv zeta.
  assert (H : forall t, exists e t',
             _make_request_body (Mock.always (Resp Mock.rate_limited)) "repos/a/b" None t
             = (Raise e, t') /\ caught_by_retry e = true).
  { intros t. eexists. eexists. split; reflexivity. }
  split; [exact H|].
  exact (backoff_sequence
           (_make_request_body (Mock.always (Resp Mock.rate_limited)) "repos/a/b" None) [] H).
Defined.

(** The same run seen from outside: four GETs, sleeps of 1, 2 and 4
    seconds, and the rate-limit error at the end. *)
Example rate_limited_request_trace :
  let url := "https://api.github.com/repos/a/b" in
  _make_request (Mock.always (Resp Mock.rate_limited)) "repos/a/b" None [] =
  (Raise (RateLimitError "Rate limit exceeded. Try again in 60 seconds."),
   [Call "repos/a/b" None; Get url None; Sleep 1; Get url None; Sleep 2;
    Get url None; Sleep 4; Get url None]).
Proof. reflexivity. Qed.

(** A timeout or a connection failure of the transport leaves
    [_make_request_body] as a plain GitHubAPIError, which the governor does
    not catch. *)
Lemma transport_failure_not_retried (k : request_exception) :
  is_Timeout k || is_ConnectionError k = true ->
  let run := _make_request (Mock.always (Fail k)) "repos/a/b" None [] in
  is_GitHubAPIError_result (fst run) = true
  /\ gets (snd run) = 1%nat /\ sleeps (snd run) = [].
Proof. destruct k; simpl; intros H; try discriminate; repeat split. Qed.

(** ** Owner-type detection *)

(** What [_detect_owner_type] does with the outcomes of its two probes. *)
Lemma detect_owner_type_cases (w : World) (owner_name : string) (tr : trace) :
  match _make_request w ("orgs/" +++ owner_name) None tr with
  | (Ok _, tr1) => _detect_owner_type w owner_name tr = (Ok "org", tr1)
  | (OutOfFuel, tr1) => _detect_owner_type w owner_name tr = (OutOfFuel, tr1)
  | (Raise e1, tr1) =>
      if is_GitHubAPIError e1 then
        match _make_request w ("users/" +++ owner_name) None tr1 with
        | (Ok _, tr2) => _detect_owner_type w owner_name tr = (Ok "user", tr2)
        | (OutOfFuel, tr2) => _detect_owner_type w owner_name tr = (OutOfFuel, tr2)
        | (Raise e2, tr2) =>
            _detect_owner_type w owner_name tr =
            (Raise (if is_GitHubAPIError e2
                    then GitHubAPIError
                           ("Owner '" +++ owner_name
                            +++ "' not found as organization or user")
                    else e2), tr2)
        end
      else _detect_owner_type w owner_name tr = (Raise e1, tr1)
  end.
Proof.
  unfold _detect_owner_type, try_except_GitHubAPIError, bind, ret, raise.
  destruct (_make_request w ("orgs/" +++ owner_name) None tr) as [[j1|e1|] tr1];
    try reflexivity.
  destruct (is_GitHubAPIError e1) eqn:H1; [|reflexivity].
  destruct (_make_request w ("users/" +++ owner_name) None tr1) as [[j2|e2|] tr2];
    try reflexivity.
  destruct (is_GitHubAPIError e2); reflexivity.
Qed.

(** C3, the defect: when both probes time out, nothing has been learnt
    about the owner, yet [_detect_owner_type] reports that the owner was
    not found as organization or user.  (Each probe is made once: the
    timeout has become a GitHubAPIError before the governor sees it.) *)
Theorem detect_owner_type_timeout_as_not_found :
  _detect_owner_type (Mock.always (Fail ReadTimeout)) "octocat" [] =
  (Raise (GitHubAPIError "Owner 'octocat' not found as organization or user"),
   [Call "orgs/octocat" None; Get "https://api.github.com/orgs/octocat" None;
    Call "users/octocat" None; Get "https://api.github.com/users/octocat" None]).
Proof. reflexivity. Qed.

(** The same with a provider that answers 503 to both probes. *)
Example detect_owner_type_server_error_as_not_found :
  fst (_detect_owner_type (Mock.always (Resp (Mock.plain 503 "Service Unavailable")))
         "octocat" []) =
  Raise (GitHubAPIError "Owner 'octocat' not found as organization or user").
Proof. reflexivity. Qed.

(** ** README lookup *)

Lemma contains_not_found_in_resource_not_found (u : string) :
  Py.contains "not found" (Py.lower ("Resource not found: " +++ u)) = true.
Proof. reflexivity. Qed.

(** A NotFound answer to the README request gives [None]. *)
Lemma readme_not_found_is_none (w : World) (owner repo_name u : string) (tr tr' : trace) :
  (owner =? EmptyString)%string || (repo_name =? EmptyString)%string = false ->
  _make_request w ("repos/" +++ Py.strip owner +++ "/" +++ Py.strip repo_name +++ "/readme")
    None tr = (Raise (GitHubAPIError ("Resource not found: " +++ u)), tr') ->
  get_repository_readme w owner repo_name tr = (Ok None, tr').
Proof.
  intros Hvalid Hreq. unfold get_repository_readme. rewrite Hvalid.
  unfold try_except_GitHubAPIError, bind at 1. rewrite Hreq.
  cbn [is_GitHubAPIError str_of_exn].
  rewrite contains_not_found_in_resource_not_found. reflexivity.
Qed.

(** C9, the defect: a failure that is not NotFound is swallowed as well
    when its text happens to contain "not found".  Here the provider
    answers 500; [get_repository_readme] returns [None] instead of raising
    the generic error. *)
Theorem readme_server_error_swallowed :
  let w := Mock.always (Resp (Mock.plain 500 "upstream not found")) in
  _make_request w "repos/octocat/hello/readme" None [] =
    (Raise (GitHubAPIError "GitHub API error 500: upstream not found"),
     [Call "repos/octocat/hello/readme" None;
      Get "https://api.github.com/repos/octocat/hello/readme" None])
  /\ get_repository_readme w "octocat" "hello" [] =
    (Ok None,
     [Call "repos/octocat/hello/readme" None;
      Get "https://api.github.com/repos/octocat/hello/readme" None]).
Proof. split; reflexivity. Qed.

(** A failure whose text does not contain "not found" is raised again. *)
Example readme_server_error_propagates :
  fst (get_repository_readme (Mock.always (Resp (Mock.plain 500 "Internal Server Error")))
         "octocat" "hello" []) =
  Raise (GitHubAPIError "GitHub API error 500: Internal Server Error").
Proof. reflexivity. Qed.

(** ** Single-page search *)

(** C10, as amended: when the decoded search response is a JSON object,
    [search_repositories] returns an object holding both 'total_count' and
    'items': the payload itself when it has both keys, and
    {'total_count': 0, 'items': []} when either is missing; it does not
    raise. *)
Theorem search_repositories_object_payload (w : World) (query sort order : string)
    (per_page : Z) (members : list (string * json)) (tr tr' : trace) :
  valid_search query sort order = true ->
  _make_request w "search/repositories"
    (@Some params
       [("q", PStr (Py.strip query)); ("sort", PStr sort); ("order", PStr order);
        ("per_page", PInt (Z.min per_page 100))]) tr = (Ok (JObj members), tr') ->
  exists d,
    search_repositories w query sort order per_page tr = (Ok d, tr')
    /\ has_key "total_count" d = true
    /\ has_key "items" d = true
    /\ d = (if has_key "total_count" (JObj members) && has_key "items" (JObj members)
            then JObj members else empty_search_result).
Proof.
  unfold valid_search. intros Hvalid Hreq.
  apply andb_prop in Hvalid as [Hvalid Horder].
  apply andb_prop in Hvalid as [Hquery Hsort].
  apply negb_true_iff in Hquery.
  unfold search_repositories. rewrite Hquery, Hsort, Horder. cbn [negb].
  unfold bind at 1. rewrite Hreq.
  unfold has_key. cbn [py_in lift bind].
  destruct (lookup "total_count" members) as [t|] eqn:Ht.
  - cbn. destruct (lookup "items" members) as [i|] eqn:Hi.
    + exists (JObj members). cbn. rewrite Ht, Hi. auto.
    + exists empty_search_result. cbn. auto.
  - exists empty_search_result. cbn. auto.
Qed.

Lemma search_repositories_object_payload_witness :
  let w := Mock.always (Resp (Mock.payload (JObj [("message", JStr "odd")]))) in
  valid_search "kinect" "stars" "desc" = true
  /\ exists d,
      search_repositories w "kinect" "stars" "desc" 15 [] =
        (Ok d,
         [Call "search/repositories"
            (Some [("q", PStr "kinect"); ("sort", PStr "stars"); ("order", PStr "desc");
                   ("per_page", PInt 15)]);
          Get "https://api.github.com/search/repositories"
            (Some [("q", PStr "kinect"); ("sort", PStr "stars"); ("order", PStr "desc");
                   ("per_page", PInt 15)])])
      /\ has_key "total_count" d = true
      /\ has_key "items" d = true
      /\ d = empty_search_result.
Proof.
  cbv zeta. split; [reflexivity|].
  exact (search_repositories_object_payload
           (Mock.always (Resp (Mock.payload (JObj [("message", JStr "odd")]))))
           "kinect" "stars" "desc" 15 [("message", JStr "odd")] [] _ eq_refl eq_refl).
Defined.

(** C10 as written fails: a response that decodes to [null] makes the
    membership test raise TypeError. *)
Lemma search_repositories_null_payload :
  let w := Mock.always (Resp (Mock.payload JNull)) in
  fst (_make_request w "search/repositories"
         (Some [("q", PStr "kinect"); ("sort", PStr "stars"); ("order", PStr "desc");
                ("per_page", PInt 15)]) []) = Ok JNull
  /\ fst (search_repositories w "kinect" "stars" "desc" 15 []) =
     Raise (TypeError "argument of type 'NoneType' is not iterable").
Proof. split; reflexivity. Qed.

(** ** The search pager and rate limits *)

Lemma rate_limit_message_recognised (wait : Z) :
  Py.contains "rate limit" (Py.lower (rate_limit_message wait)) = true.
Proof. reflexivity. Qed.

(** A GitHubAPIError that the governor raises was raised by the wrapped
    operation. *)
Lemma retry_for_raise_origin {A : Type} (max_retries : Z) (base_delay : Q) (func : M A)
    (attempts : list Z) (tr tr' : trace) (e : exn) :
  is_GitHubAPIError e = true ->
  retry_for max_retries base_delay func attempts tr = (Raise e, tr') ->
  exists t, func t = (Raise e, tr').
Proof.
  intros He. revert tr. induction attempts as [|attempt rest IH]; intros tr.
  - intros H. exists tr. exact H.
  - destruct (func tr) as [[a|e0|] t0] eqn:Hf;
      [cbn [retry_for]; rewrite Hf; discriminate| |cbn [retry_for]; rewrite Hf; discriminate].
    destruct (caught_by_retry e0) eqn:Hc.
    + rewrite (retry_for_caught max_retries base_delay func attempt rest tr t0 e0 Hf Hc).
      destruct (attempt =? max_retries).
      * intros H. inversion H; subst. exists tr. exact Hf.
      * unfold bind at 1.
        destruct (back_off_total base_delay attempt t0) as (res & evs & -> & _ & _ & Hres).
        destruct res as [[]|e1|]; [apply IH| |discriminate].
        intros H. inversion H; subst. destruct Hres as [_ Hres]. congruence.
    + rewrite (retry_for_uncaught max_retries base_delay func _ tr t0 e0 Hf Hc).
      intros H. inversion H; subst. exists tr. exact Hf.
Qed.

Lemma handle_response_rate_limit_message (w : World) (r : Response) (tr tr' : trace)
    (msg : string) :
  _handle_response w r tr = (Raise (RateLimitError msg), tr') ->
  exists wait, msg = rate_limit_message wait.
Proof.
  unfold _handle_response, bind at 1.
  set (check := match header_lookup "X-RateLimit-Remaining" (headers r) with
                | Some v => _ | None => _ end).
  assert (Hcheck : check tr = (Ok tt, tr) \/ exists m, check tr = (Raise (ValueError m), tr)).
  { subst check. destruct (header_lookup "X-RateLimit-Remaining" (headers r)) as [v|].
    - unfold bind.
      destruct (py_int_cases v tr) as [(n & _ & ->)|(_ & m & ->)];
        [|right; eexists; reflexivity].
      destruct (n <? 10); [|left; reflexivity].
      destruct (int_header_or_0_cases "X-RateLimit-Reset" (headers r) tr)
        as [[n' ->]|[m ->]]; [left; reflexivity|right; eexists; reflexivity].
    - left. reflexivity. }
  destruct Hcheck as [->|[m ->]]; [|discriminate].
  destruct ((status_code r =? 403)
            && Py.contains "rate limit exceeded" (Py.lower (text r))).
  - unfold bind at 1.
    destruct (int_header_or_0_cases "X-RateLimit-Reset" (headers r) tr)
      as [[n ->]|[m ->]]; [|discriminate].
    cbn. intros H. inversion H. eexists. reflexivity.
  - destruct (status_code r =? 404); [discriminate|].
    destruct (negb (ok r)); [discriminate|].
    destruct (json_body r); discriminate.
Qed.

Lemma make_request_rate_limit_message (w : World) (endpoint : string) (ps : option params)
    (tr tr' : trace) (msg : string) :
  _make_request w endpoint ps tr = (Raise (RateLimitError msg), tr') ->
  exists wait, msg = rate_limit_message wait.
Proof.
  unfold _make_request, bind, emit, retry_with_exponential_backoff.
  intros H. apply retry_for_raise_origin in H as [t H]; [|reflexivity].
  unfold _make_request_body in H.
  destruct (session_get w t _ ps) as [r|k].
  - eapply handle_response_rate_limit_message. exact H.
  - destruct (is_Timeout k); [discriminate|].
    destruct (is_ConnectionError k); discriminate.
Qed.

(** Whenever the request for the next search page ends in a
    RateLimitError, the loop is left with the items accumulated before that
    request. *)
Lemma search_loop_soft_stop (w : World) (fuel : nat) (query sort order : string)
    (max_results per_page page : Z) (repositories : list json) (msg : string)
    (tr tr' : trace) :
  Py.len repositories < max_results ->
  _make_request w "search/repositories"
    (Some (search_params query sort order
             (Z.min per_page (max_results - Py.len repositories)) page)) tr
  = (Raise (RateLimitError msg), tr') ->
  search_repositories_paginated_loop w (S fuel) query sort order max_results per_page
    page repositories tr = (Ok repositories, tr').
Proof.
  intros Hlt Hreq.
  destruct (make_request_rate_limit_message _ _ _ _ _ _ Hreq) as [wait ->].
  cbn [search_repositories_paginated_loop].
  replace (Py.len repositories <? max_results) with true
    by (symmetry; apply Z.ltb_lt; exact Hlt).
  cbn [negb].
  unfold bind at 1, search_repositories_paginated_body, try_except_GitHubAPIError.
  unfold bind at 1. rewrite Hreq.
  cbn [is_GitHubAPIError str_of_exn].
  rewrite rate_limit_message_recognised. reflexivity.
Qed.

(** The whole call of the specification's example: the first page is
    filled, the second request is rate limited; the 100 items of the first
    page come back and nothing is raised. *)
Example search_rate_limited_on_second_request :
  fst (search_repositories_paginated Mock.search_then_rate_limited
         "kinect" "updated" "desc" 250 []) = Ok (Mock.repos 0 100).
Proof. vm_compute. reflexivity. Qed.

(** ** Requests that succeed *)

Lemma handle_response_delivers (w : World) (r : Response) (j : json) (tr : trace) :
  delivers r j -> _handle_response w r tr = (Ok j, tr).
Proof.
  intros (Hs & Hwf & Hj).
  rewrite (handle_response_after_header_check w r tr Hwf).
  replace (status_code r =? 403) with false by (symmetry; apply Z.eqb_neq; lia).
  replace (status_code r =? 404) with false by (symmetry; apply Z.eqb_neq; lia).
  unfold ok.
  replace (400 <=? status_code r) with false by (symmetry; apply Z.leb_gt; lia).
  cbn. rewrite Hj. reflexivity.
Qed.

Lemma make_request_delivers (w : World) (endpoint : string) (ps : option params)
    (r : Response) (j : json) (tr : trace) :
  session_get w (tr ++ [Call endpoint ps]) (url_of endpoint) ps = Resp r ->
  delivers r j ->
  _make_request w endpoint ps tr =
  (Ok j, tr ++ [Call endpoint ps; Get (url_of endpoint) ps]).
Proof.
  intros Hget Hr.
  unfold _make_request, bind, emit, retry_with_exponential_backoff.
  erewrite retry_for_returns; [reflexivity|].
  unfold _make_request_body. fold (url_of endpoint). rewrite Hget.
  rewrite (handle_response_delivers w r j _ Hr).
  rewrite <- app_assoc. reflexivity.
Qed.

(** ** What every request leaves in the history *)

Lemma make_request_body_total (w : World) (endpoint : string) (ps : option params)
    (tr : trace) :
  exists res,
    _make_request_body w endpoint ps tr = (res, tr ++ [Get (url_of endpoint) ps])
    /\ res <> OutOfFuel.
Proof.
  unfold _make_request_body. fold (url_of endpoint).
  destruct (session_get w tr (url_of endpoint) ps) as [r|k].
  - apply handle_response_total.
  - destruct (is_Timeout k); [eexists; split; [reflexivity|discriminate]|].
    destruct (is_ConnectionError k); eexists; (split; [reflexivity|discriminate]).
Qed.

Lemma calls_app (a b : trace) : calls (a ++ b) = (calls a + calls b)%nat.
Proof. unfold calls. rewrite filter_app, length_app. reflexivity. Qed.

Lemma page_requests_app (a b : trace) :
  page_requests (a ++ b) = (page_requests a + page_requests b)%nat.
Proof. unfold page_requests. rewrite filter_app, length_app. reflexivity. Qed.

Lemma page_requests_le_calls (evs : trace) : (page_requests evs <= calls evs)%nat.
Proof.
  unfold page_requests, calls. induction evs as [|e evs IH]; simpl; [lia|].
  destruct e as [ep [ps|]|u ps|d]; simpl; try lia.
  destruct (param_int "page" ps); simpl; lia.
Qed.

(** The governor adds GETs and sleeps to the history, never a call. *)
Lemma retry_for_total (w : World) (endpoint : string) (ps : option params)
    (max_retries : Z) (base_delay : Q) (attempts : list Z) (tr : trace) :
  exists res evs,
    retry_for max_retries base_delay (_make_request_body w endpoint ps) attempts tr
    = (res, tr ++ evs)
    /\ calls evs = 0%nat /\ res <> OutOfFuel.
Proof.
  revert tr. induction attempts as [|attempt rest IH]; intros tr.
  - cbn [retry_for].
    destruct (make_request_body_total w endpoint ps tr) as (res & -> & Hres).
    exists res, [Get (url_of endpoint) ps]. auto.
  - destruct (make_request_body_total w endpoint ps tr) as (res & Hf & Hres).
    destruct res as [j|e|]; [| |contradiction].
    + rewrite (retry_for_returns max_retries base_delay _ _ tr _ j Hf).
      exists (Ok j), [Get (url_of endpoint) ps]. auto.
    + destruct (caught_by_retry e) eqn:Hc.
      * rewrite (retry_for_caught max_retries base_delay _ attempt rest tr _ e Hf Hc).
        destruct (attempt =? max_retries).
        { exists (Raise e), [Get (url_of endpoint) ps]. auto. }
        unfold bind at 1.
        destruct (back_off_total base_delay attempt (tr ++ [Get (url_of endpoint) ps]))
          as (res & evs & -> & Hfuel & Hevs & _).
        assert (Hcalls : calls evs = 0%nat) by (destruct Hevs as [->| ->]; reflexivity).
        destruct res as [[]|e1|]; [| |contradiction].
        -- destruct (IH ((tr ++ [Get (url_of endpoint) ps]) ++ evs))
             as (res' & evs' & -> & Hc' & Hres').
           exists res', ([Get (url_of endpoint) ps] ++ evs ++ evs').
           rewrite !calls_app, Hc', Hcalls, <- !app_assoc. auto.
        -- exists (Raise e1), ([Get (url_of endpoint) ps] ++ evs).
           rewrite !calls_app, Hcalls, <- !app_assoc. repeat split; discriminate.
      * rewrite (retry_for_uncaught max_retries base_delay _ _ tr _ e Hf Hc).
        exists (Raise e), [Get (url_of endpoint) ps]. auto.
Qed.

(** One call of [_make_request] is one [Call] event, whatever the provider
    does, and it comes to an end. *)
Lemma make_request_total (w : World) (endpoint : string) (ps : option params) (tr : trace) :
  exists res evs,
    _make_request w endpoint ps tr = (res, tr ++ Call endpoint ps :: evs)
    /\ calls evs = 0%nat /\ res <> OutOfFuel.
Proof.
  unfold _make_request, bind, emit, retry_with_exponential_backoff.
  destruct (retry_for_total w endpoint ps 3 1 (Py.range (3 + 1)) (tr ++ [Call endpoint ps]))
    as (res & evs & -> & Hc & Hres).
  exists res, evs. rewrite <- app_assoc. auto.
Qed.

(** ** The paginator *)

Lemma get_repositories_loop_paginate (w : World) (fuel : nat) (endpoint : string)
    (per_page page : Z) (acc : list json) (tr : trace) :
  get_repositories_loop w fuel endpoint per_page page acc tr =
  paginate w fuel endpoint (repositories_params per_page) (Z.min per_page 100)
    (fun l => Ok l) page acc tr.
Proof.
  revert page acc tr. induction fuel as [|fuel IH]; intros page acc tr; [reflexivity|].
  cbn [get_repositories_loop paginate]. fold (repositories_params per_page page).
  unfold bind, lift, ret.
  destruct (_make_request w endpoint (Some (repositories_params per_page page)) tr)
    as [[data|e|] tr1]; try reflexivity.
  destruct (negb (truthy data)); [reflexivity|].
  destruct (py_iter data) as [elements|e|]; try reflexivity.
  destruct (py_len data) as [n|e|]; try reflexivity.
  destruct (n <? Z.min per_page 100); [reflexivity|].
  destruct (page + 1 >? 100); [reflexivity|].
  apply IH.
Qed.

Lemma get_repository_issues_loop_paginate (w : World) (fuel : nat) (endpoint state : string)
    (per_page page : Z) (acc : list json) (tr : trace) :
  get_repository_issues_loop w fuel endpoint state per_page page acc tr =
  paginate w fuel endpoint (issues_params state per_page) (Z.min per_page 100)
    without_pull_requests page acc tr.
Proof.
  revert page acc tr. induction fuel as [|fuel IH]; intros page acc tr; [reflexivity|].
  cbn [get_repository_issues_loop paginate]. fold (issues_params state per_page page).
  unfold bind, lift, ret.
  destruct (_make_request w endpoint (Some (issues_params state per_page page)) tr)
    as [[data|e|] tr1]; try reflexivity.
  destruct (negb (truthy data)); [reflexivity|].
  destruct (py_iter data) as [elements|e|]; try reflexivity.
  destruct (without_pull_requests elements) as [kept|e|]; try reflexivity.
  destruct (py_len data) as [n|e|]; try reflexivity.
  destruct (n <? Z.min per_page 100); [reflexivity|].
  destruct (page + 1 >? 100); [reflexivity|].
  apply IH.
Qed.

Lemma py_iter_total (j : json) : py_iter j <> OutOfFuel.
Proof. destruct j; discriminate. Qed.

Lemma py_len_total (j : json) : py_len j <> OutOfFuel.
Proof. destruct j; discriminate. Qed.

Lemma without_pull_requests_total (l : list json) : without_pull_requests l <> OutOfFuel.
Proof.
  induction l as [|j l IH]; simpl; [discriminate|].
  destruct (py_in "pull_request" j) as [b|e|] eqn:Hin; try discriminate.
  - destruct (without_pull_requests l); [discriminate..|contradiction].
  - destruct j; discriminate.
Qed.

Section Bounded.

Variables (w : World) (endpoint : string) (mk_params : Z -> params) (size : Z).
Variable post : list json -> result (list json).
Hypothesis post_total : forall l, post l <> OutOfFuel.

(** Whatever the provider answers, the loop makes at most [101 - page]
    calls (one, when it is entered beyond page 100), and the model's bound
    on the iterations is not what stops it. *)
Lemma paginate_bounded (fuel : nat) (page : Z) (acc : list json) (tr : trace) :
  exists res evs,
    paginate w fuel endpoint mk_params size post page acc tr = (res, tr ++ evs)
    /\ Z.of_nat (calls evs) <= Z.max 1 (101 - page)
    /\ (Z.max 1 (101 - page) <= Z.of_nat fuel -> res <> OutOfFuel).
Proof.
  revert page acc tr. induction fuel as [|fuel IH]; intros page acc tr.
  - exists OutOfFuel, []. cbn. rewrite app_nil_r. repeat split; lia.
  - cbn [paginate]. unfold bind at 1.
    destruct (make_request_total w endpoint (Some (mk_params page)) tr)
      as (res & evs1 & -> & Hc1 & Hres).
    assert (Hone : Z.of_nat (calls (Call endpoint (Some (mk_params page)) :: evs1))
                   <= Z.max 1 (101 - page)).
    { change (Call endpoint (Some (mk_params page)) :: evs1)
        with ([Call endpoint (Some (mk_params page))] ++ evs1).
      rewrite calls_app, Hc1. cbn. lia. }
    destruct res as [data|e|]; [| |contradiction].
    2:{ eexists. eexists. split; [reflexivity|]. split; [exact Hone|discriminate]. }
    destruct (negb (truthy data)).
    { eexists. eexists. split; [reflexivity|]. split; [exact Hone|discriminate]. }
    unfold bind, lift.
    pose proof (py_iter_total data) as Hiter.
    destruct (py_iter data) as [elements|e|]; [| |contradiction].
    2:{ eexists. eexists. split; [reflexivity|]. split; [exact Hone|discriminate]. }
    pose proof (post_total elements) as Hpost.
    destruct (post elements) as [kept|e|]; [| |contradiction].
    2:{ eexists. eexists. split; [reflexivity|]. split; [exact Hone|discriminate]. }
    pose proof (py_len_total data) as Hlen.
    destruct (py_len data) as [n|e|]; [| |contradiction].
    2:{ eexists. eexists. split; [reflexivity|]. split; [exact Hone|discriminate]. }
    destruct (n <? size).
    { eexists. eexists. split; [reflexivity|]. split; [exact Hone|discriminate]. }
    destruct (Z.gtb_spec (page + 1) 100) as [Hlast|Hmore].
    { eexists. eexists. split; [reflexivity|]. split; [exact Hone|discriminate]. }
    destruct (IH (page + 1) (acc ++ kept)
                (tr ++ Call endpoint (Some (mk_params page)) :: evs1))
      as (res' & evs2 & -> & Hc2 & Hres').
    exists res', ((Call endpoint (Some (mk_params page)) :: evs1) ++ evs2).
    split; [rewrite <- app_assoc; reflexivity|].
    rewrite calls_app.
    change (Call endpoint (Some (mk_params page)) :: evs1)
      with ([Call endpoint (Some (mk_params page))] ++ evs1).
    rewrite calls_app, Hc1. cbn [calls filter is_call length app].
    split; [lia|]. intros Hfuel. apply Hres'. lia.
Qed.

End Bounded.

Lemma firstn_add {A : Type} (a b : nat) (l : list A) :
  firstn (a + b) l = firstn a l ++ firstn b (skipn a l).
Proof.
  revert l. induction a as [|a IH]; intros l; [reflexivity|].
  destruct l as [|x l]; simpl.
  - now rewrite firstn_nil.
  - now rewrite IH.
Qed.

Lemma div_step (n p : nat) : (0 < p)%nat -> (p <= n)%nat -> (n / p = S ((n - p) / p))%nat.
Proof.
  intros Hp Hn.
  replace n with ((n - p) + 1 * p)%nat at 1 by lia.
  rewrite Nat.div_add by lia. lia.
Qed.

Section Serves.

Variables (w : World) (endpoint : string) (mk_params : Z -> params) (size : Z).
Variable post : list json -> result (list json).
Variable keep : json -> bool.
Variable items : list json.

Hypothesis size_positive : 1 <= size.

Hypothesis serves :
  forall tr page, 1 <= page ->
    exists r, session_get w tr (url_of endpoint) (Some (mk_params page)) = Resp r
              /\ delivers r (JArr (page_of items size page)).

Hypothesis post_keeps :
  forall a b, post (firstn a (skipn b items)) = Ok (filter keep (firstn a (skipn b items))).

(** One pass through the loop body against such a provider. *)
Lemma paginate_step (fuel : nat) (page : Z) (acc : list json) (tr : trace) :
  1 <= page ->
  paginate w (S fuel) endpoint mk_params size post page acc tr =
  let pg := page_of items size page in
  let tr1 := tr ++ page_events endpoint mk_params page 1 in
  if (Py.len pg <? size) || (page + 1 >? 100)
  then (Ok (acc ++ filter keep pg), tr1)
  else paginate w fuel endpoint mk_params size post (page + 1) (acc ++ filter keep pg) tr1.
Proof.
  intros Hpage. cbn [paginate]. unfold bind at 1.
  destruct (serves (tr ++ [Call endpoint (Some (mk_params page))]) page Hpage)
    as (r & Hget & Hdel).
  rewrite (make_request_delivers w endpoint _ r _ tr Hget Hdel).
  cbv zeta. cbn [page_events Py.range_from flat_map app].
  destruct (page_of items size page) as [|x pg] eqn:Hpg.
  - cbn [truthy negb]. unfold ret.
    replace (Py.len (@nil json) <? size) with true
      by (symmetry; apply Z.ltb_lt; cbn; lia).
    cbn. rewrite app_nil_r. reflexivity.
  - cbn [truthy negb py_iter py_len]. unfold bind, lift.
    rewrite <- Hpg. unfold page_of. rewrite post_keeps.
    fold (page_of items size page).
    destruct (Py.len (page_of items size page) <? size); [reflexivity|].
    destruct (page + 1 >? 100); reflexivity.
Qed.

Lemma page_of_nat (page : Z) :
  1 <= page ->
  page_of items size page =
  firstn (Z.to_nat size) (skipn (Z.to_nat (page - 1) * Z.to_nat size) items).
Proof.
  intros Hpage. unfold page_of. rewrite Z2Nat.inj_mul by lia. reflexivity.
Qed.

(** The whole run from [page] on, when [S m] pages are left before the
    ceiling. *)
Lemma paginate_serves (m : nat) :
  forall (fuel : nat) (page : Z) (acc : list json) (tr : trace),
    1 <= page ->
    Z.of_nat (S m) = 101 - page ->
    (S m <= fuel)%nat ->
    let rest := skipn (Z.to_nat (page - 1) * Z.to_nat size) items in
    paginate w fuel endpoint mk_params size post page acc tr =
    (Ok (acc ++ filter keep (firstn (S m * Z.to_nat size) rest)),
     tr ++ page_events endpoint mk_params page
             (Nat.min (length rest / Z.to_nat size + 1) (S m))).
Proof.
  set (P := Z.to_nat size).
  assert (HP : (0 < P)%nat) by (unfold P; lia).
  induction m as [|m IH]; intros fuel page acc tr Hpage Hm Hfuel rest;
    (destruct fuel as [|fuel]; [lia|]);
    rewrite (paginate_step fuel page acc tr Hpage); cbv zeta;
    rewrite (page_of_nat page Hpage); fold P; fold rest;
    unfold Py.len; rewrite length_firstn.
  - (* page 100: the ceiling stops the loop after this page *)
    replace (page + 1 >? 100) with true by (symmetry; apply Z.gtb_lt; lia).
    rewrite orb_true_r.
    replace (1 * P)%nat with P by lia.
    replace (Nat.min (length rest / P + 1) 1) with 1%nat by lia.
    reflexivity.
  - replace (page + 1 >? 100) with false by (symmetry; rewrite Z.gtb_ltb; apply Z.ltb_ge; lia).
    rewrite orb_false_r.
    destruct (Z.ltb_spec (Z.of_nat (Nat.min P (length rest))) size) as [Hshort|Hfull].
    + (* a short page: the last one *)
      assert (Hlen : (length rest < P)%nat) by (unfold P in *; lia).
      rewrite !firstn_all2 by lia.
      rewrite Nat.div_small by lia.
      replace (Nat.min (0 + 1) (S (S m))) with 1%nat by lia.
      reflexivity.
    + (* a full page: go on with the next *)
      assert (Hlen : (P <= length rest)%nat) by (unfold P in *; lia).
      rewrite (IH fuel (page + 1) _ _ ltac:(lia) ltac:(lia) ltac:(lia)). cbv zeta.
      replace (Z.to_nat (page + 1 - 1) * P)%nat with (P + Z.to_nat (page - 1) * P)%nat
        by (replace (page + 1 - 1) with (Z.succ (page - 1)) by lia;
            rewrite Z2Nat.inj_succ by lia; lia).
      rewrite <- skipn_skipn. fold rest.
      rewrite <- !app_assoc, <- filter_app.
      replace (S (S m) * P)%nat with (P + S m * P)%nat by lia.
      rewrite (firstn_add P (S m * P) rest).
      rewrite length_skipn, (div_step (length rest) P HP Hlen).
      replace (Nat.min (S ((length rest - P) / P) + 1) (S (S m)))
        with (S (Nat.min ((length rest - P) / P + 1) (S m))) by lia.
      reflexivity.
Qed.

End Serves.

Lemma page_events_counts (endpoint : string) (mk_params : Z -> params) (page : Z) (n : nat) :
  (forall p, param_int "page" (mk_params p) <> None) ->
  page_requests (page_events endpoint mk_params page n) = n
  /\ gets (page_events endpoint mk_params page n) = n
  /\ sleeps (page_events endpoint mk_params page n) = [].
Proof.
  intros Hpage. unfold page_events. revert page.
  induction n as [|n IH]; intros page; [repeat split|].
  destruct (IH (page + 1)) as (Hp & Hg & Hs).
  cbn [Py.range_from flat_map app].
  unfold page_requests, gets in *.
  cbn [filter is_page_request is_get sleeps].
  specialize (Hpage page).
  destruct (param_int "page" (mk_params page)); [|contradiction].
  cbn [length]. rewrite Hp, Hg, Hs. repeat split.
Qed.

Lemma detect_owner_type_total (w : World) (owner_name : string) (tr : trace) :
  exists res evs,
    _detect_owner_type w owner_name tr = (res, tr ++ evs)
    /\ page_requests evs = 0%nat /\ res <> OutOfFuel.
Proof.
  assert (Hprobe : forall ep evs,
             calls evs = 0%nat -> page_requests (Call ep None :: evs) = 0%nat).
  { intros ep evs Hc. pose proof (page_requests_le_calls evs) as Hle.
    unfold page_requests in *. cbn. lia. }
  pose proof (detect_owner_type_cases w owner_name tr) as Hcases.
  destruct (make_request_total w ("orgs/" +++ owner_name) None tr)
    as (r1 & evs1 & Hr1 & Hc1 & Hres1).
  rewrite Hr1 in Hcases.
  destruct r1 as [j1|e1|]; [| |contradiction].
  - eexists. eexists. split; [exact Hcases|]. split; [auto|discriminate].
  - destruct (is_GitHubAPIError e1).
    + destruct (make_request_total w ("users/" +++ owner_name) None
                  (tr ++ Call ("orgs/" +++ owner_name) None :: evs1))
        as (r2 & evs2 & Hr2 & Hc2 & Hres2).
      rewrite Hr2 in Hcases. rewrite <- app_assoc in Hcases.
      destruct r2 as [j2|e2|]; [| |contradiction];
        (eexists; eexists; split; [exact Hcases|]);
        (split; [|discriminate]);
        rewrite page_requests_app, !Hprobe by assumption; reflexivity.
    + eexists. eexists. split; [exact Hcases|]. split; [auto|discriminate].
Qed.

(** C2, as amended.  (1) Against a provider that holds N items and serves
    them in pages of the size P = min(per_page, 100) >= 1 asked for,
    [get_repositories] returns the first 100 * P of them, in order (all N
    when N < 100 * P), and makes min(N / P + 1, 100) page requests, one GET
    each.  (2) Against any provider whatsoever it comes to an end after at
    most 100 page requests. *)
Theorem get_repositories_pagination :
  (forall (w : World) (owner_name owner_type : string) (per_page : Z)
          (items : list json) (tr : trace),
      let size := Z.min per_page 100 in
      valid_owner owner_name = true ->
      owner_type = "org" \/ owner_type = "user" ->
      1 <= size ->
      serves_pages w (repos_endpoint owner_type owner_name)
        (repositories_params per_page) size items ->
      exists evs,
        get_repositories w owner_name owner_type per_page tr =
          (Ok (firstn (Z.to_nat (100 * size)) items), tr ++ evs)
        /\ Z.of_nat (page_requests evs) = Z.min (Py.len items / size + 1) 100
        /\ gets evs = page_requests evs
        /\ (Py.len items < 100 * size ->
            firstn (Z.to_nat (100 * size)) items = items
            /\ Z.of_nat (page_requests evs) = Py.len items / size + 1))
  /\ (forall (w : World) (owner_name owner_type : string) (per_page : Z) (tr : trace),
         exists res evs,
           get_repositories w owner_name owner_type per_page tr = (res, tr ++ evs)
           /\ (page_requests evs <= 100)%nat
           /\ res <> OutOfFuel).
Proof.
  split.
  - intros w owner_name owner_type per_page items tr size Hvalid Htype Hsize Hserves.
    unfold get_repositories.
    apply negb_true_iff in Hvalid. rewrite Hvalid.
    assert (Hauto : (owner_type =? "auto")%string = false)
      by (destruct Htype; subst; reflexivity).
    rewrite Hauto. unfold bind at 1, ret at 1.
    assert (Hkind : negb ((owner_type =? "org")%string || (owner_type =? "user")%string)
                    = false)
      by (destruct Htype; subst; reflexivity).
    rewrite Hkind. fold (repos_endpoint owner_type owner_name).
    destruct (page_events_counts (repos_endpoint owner_type owner_name)
                (repositories_params per_page) 1
                (Nat.min (length items / Z.to_nat size + 1) 100))
      as (Hp & Hg & _); [discriminate|].
    exists (page_events (repos_endpoint owner_type owner_name)
              (repositories_params per_page) 1
              (Nat.min (length items / Z.to_nat size + 1) 100)).
    split; [|split; [|split]].
    + rewrite get_repositories_loop_paginate. fold size.
      unfold serves_pages in Hserves.
      rewrite (paginate_serves w (repos_endpoint owner_type owner_name)
                 (repositories_params per_page) size (fun l => Ok l) (fun _ => true) items
                 Hsize Hserves
                 (fun a b => f_equal Ok (eq_sym (filter_true _)))
                 99 100 1 [] tr ltac:(lia) ltac:(reflexivity) ltac:(lia)).
      cbv zeta. cbn [Z.sub Z.to_nat Z.pos_sub Nat.mul skipn app].
      rewrite filter_true, Z2Nat.inj_mul by lia. reflexivity.
    + rewrite Hp, Nat2Z.inj_min, Nat2Z.inj_add, Nat2Z.inj_div, Z2Nat.id by lia.
      reflexivity.
    + rewrite Hp, Hg. reflexivity.
    + intros Hall. unfold Py.len in Hall. split.
      * apply firstn_all2. lia.
      * rewrite Hp, Nat2Z.inj_min, Nat2Z.inj_add, Nat2Z.inj_div, Z2Nat.id by lia.
        unfold Py.len.
        assert (Z.of_nat (length items) / size < 100)
          by (apply Z.div_lt_upper_bound; lia).
        lia.
  - intros w owner_name owner_type per_page tr. unfold get_repositories.
    destruct ((owner_name =? EmptyString)%string || (Py.strip owner_name =? EmptyString)%string).
    { exists (Raise (ValueError "Owner name cannot be empty")), [].
      cbn. rewrite app_nil_r. repeat split; [lia|discriminate]. }
    unfold bind at 1.
    assert (Hkind : exists res evs,
               (if (owner_type =? "auto")%string
                then _detect_owner_type w (Py.strip owner_name)
                else ret owner_type) tr = (res, tr ++ evs)
               /\ page_requests evs = 0%nat /\ res <> OutOfFuel).
    { destruct (owner_type =? "auto")%string.
      - apply detect_owner_type_total.
      - exists (Ok owner_type), []. cbn. rewrite app_nil_r.
        repeat split. discriminate. }
    destruct Hkind as (res & evs0 & -> & Hp0 & Hres0).
    destruct res as [kind|e|]; [| |contradiction].
    2:{ exists (Raise e), evs0. repeat split; [lia|discriminate]. }
    destruct (negb ((kind =? "org")%string || (kind =? "user")%string)).
    { eexists. exists evs0. split; [reflexivity|]. split; [lia|discriminate]. }
    rewrite get_repositories_loop_paginate.
    destruct (paginate_bounded w
                (if (kind =? "org")%string
                 then "orgs/" +++ Py.strip owner_name +++ "/repos"
                 else "users/" +++ Py.strip owner_name +++ "/repos")
                (repositories_params per_page) (Z.min per_page 100) (fun l => Ok l)
                ltac:(discriminate) 100 1 [] (tr ++ evs0))
      as (res & evs & -> & Hc & Hres).
    exists res, (evs0 ++ evs). rewrite <- app_assoc. split; [reflexivity|].
    rewrite page_requests_app, Hp0.
    pose proof (page_requests_le_calls evs).
    split; [lia|]. apply Hres. lia.
Qed.

Lemma delivers_payload (j : json) : delivers (Mock.payload j) j.
Proof. repeat split; cbn; lia. Qed.

Lemma listing_serves_repositories (items : list json) (endpoint : string) (per_page : Z) :
  serves_pages (Mock.listing items) endpoint (repositories_params per_page)
    (Z.min per_page 100) items.
Proof. intros tr page Hpage. eexists. split; [reflexivity|apply delivers_payload]. Qed.

Lemma listing_serves_issues (items : list json) (endpoint state : string) (per_page : Z) :
  serves_pages (Mock.listing items) endpoint (issues_params state per_page)
    (Z.min per_page 100) items.
Proof. intros tr page Hpage. eexists. split; [reflexivity|apply delivers_payload]. Qed.

Lemma get_repositories_pagination_witness :
  let w := Mock.listing (Mock.repos 0 5) in
  valid_owner "octocat" = true
  /\ 1 <= Z.min 2 100
  /\ serves_pages w (repos_endpoint "user" "octocat") (repositories_params 2)
       (Z.min 2 100) (Mock.repos 0 5)
  /\ exists evs,
      get_repositories w "octocat" "user" 2 [] = (Ok (Mock.repos 0 5), evs)
      /\ Z.of_nat (page_requests evs) = 3.
Proof.
  cbv zeta. split; [reflexivity|]. split; [cbn; lia|].
  split; [apply listing_serves_repositories|].
  destruct (proj1 get_repositories_pagination (Mock.listing (Mock.repos 0 5))
              "octocat" "user" 2 (Mock.repos 0 5) [] eq_refl (or_intror eq_refl)
              ltac:(cbn; lia) (listing_serves_repositories _ _ _))
    as (evs & Hrun & Hcount & _ & _).
  exists evs. split; [exact Hrun|exact Hcount].
Defined.

(** C2 as written fails: a provider holding exactly 100 repositories,
    asked for pages of 100, is asked twice (the full first page does not
    tell that it is the last), while ceil(100 / 100) = 1. *)
Lemma get_repositories_exact_multiple :
  let items := Mock.repos 0 100 in
  let run := get_repositories (Mock.listing items) "octocat" "user" 100 [] in
  serves_pages (Mock.listing items) (repos_endpoint "user" "octocat")
    (repositories_params 100) 100 items
  /\ fst run = Ok items
  /\ page_requests (snd run) = 2%nat
  /\ ceil_div (Py.len items) 100 = 1.
Proof.
  cbv zeta. split; [apply (listing_serves_repositories _ _ 100)|].
  vm_compute. repeat split.
Qed.

(** The same for an owner without repositories: one request, not
    ceil(0 / 100) = 0. *)
Example get_repositories_no_items :
  let run := get_repositories (Mock.listing []) "octocat" "user" 100 [] in
  fst run = Ok [] /\ page_requests (snd run) = 1%nat /\ ceil_div 0 100 = 0.
Proof. vm_compute. repeat split. Qed.

(** ** Issue listing *)

Lemma Forall_firstn_skipn {A : Type} (Q : A -> Prop) (a b : nat) (l : list A) :
  Forall Q l -> Forall Q (firstn a (skipn b l)).
Proof.
  intros H.
  rewrite <- (firstn_skipn b l) in H. apply Forall_app in H as [_ H].
  rewrite <- (firstn_skipn a (skipn b l)) in H. apply Forall_app in H as [H _].
  exact H.
Qed.

Lemma without_pull_requests_objects (l : list json) :
  Forall (fun j => is_object j = true) l ->
  without_pull_requests l = Ok (filter is_issue l).
Proof.
  induction 1 as [|j l Hj Hl IH]; [reflexivity|].
  destruct j; try discriminate.
  cbn [without_pull_requests py_in filter]. rewrite IH.
  assert (Hi : is_issue (JObj members) =
               negb (match lookup "pull_request" members with
                     | Some _ => true | None => false end)) by reflexivity.
  rewrite Hi. destruct (lookup "pull_request" members); reflexivity.
Qed.

(** C8: when the provider serves pages of objects, [get_repository_issues]
    returns, in order, exactly the entries of the pages it fetched that
    carry no 'pull_request' field: every entry with the field is left out,
    every other entry is kept.  (It fetches all pages unless there are 100
    full ones.) *)
Theorem get_repository_issues_filters (w : World) (owner repo_name state : string)
    (per_page : Z) (items : list json) (tr : trace) :
  let size := Z.min per_page 100 in
  valid_issue_query owner repo_name state = true ->
  1 <= size ->
  Forall (fun j => is_object j = true) items ->
  serves_pages w (issues_endpoint owner repo_name) (issues_params state per_page)
    size items ->
  exists evs,
    get_repository_issues w owner repo_name state per_page tr =
      (Ok (filter is_issue (firstn (Z.to_nat (100 * size)) items)), tr ++ evs)
    /\ (Py.len items < 100 * size ->
        filter is_issue (firstn (Z.to_nat (100 * size)) items) = filter is_issue items).
Proof.
  intros size Hvalid Hsize Hobjects Hserves.
  apply andb_prop in Hvalid as [Hnames Hstate]. apply negb_true_iff in Hnames.
  unfold get_repository_issues. rewrite Hnames, Hstate. cbn [negb].
  fold (issues_endpoint owner repo_name).
  eexists. split.
  - rewrite get_repository_issues_loop_paginate. fold size.
    unfold serves_pages in Hserves.
    rewrite (paginate_serves w (issues_endpoint owner repo_name)
               (issues_params state per_page) size without_pull_requests is_issue items
               Hsize Hserves
               (fun a b => without_pull_requests_objects _
                             (Forall_firstn_skipn _ a b items Hobjects))
               99 100 1 [] tr ltac:(lia) ltac:(reflexivity) ltac:(lia)).
    cbv zeta. cbn [Z.sub Z.to_nat Z.pos_sub Nat.mul skipn app].
    rewrite Z2Nat.inj_mul by lia. reflexivity.
  - intros Hall. unfold Py.len in Hall. rewrite firstn_all2 by lia. reflexivity.
Qed.

Lemma get_repository_issues_filters_witness :
  let w := Mock.listing Mock.issues_and_pull_requests in
  valid_issue_query "octocat" "hello" "open" = true
  /\ 1 <= Z.min 100 100
  /\ Forall (fun j => is_object j = true) Mock.issues_and_pull_requests
  /\ serves_pages w (issues_endpoint "octocat" "hello") (issues_params "open" 100)
       (Z.min 100 100) Mock.issues_and_pull_requests
  /\ exists evs,
      get_repository_issues w "octocat" "hello" "open" 100 [] =
        (Ok [Mock.issue 1; Mock.issue 3; Mock.issue 5], evs).
Proof.
  cbv zeta. split; [reflexivity|]. split; [cbn; lia|].
  assert (Hobjects : Forall (fun j => is_object j = true) Mock.issues_and_pull_requests)
    by (repeat constructor).
  split; [exact Hobjects|]. split; [apply listing_serves_issues|].
  destruct (get_repository_issues_filters (Mock.listing Mock.issues_and_pull_requests)
              "octocat" "hello" "open" 100 Mock.issues_and_pull_requests [] eq_refl
              ltac:(cbn; lia) Hobjects (listing_serves_issues _ _ _ _))
    as (evs & Hrun & _).
  exists evs. exact Hrun.
Defined.

(** The example of the specification: a page of three issues and two pull
    requests gives exactly three items. *)
Example three_issues_two_pull_requests :
  let run := get_repository_issues (Mock.listing Mock.issues_and_pull_requests)
               "octocat" "hello" "open" 100 [] in
  Py.len Mock.issues_and_pull_requests = 5
  /\ fst run = Ok [Mock.issue 1; Mock.issue 3; Mock.issue 5]
  /\ page_requests (snd run) = 1%nat.
Proof. vm_compute. repeat split. Qed.

(** ** The search pager against full pages *)

Lemma chunks_total (pages : nat) (remaining : Z) :
  0 <= remaining <= 100 * Z.of_nat pages ->
  total (chunks pages remaining) = remaining.
Proof.
  revert remaining. induction pages as [|pages IH]; intros remaining H; cbn [chunks].
  - cbn. lia.
  - destruct (Z.leb_spec remaining 0); [cbn; lia|].
    cbn [total fold_right]. fold (total (chunks pages (remaining - Z.min 100 remaining))).
    rewrite IH by lia. lia.
Qed.

Section FullPages.

Variable w : World.
Hypothesis full : fills_pages w.
Variables query sort order : string.

(** One pass through the loop body: the page is full, so the pager goes on
    unless this was page 10. *)
Lemma search_body_full (k page : Z) (acc : list json) (tr : trace) :
  1 <= k ->
  exists l,
    Py.len l = k
    /\ search_repositories_paginated_body w query sort order k page acc tr =
       (Ok (if page + 1 >? 10 then Break (acc ++ l) else Continue (page + 1) (acc ++ l)),
        tr ++ [Call "search/repositories" (Some (search_params query sort order k page));
               Get (url_of "search/repositories")
                 (Some (search_params query sort order k page))]).
Proof.
  intros Hk.
  destruct (full (tr ++ [Call "search/repositories"
                          (Some (search_params query sort order k page))])
              query sort order k page)
    as (r & members & l & Hget & Hdel & Hitems & Hlen).
  exists l. split; [lia|].
  unfold search_repositories_paginated_body, try_except_GitHubAPIError.
  unfold bind at 1.
  rewrite (make_request_delivers w _ _ r _ tr Hget Hdel).
  cbn [py_in lift bind]. rewrite Hitems. cbn [negb py_getitem].
  unfold bind, lift. rewrite Hitems.
  destruct l as [|x l]; [cbn in Hlen; lia|].
  cbn [truthy negb py_iter py_len].
  replace (Py.len (x :: l) <? k) with false by (symmetry; apply Z.ltb_ge; lia).
  destruct (page + 1 >? 10); reflexivity.
Qed.

Lemma requested_sizes_app (a b : trace) :
  requested_sizes (a ++ b) = requested_sizes a ++ requested_sizes b.
Proof.
  induction a as [|e a IH]; [reflexivity|].
  destruct e as [ep [ps|]|u ps|d]; cbn; try exact IH.
  destruct (param_int "per_page" ps); cbn; now rewrite IH.
Qed.

Lemma gets_app (a b : trace) : gets (a ++ b) = (gets a + gets b)%nat.
Proof. unfold gets. rewrite filter_app, length_app. reflexivity. Qed.

Lemma search_loop_unfold (fuel : nat) (max_results per_page page : Z)
    (acc : list json) (tr : trace) :
  search_repositories_paginated_loop w (S fuel) query sort order max_results per_page
    page acc tr =
  (if negb (Py.len acc <? max_results) then ret acc
   else
     exit <- search_repositories_paginated_body w query sort order
               (Z.min per_page (max_results - Py.len acc)) page acc ;;
     match exit with
     | Break repositories => ret repositories
     | Continue page repositories =>
         search_repositories_paginated_loop w fuel query sort order max_results
           per_page page repositories
     end) tr.
Proof. reflexivity. Qed.

Lemma chunks_unfold (pages : nat) (remaining : Z) :
  chunks (S pages) remaining =
  if remaining <=? 0 then []
  else Z.min 100 remaining :: chunks pages (remaining - Z.min 100 remaining).
Proof. reflexivity. Qed.

(** The run from [page] on, with [S m] pages left of the ten. *)
Lemma search_loop_full (max_results : Z) (m : nat) :
  forall (page : Z) (acc : list json) (tr : trace),
    Z.of_nat (S m) = 11 - page ->
    exists items evs,
      search_repositories_paginated_loop w (S m) query sort order max_results
        (Z.min 100 max_results) page acc tr = (Ok (acc ++ items), tr ++ evs)
      /\ requested_sizes evs = chunks (S m) (max_results - Py.len acc)
      /\ Py.len items = total (chunks (S m) (max_results - Py.len acc))
      /\ gets evs = length (chunks (S m) (max_results - Py.len acc)).
Proof.
  induction m as [|m IH]; intros page acc tr Hm;
    rewrite search_loop_unfold, chunks_unfold;
    (destruct (Z.ltb_spec (Py.len acc) max_results) as [Hlt|Hge];
     [replace (max_results - Py.len acc <=? 0) with false
        by (symmetry; apply Z.leb_gt; lia)
     |replace (max_results - Py.len acc <=? 0) with true
        by (symmetry; apply Z.leb_le; lia);
      exists [], []; rewrite !app_nil_r; repeat split]);
    cbn [negb];
    assert (Hsize : Z.min (Z.min 100 max_results) (max_results - Py.len acc)
                    = Z.min 100 (max_results - Py.len acc))
      by (unfold Py.len in *; lia);
    rewrite Hsize;
    (destruct (search_body_full (Z.min 100 (max_results - Py.len acc)) page acc tr
                 ltac:(lia)) as (l & Hl & Hbody));
    unfold bind at 1; rewrite Hbody.
  - (* page 10: the result window of the search API ends here *)
    replace (page + 1 >? 10) with true by (symmetry; apply Z.gtb_lt; lia).
    exists l. eexists. split; [reflexivity|].
    cbn. rewrite Hl. repeat split; lia.
  - replace (page + 1 >? 10) with false
      by (symmetry; rewrite Z.gtb_ltb; apply Z.ltb_ge; lia).
    destruct (IH (page + 1) (acc ++ l)
                (tr ++ [Call "search/repositories"
                          (Some (search_params query sort order
                                   (Z.min 100 (max_results - Py.len acc)) page));
                        Get (url_of "search/repositories")
                          (Some (search_params query sort order
                                   (Z.min 100 (max_results - Py.len acc)) page))])
                ltac:(lia))
      as (items & evs & Hrun & Hsizes & Hlen & Hgets).
    assert (Hacc : max_results - Py.len (acc ++ l)
                   = max_results - Py.len acc - Z.min 100 (max_results - Py.len acc))
      by (unfold Py.len in *; rewrite length_app; lia).
    rewrite Hacc in *.
    exists (l ++ items). eexists. split; [|split; [|split]].
    + rewrite Hrun, <- !app_assoc. reflexivity.
    + rewrite requested_sizes_app, Hsizes. reflexivity.
    + unfold Py.len in *. rewrite length_app, Nat2Z.inj_add, Hlen, Hl. reflexivity.
    + rewrite gets_app, Hgets. reflexivity.
Qed.

End FullPages.

(** C7: against a provider that answers every search request with a full
    page, that is with exactly the number of items the request asks for
    (100, 100 and 50 in the example of the claim), the pager asks
    for min(100, remaining) items each time, stops when max_results items
    are there (or after ten pages), so that for max_results up to 1000 it
    returns exactly max_results items; the last request asks only for what
    is still missing.  For max_results = 250 that is three requests, for
    100, 100 and 50 items, and 250 items returned. *)
Theorem search_pagination_full_pages (w : World) (query sort order : string)
    (max_results : Z) (tr : trace) :
  fills_pages w ->
  exists repositories evs,
    search_repositories_paginated w query sort order max_results tr
      = (Ok repositories, tr ++ evs)
    /\ requested_sizes evs = chunks 10 max_results
    /\ gets evs = length (chunks 10 max_results)
    /\ Py.len repositories = total (chunks 10 max_results)
    /\ (0 <= max_results <= 1000 -> Py.len repositories = max_results)
    /\ (max_results = 250 ->
        requested_sizes evs = [100; 100; 50] /\ gets evs = 3%nat
        /\ Py.len repositories = 250).
Proof.
  intros Hfull. unfold search_repositories_paginated.
  destruct (search_loop_full w Hfull query sort order max_results 9 1 [] tr eq_refl)
    as (items & evs & Hrun & Hsizes & Hlen & Hgets).
  change (Py.len (@nil json)) with 0 in *. rewrite Z.sub_0_r in *.
  exists items, evs. cbn [app] in Hrun.
  split; [exact Hrun|]. split; [exact Hsizes|]. split; [exact Hgets|].
  split; [exact Hlen|]. split.
  - intros Hrange. rewrite Hlen. apply chunks_total. cbn. lia.
  - intros ->. split; [exact Hsizes|]. split; [exact Hgets|exact Hlen].
Qed.

Lemma length_repos (from : Z) (n : nat) : length (Mock.repos from n) = n.
Proof.
  revert from. induction n as [|n IH]; intros from; [reflexivity|].
  cbn. now rewrite IH.
Qed.

Lemma search_full_fills_pages : fills_pages Mock.search_full.
Proof.
  intros tr query sort order k page.
  exists (Mock.payload (JObj [("total_count", JInt 5000);
                              ("items", JArr (Mock.repos 0 (Z.to_nat k)))])).
  eexists. exists (Mock.repos 0 (Z.to_nat k)).
  split; [reflexivity|]. split; [apply delivers_payload|].
  split; [reflexivity|].
  unfold Py.len. rewrite length_repos. lia.
Qed.

Lemma search_pagination_full_pages_witness :
  fills_pages Mock.search_full
  /\ exists repositories evs,
      search_repositories_paginated Mock.search_full "kinect" "updated" "desc" 250 []
        = (Ok repositories, evs)
      /\ requested_sizes evs = [100; 100; 50]
      /\ gets evs = 3%nat
      /\ Py.len repositories = 250.
Proof.
  split; [exact search_full_fills_pages|].
  destruct (search_pagination_full_pages Mock.search_full "kinect" "updated" "desc" 250 []
              search_full_fills_pages)
    as (repositories & evs & Hrun & _ & _ & _ & _ & H250).
  exists repositories, evs. split; [exact Hrun|]. exact (H250 eq_refl).
Defined.

(** The pager limits what it asks for, not what it keeps: a provider that
    answers every request with 100 items, also the one that asks for 50, is
    asked three times (for 100, 100 and 50 items) and all 300 items it sent
    come back. *)
Lemma search_fixed_pages_of_100 :
  let w := Mock.search_fixed 100 in
  let run := search_repositories_paginated w "kinect" "updated" "desc" 250 [] in
  (forall tr u ps,
      session_get w tr u ps =
      Resp (Mock.payload (JObj [("total_count", JInt 5000);
                                ("items", JArr (Mock.repos 0 100))])))
  /\ Py.len (Mock.repos 0 100) = 100
  /\ requested_sizes (snd run) = [100; 100; 50]
  /\ gets (snd run) = 3%nat
  /\ exists repositories, fst run = Ok repositories /\ Py.len repositories = 300.
Proof.
  cbv zeta. split; [reflexivity|]. split; [reflexivity|].
  split; [vm_compute; reflexivity|]. split; [vm_compute; reflexivity|].
  eexists. split; [vm_compute; reflexivity|]. vm_compute. reflexivity.
Qed.

(** ** The search pager and a rate limit in mid-pagination *)

(** A request that the provider answers with a rate-limited 403 every time
    uses up the attempts of the governor and ends in RateLimitError. *)
Lemma make_request_rate_limited (w : World) (endpoint : string) (ps : option params)
    (tr : trace) :
  (forall t, exists r,
      session_get w t (url_of endpoint) ps = Resp r /\ is_rate_limited r = true) ->
  exists msg,
    _make_request w endpoint ps tr =
    (Raise (RateLimitError msg),
     tr ++ Call endpoint ps :: attempt_events (url_of endpoint) ps 1 0 3).
Proof.
  intros Hlimited.
  assert (Hbody : forall t, exists msg,
             _make_request_body w endpoint ps t =
             (Raise (RateLimitError msg), t ++ [Get (url_of endpoint) ps])).
  { intros t. destruct (Hlimited t) as (r & Hget & Hr).
    apply andb_prop in Hr as [Hr Hwf].
    unfold _make_request_body. fold (url_of endpoint). rewrite Hget.
    rewrite (handle_response_after_header_check w r _ Hwf).
    unfold Spec.indicates_rate_limit in Hr. rewrite Hr.
    apply andb_prop in Hwf as [_ Hreset].
    unfold bind. rewrite (int_header_or_0_spec r _ Hreset).
    eexists. reflexivity. }
  unfold _make_request, bind, emit, retry_with_exponential_backoff.
  change (Py.range (3 + 1)) with [0; 1; 2; 3].
  destruct (Hbody (tr ++ [Call endpoint ps])) as [m0 H0].
  rewrite (retry_for_backs_off 3 1 _ 0 _ _ _ _ H0 eq_refl eq_refl eq_refl).
  destruct (Hbody (((tr ++ [Call endpoint ps]) ++ [Get (url_of endpoint) ps])
                   ++ [Sleep (delay_seconds 1 0)])) as [m1 H1].
  rewrite (retry_for_backs_off 3 1 _ 1 _ _ _ _ H1 eq_refl eq_refl eq_refl).
  match goal with |- context [retry_for _ _ _ _ ?t] => destruct (Hbody t) as [m2 H2] end.
  rewrite (retry_for_backs_off 3 1 _ 2 _ _ _ _ H2 eq_refl eq_refl eq_refl).
  match goal with |- context [retry_for _ _ _ _ ?t] => destruct (Hbody t) as [m3 H3] end.
  rewrite (retry_for_caught 3 1 _ 3 _ _ _ _ H3 eq_refl).
  exists m3. rewrite <- !app_assoc. reflexivity.
Qed.

Lemma page_events_step (endpoint : string) (mk_params : Z -> params) (page : Z) (n : nat) :
  page_events endpoint mk_params page (S n) =
  Call endpoint (Some (mk_params page))
  :: Get (url_of endpoint) (Some (mk_params page))
  :: page_events endpoint mk_params (page + 1) n.
Proof. reflexivity. Qed.

Lemma range_from_app (lo : Z) (a b : nat) :
  Py.range_from lo (a + b) = Py.range_from lo a ++ Py.range_from (lo + Z.of_nat a) b.
Proof.
  revert lo. induction a as [|a IH]; intros lo.
  - cbn [Nat.add Py.range_from app]. rewrite Z.add_0_r. reflexivity.
  - cbn [Nat.add Py.range_from app]. rewrite IH.
    replace (lo + 1 + Z.of_nat a) with (lo + Z.of_nat (S a)) by lia. reflexivity.
Qed.

Lemma fetched_step (pages : Z -> list json) (page : Z) :
  1 <= page ->
  fetched pages (Z.to_nat (page + 1 - 1)) = fetched pages (Z.to_nat (page - 1)) ++ pages page.
Proof.
  intros Hpage. unfold fetched.
  replace (Z.to_nat (page + 1 - 1)) with (Z.to_nat (page - 1) + 1)%nat by lia.
  rewrite range_from_app, flat_map_app. cbn [Py.range_from flat_map].
  rewrite app_nil_r. replace (1 + Z.of_nat (Z.to_nat (page - 1))) with page by lia.
  reflexivity.
Qed.

Lemma fetched_prefix (pages : Z -> list json) (p n : nat) :
  (p <= n)%nat -> Py.len (fetched pages p) <= Py.len (fetched pages n).
Proof.
  intros Hp. unfold fetched, Py.len.
  replace n with (p + (n - p))%nat by lia.
  rewrite range_from_app, flat_map_app, length_app. lia.
Qed.

(** The run of the pager from [page] on, when the pages up to [n] are
    delivered and the request for page [n + 1] is rate limited. *)
Lemma search_loop_rate_limited (w : World) (query sort order : string) (max_results : Z)
    (n : nat) (pages : Z -> list json) (m : nat) :
  (n < 10)%nat ->
  Py.len (fetched pages n) < max_results ->
  rate_limited_after w query sort order max_results (Z.of_nat n) pages ->
  forall (fuel : nat) (page : Z) (tr : trace),
    (m < fuel)%nat ->
    1 <= page ->
    page + Z.of_nat m = Z.of_nat n + 1 ->
    let mk_params := fun p => search_params query sort order (asked max_results pages p) p in
    search_repositories_paginated_loop w fuel query sort order max_results
      (Z.min 100 max_results) page (fetched pages (Z.to_nat (page - 1))) tr =
    (Ok (fetched pages (Z.to_nat (page - 1)) ++ flat_map pages (Py.range_from page m)),
     tr ++ page_events "search/repositories" mk_params page m
        ++ Call "search/repositories" (Some (mk_params (Z.of_nat n + 1)))
           :: attempt_events (url_of "search/repositories")
                (Some (mk_params (Z.of_nat n + 1))) 1 0 3).
Proof.
  intros Hn Hmax [Hfull Hlimited].
  induction m as [|m IH]; intros fuel page tr Hfuel Hpage Hm mk_params;
    (destruct fuel as [|fuel]; [lia|]);
    pose proof (fetched_prefix pages (Z.to_nat (page - 1)) n ltac:(lia)) as Hacc.
  - (* the request for page n + 1 *)
    assert (page = Z.of_nat n + 1) by lia. subst page.
    cbn [Py.range_from flat_map page_events app]. rewrite app_nil_r.
    destruct (make_request_rate_limited w "search/repositories"
                (Some (mk_params (Z.of_nat n + 1))) tr Hlimited) as [msg Hreq].
    apply (search_loop_soft_stop w fuel query sort order max_results _ (Z.of_nat n + 1)
             _ msg); [lia|].
    replace (Z.min (Z.min 100 max_results)
               (max_results - Py.len (fetched pages (Z.to_nat (Z.of_nat n + 1 - 1)))))
      with (asked max_results pages (Z.of_nat n + 1)) by (unfold asked, Py.len; lia).
    exact Hreq.
  - (* a page that is delivered *)
    rewrite search_loop_unfold.
    replace (Py.len (fetched pages (Z.to_nat (page - 1))) <? max_results) with true
      by (symmetry; apply Z.ltb_lt; lia).
    cbn [negb].
    replace (Z.min (Z.min 100 max_results)
               (max_results - Py.len (fetched pages (Z.to_nat (page - 1)))))
      with (asked max_results pages page) by (unfold asked, Py.len; lia).
    destruct (Hfull (tr ++ [Call "search/repositories" (Some (mk_params page))])
                page ltac:(lia))
      as (r & members & Hget & Hdel & Hitems & Hlen).
    assert (Hasked : 1 <= asked max_results pages page)
      by (unfold asked, Py.len in *; lia).
    unfold bind at 1.
    unfold search_repositories_paginated_body, try_except_GitHubAPIError.
    unfold bind at 1.
    fold (mk_params page).
    rewrite (make_request_delivers w _ _ r _ tr Hget Hdel).
    cbn [py_in lift bind]. rewrite Hitems. cbn [negb py_getitem].
    unfold bind, lift. rewrite Hitems.
    destruct (pages page) as [|x l] eqn:Hpages; [cbn in Hlen; lia|].
    cbn [truthy negb py_iter py_len].
    replace (Py.len (x :: l) <? asked max_results pages page) with false
      by (symmetry; apply Z.ltb_ge; lia).
    replace (page + 1 >? 10) with false
      by (symmetry; rewrite Z.gtb_ltb; apply Z.ltb_ge; lia).
    unfold ret. rewrite <- Hpages, <- (fetched_step pages page Hpage).
    rewrite (IH fuel (page + 1) _ ltac:(lia) ltac:(lia) ltac:(lia)).
    rewrite (fetched_step pages page Hpage).
    rewrite page_events_step. cbn [Py.range_from flat_map].
    rewrite <- !app_assoc. reflexivity.
Qed.

(** C4: when the provider delivers the first [n] pages of a search (each
    with at least as many items as asked for, so that the pager goes on)
    and answers the request for the next page, which the pager still
    needs, with the rate-limit failure at every attempt, the pager makes
    the four attempts of the governor for that page and then returns, as a
    normal result, exactly the items of the [n] pages it had accumulated;
    nothing is raised. *)
Theorem search_rate_limit_soft_stop (w : World) (query sort order : string)
    (max_results : Z) (n : nat) (pages : Z -> list json) (tr : trace) :
  (n < 10)%nat ->
  Py.len (fetched pages n) < max_results ->
  rate_limited_after w query sort order max_results (Z.of_nat n) pages ->
  let mk_params := fun p => search_params query sort order (asked max_results pages p) p in
  search_repositories_paginated w query sort order max_results tr =
  (Ok (fetched pages n),
   tr ++ page_events "search/repositories" mk_params 1 n
      ++ Call "search/repositories" (Some (mk_params (Z.of_nat n + 1)))
         :: attempt_events (url_of "search/repositories")
              (Some (mk_params (Z.of_nat n + 1))) 1 0 3).
Proof.
  intros Hn Hmax Hprovider mk_params. unfold search_repositories_paginated.
  exact (search_loop_rate_limited w query sort order max_results n pages n
           Hn Hmax Hprovider 10%nat 1 tr ltac:(lia) ltac:(lia) ltac:(lia)).
Qed.

Lemma search_rate_limited_after_1 :
  rate_limited_after (Mock.search_rate_limited_after 1) "kinect" "updated" "desc" 250
    (Z.of_nat 1) (fun p => Mock.repos (100 * (p - 1)) 100).
Proof.
  split.
  - intros tr page Hpage. assert (page = 1) by lia. subst page.
    eexists. eexists. split; [reflexivity|]. split; [apply delivers_payload|].
    split; [reflexivity|]. vm_compute. discriminate.
  - intros tr. eexists. split; reflexivity.
Qed.

Lemma search_rate_limit_soft_stop_witness :
  let w := Mock.search_rate_limited_after 1 in
  let pages := fun p => Mock.repos (100 * (p - 1)) 100 in
  let ps := search_params "kinect" "updated" "desc" in
  let u := "https://api.github.com/search/repositories" in
  (1 < 10)%nat
  /\ Py.len (fetched pages 1) < 250
  /\ rate_limited_after w "kinect" "updated" "desc" 250 (Z.of_nat 1) pages
  /\ search_repositories_paginated w "kinect" "updated" "desc" 250 [] =
     (Ok (Mock.repos 0 100),
      [Call "search/repositories" (Some (ps 100 1)); Get u (Some (ps 100 1));
       Call "search/repositories" (Some (ps 100 2)); Get u (Some (ps 100 2)); Sleep 1;
       Get u (Some (ps 100 2)); Sleep 2; Get u (Some (ps 100 2)); Sleep 4;
       Get u (Some (ps 100 2))]).
Proof.
  cbv zeta. split; [lia|]. split; [reflexivity|].
  split; [exact search_rate_limited_after_1|].
  exact (search_rate_limit_soft_stop (Mock.search_rate_limited_after 1)
           "kinect" "updated" "desc" 250 1 (fun p => Mock.repos (100 * (p - 1)) 100) []
           ltac:(lia) eq_refl search_rate_limited_after_1).
Defined.

(** ** The iteration bounds of the model are never what stops a loop *)

Lemma get_repository_issues_total (w : World) (owner repo_name state : string)
    (per_page : Z) (tr : trace) :
  exists res evs,
    get_repository_issues w owner repo_name state per_page tr = (res, tr ++ evs)
    /\ (page_requests evs <= 100)%nat
    /\ res <> OutOfFuel.
Proof.
  unfold get_repository_issues.
  destruct ((owner =? EmptyString)%string || (repo_name =? EmptyString)%string).
  { eexists. exists []. cbn. rewrite app_nil_r. repeat split; [lia|discriminate]. }
  destruct (negb (valid_state state)).
  { eexists. exists []. cbn. rewrite app_nil_r. repeat split; [lia|discriminate]. }
  rewrite get_repository_issues_loop_paginate.
  destruct (paginate_bounded w
              ("repos/" +++ Py.strip owner +++ "/" +++ Py.strip repo_name +++ "/issues")
              (issues_params state per_page) (Z.min per_page 100) without_pull_requests
              without_pull_requests_total 100 1 [] tr)
    as (res & evs & -> & Hc & Hres).
  exists res, evs. split; [reflexivity|].
  pose proof (page_requests_le_calls evs).
  split; [lia|]. apply Hres. lia.
Qed.

Lemma py_in_total (key : string) (j : json) : py_in key j <> OutOfFuel.
Proof. destruct j; discriminate. Qed.

Lemma py_getitem_total (j : json) (key : string) : py_getitem j key <> OutOfFuel.
Proof.
  destruct j; try discriminate. cbn. destruct (lookup key members); discriminate.
Qed.

(** The loop body of the search pager ends, and when it asks for another
    pass the page number has gone up by one and is at most 10. *)
Lemma search_body_exit (w : World) (query sort order : string) (k page : Z)
    (acc : list json) (tr : trace) :
  exists res tr',
    search_repositories_paginated_body w query sort order k page acc tr = (res, tr')
    /\ res <> OutOfFuel
    /\ (forall p a, res = Ok (Continue p a) -> p = page + 1 /\ p <= 10).
Proof.
  unfold search_repositories_paginated_body, try_except_GitHubAPIError.
  unfold bind at 1.
  destruct (make_request_total w "search/repositories"
              (Some (search_params query sort order k page)) tr)
    as (res & evs & -> & _ & Hres).
  destruct res as [data|e|]; [| |contradiction].
  2:{ destruct (is_GitHubAPIError e);
        [destruct (Py.contains "rate limit" (Py.lower (str_of_exn e)))|];
        eexists; eexists; (split; [reflexivity|]); (split; [discriminate|]);
        intros p a H; discriminate. }
  unfold bind, lift.
  pose proof (py_in_total "items" data) as Hin.
  destruct (py_in "items" data) as [has|e|]; [| |contradiction].
  2:{ destruct (is_GitHubAPIError e);
        [destruct (Py.contains "rate limit" (Py.lower (str_of_exn e)))|];
        eexists; eexists; (split; [reflexivity|]); (split; [discriminate|]);
        intros p a H; discriminate. }
  destruct has; cbn [negb]; unfold ret.
  2:{ eexists. eexists. split; [reflexivity|]. split; [discriminate|].
      intros p a H. discriminate. }
  pose proof (py_getitem_total data "items") as Hget.
  destruct (py_getitem data "items") as [items|e|]; [| |contradiction].
  2:{ destruct (is_GitHubAPIError e);
        [destruct (Py.contains "rate limit" (Py.lower (str_of_exn e)))|];
        eexists; eexists; (split; [reflexivity|]); (split; [discriminate|]);
        intros p a H; discriminate. }
  destruct (negb (truthy items)).
  { eexists. eexists. split; [reflexivity|]. split; [discriminate|].
    intros p a H. discriminate. }
  pose proof (py_iter_total items) as Hiter.
  destruct (py_iter items) as [elements|e|]; [| |contradiction].
  2:{ destruct (is_GitHubAPIError e);
        [destruct (Py.contains "rate limit" (Py.lower (str_of_exn e)))|];
        eexists; eexists; (split; [reflexivity|]); (split; [discriminate|]);
        intros p a H; discriminate. }
  pose proof (py_len_total items) as Hlen.
  destruct (py_len items) as [n|e|]; [| |contradiction].
  2:{ destruct (is_GitHubAPIError e);
        [destruct (Py.contains "rate limit" (Py.lower (str_of_exn e)))|];
        eexists; eexists; (split; [reflexivity|]); (split; [discriminate|]);
        intros p a H; discriminate. }
  destruct (n <? k).
  { eexists. eexists. split; [reflexivity|]. split; [discriminate|].
    intros p a H. discriminate. }
  destruct (Z.gtb_spec (page + 1) 10) as [Hlast|Hmore].
  { eexists. eexists. split; [reflexivity|]. split; [discriminate|].
    intros p a H. discriminate. }
  eexists. eexists. split; [reflexivity|]. split; [discriminate|].
  intros p a H. inversion H; subst. lia.
Qed.

Lemma search_loop_total (w : World) (query sort order : string)
    (max_results per_page : Z) (fuel : nat) :
  forall (page : Z) (acc : list json) (tr : trace),
    Z.max 1 (11 - page) <= Z.of_nat fuel ->
    fst (search_repositories_paginated_loop w fuel query sort order max_results per_page
           page acc tr) <> OutOfFuel.
Proof.
  induction fuel as [|fuel IH]; intros page acc tr Hfuel; [lia|].
  rewrite search_loop_unfold.
  destruct (negb (Py.len acc <? max_results)); [discriminate|].
  unfold bind.
  destruct (search_body_exit w query sort order
              (Z.min per_page (max_results - Py.len acc)) page acc tr)
    as (res & tr' & -> & Hres & Hcontinue).
  destruct res as [[a|p a]|e|]; [discriminate| |discriminate|contradiction].
  destruct (Hcontinue p a eq_refl) as [-> Hp].
  apply IH. lia.
Qed.

(** [search_repositories_paginated] comes to an end against any
    provider. *)
Lemma search_repositories_paginated_total (w : World) (query sort order : string)
    (max_results : Z) (tr : trace) :
  fst (search_repositories_paginated w query sort order max_results tr) <> OutOfFuel.
Proof. apply search_loop_total. cbn. lia. Qed.

(* ===================================================================== *)
(** * Further properties of the client *)
(* ===================================================================== *)

(** ** One governed request *)

Lemma attempt_events_step (u : string) (ps : option params) (base_delay : Q)
    (attempt : Z) (k : nat) :
  attempt_events u ps base_delay attempt (S k) =
  Get u ps :: Sleep (delay_seconds base_delay attempt)
  :: attempt_events u ps base_delay (attempt + 1) k.
Proof. reflexivity. Qed.

Lemma range_from_S (lo : Z) (n : nat) :
  Py.range_from lo (S n) = lo :: Py.range_from (lo + 1) n.
Proof. reflexivity. Qed.

Lemma retry_for_cons {A : Type} (max_retries : Z) (base_delay : Q) (func : M A)
    (attempt : Z) (rest : list Z) (tr : trace) :
  retry_for max_retries base_delay func (attempt :: rest) tr =
  match func tr with
  | (Raise e, tr') =>
      if caught_by_retry e then
        if attempt =? max_retries then (Raise e, tr')
        else (back_off base_delay attempt ;;; retry_for max_retries base_delay func rest) tr'
      else (Raise e, tr')
  | r => r
  end.
Proof.
  cbn [retry_for]. destruct (func tr) as [[a|e|] t]; try reflexivity.
  destruct (caught_by_retry e); [|reflexivity].
  destruct (attempt =? max_retries); [reflexivity|].
  unfold back_off, bind, lift. destruct (delay base_delay attempt); reflexivity.
Qed.

(** The governor of the client can always back off: its delays are 1, 2
    and 4 seconds. *)
Lemma client_can_back_off (attempt : Z) :
  0 <= attempt < 3 -> can_back_off 1 attempt = true.
Proof.
  intros H. assert (Ha : attempt = 0 \/ attempt = 1 \/ attempt = 2) by lia.
  destruct Ha as [->|[->| ->]]; reflexivity.
Qed.

(** The shape of the history the [for] loop leaves when it runs the
    undecorated request over the attempts [attempt .. max_retries]. *)
Lemma retry_for_events (w : World) (endpoint : string) (ps : option params)
    (max_retries : Z) (base_delay : Q) (n : nat) :
  forall (attempt : Z) (tr : trace),
    attempt + Z.of_nat (S n) = max_retries + 1 ->
    (forall a, attempt <= a < max_retries -> can_back_off base_delay a = true) ->
    exists res k,
      (k <= n)%nat
      /\ retry_for max_retries base_delay (_make_request_body w endpoint ps)
           (Py.range_from attempt (S n)) tr
         = (res, tr ++ attempt_events (url_of endpoint) ps base_delay attempt k)
      /\ res <> OutOfFuel.
Proof.
  induction n as [|n IH]; intros attempt tr Hn Hok;
    rewrite range_from_S, retry_for_cons;
    destruct (make_request_body_total w endpoint ps tr) as (res & -> & Hres);
    (destruct res as [j|e|]; [| |contradiction]);
    try (exists (Ok j), 0%nat; repeat split; [lia|discriminate]);
    (destruct (caught_by_retry e);
     [|exists (Raise e), 0%nat; repeat split; [lia|discriminate]]).
  - replace (attempt =? max_retries) with true by (symmetry; apply Z.eqb_eq; lia).
    exists (Raise e), 0%nat. repeat split; [lia|discriminate].
  - replace (attempt =? max_retries) with false by (symmetry; apply Z.eqb_neq; lia).
    unfold bind at 1. rewrite (back_off_sleeps base_delay attempt _ (Hok attempt ltac:(lia))).
    destruct (IH (attempt + 1)
                ((tr ++ [Get (url_of endpoint) ps])
                 ++ [Sleep (delay_seconds base_delay attempt)])
                ltac:(lia) ltac:(intros a Ha; apply Hok; lia))
      as (res & k & Hk & Hrun & Hres').
    exists res, (S k). split; [lia|]. split; [|exact Hres'].
    rewrite Hrun, attempt_events_step, <- !app_assoc.
    reflexivity.
Qed.

Lemma attempt_events_counts (u : string) (ps : option params) (base_delay : Q)
    (attempt : Z) (k : nat) :
  gets (attempt_events u ps base_delay attempt k) = S k
  /\ calls (attempt_events u ps base_delay attempt k) = 0%nat
  /\ sleeps (attempt_events u ps base_delay attempt k)
     = map (delay_seconds base_delay) (Py.range_from attempt k).
Proof.
  revert attempt. induction k as [|k IH]; intros attempt; [repeat split|].
  destruct (IH (attempt + 1)) as (Hg & Hc & Hs).
  rewrite attempt_events_step. unfold gets, calls in *.
  cbn [filter is_get is_call length sleeps Py.range_from map].
  rewrite Hg, Hc, Hs. repeat split.
Qed.

(** X1: whatever the provider does, one call of [_make_request] makes
    between one and four GETs, all to the URL of the endpoint with the
    parameters given, sleeps before each GET but the first, and the sleeps
    are the first of 1, 2 and 4 seconds: at most 7 seconds in all. *)
Theorem make_request_attempts (w : World) (endpoint : string) (ps : option params)
    (tr : trace) :
  exists res k evs,
    _make_request w endpoint ps tr = (res, tr ++ Call endpoint ps :: evs)
    /\ res <> OutOfFuel
    /\ (k <= 3)%nat
    /\ evs = attempt_events (url_of endpoint) ps 1 0 k
    /\ gets evs = S k
    /\ calls evs = 0%nat
    /\ sleeps evs = firstn k [1%Q; 2%Q; 4%Q].
Proof.
  unfold _make_request, bind, emit, retry_with_exponential_backoff.
  destruct (retry_for_events w endpoint ps 3 1 3 0 (tr ++ [Call endpoint ps]) eq_refl
              client_can_back_off)
    as (res & k & Hk & Hrun & Hres).
  change (Py.range (3 + 1)) with (Py.range_from 0 4). rewrite Hrun.
  exists res, k, (attempt_events (url_of endpoint) ps 1 0 k).
  destruct (attempt_events_counts (url_of endpoint) ps 1 0 k) as (Hg & Hc & Hs).
  rewrite <- app_assoc. repeat split; try assumption.
  rewrite Hs.
  destruct k as [|[|[|[|k]]]]; try reflexivity. lia.
Qed.

(** ** The governor in general *)

Lemma retry_for_settles {A : Type} (max_retries : Z) (base_delay : Q) (func : M A)
    (k : nat) :
  forall (attempt : Z) (tr : trace) (final : result A * trace),
    attempt + Z.of_nat k <= max_retries ->
    (forall a, attempt <= a < attempt + Z.of_nat k -> can_back_off base_delay a = true) ->
    retries_then base_delay func k attempt tr final ->
    attempt + Z.of_nat k = max_retries \/ is_caught_failure (fst final) = false ->
    retry_for max_retries base_delay func (attempts_from max_retries attempt) tr = final.
Proof.
  induction k as [|k IH]; intros attempt tr final Hle Hok Hrun Hlast;
    rewrite (attempts_from_step max_retries attempt) by lia; cbn [retries_then] in Hrun.
  - destruct final as [[a|e|] t]; cbn [retry_for]; rewrite Hrun; try reflexivity.
    destruct (caught_by_retry e) eqn:Hc; [|reflexivity].
    destruct Hlast as [Hlast|Hlast]; [|cbn in Hlast; congruence].
    replace (attempt =? max_retries) with true by (symmetry; apply Z.eqb_eq; lia).
    reflexivity.
  - destruct Hrun as (e & t & Hf & Hc & Hrest).
    rewrite (retry_for_backs_off max_retries base_delay func attempt _ tr t e Hf Hc);
      [|apply Z.eqb_neq; lia|apply Hok; lia].
    apply IH; [lia|intros a Ha; apply Hok; lia|exact Hrest|].
    destruct Hlast; [left; lia|right; assumption].
Qed.

(** X2: the governor returns the outcome of the first attempt that is not
    a failure it catches, or of attempt number max_retries + 1 whatever
    that is: if the operation fails [k <= max_retries] times with caught
    exceptions (the governor sleeping base_delay * 2^i after failure
    number i + 1, each of these a delay it can back off with: between 0
    and a million seconds) and then ends as [final], the decorated call
    ends as [final], provided [final] is not itself a caught failure or
    k = max_retries. *)
Theorem governor_returns_first_settled {A : Type} (max_retries : Z) (base_delay : Q)
    (func : M A) (k : nat) (tr : trace) (final : result A * trace) :
  Z.of_nat k <= max_retries ->
  (forall attempt, 0 <= attempt < Z.of_nat k -> can_back_off base_delay attempt = true) ->
  retries_then base_delay func k 0 tr final ->
  Z.of_nat k = max_retries \/ is_caught_failure (fst final) = false ->
  retry_with_exponential_backoff max_retries base_delay func tr = final.
Proof.
  intros Hk Hok Hrun Hlast. unfold retry_with_exponential_backoff.
  rewrite <- attempts_from_0.
  apply (retry_for_settles max_retries base_delay func k 0 tr final); assumption.
Qed.

Lemma governor_returns_first_settled_witness :
  let w := Mock.rate_limited_first 2 (JObj [("id", JInt 7)]) in
  let func := _make_request_body w "repos/a/b" None in
  let u := "https://api.github.com/repos/a/b" in
  let final := (Ok (JObj [("id", JInt 7)]),
                [Get u None; Sleep 1; Get u None; Sleep 2; Get u None]) in
  2 <= 3
  /\ (forall attempt, 0 <= attempt < 2 -> can_back_off 1 attempt = true)
  /\ retries_then 1 func 2 0 [] final
  /\ retry_with_exponential_backoff 3 1 func [] = final.
Proof.
  cbv zeta. split; [lia|].
  assert (Hok : forall attempt, 0 <= attempt < 2 -> can_back_off 1 attempt = true).
  { intros attempt H. apply client_can_back_off. lia. }
  split; [exact Hok|].
  assert (Hrun : retries_then 1
                   (_make_request_body (Mock.rate_limited_first 2 (JObj [("id", JInt 7)]))
                      "repos/a/b" None) 2 0 []
                   (Ok (JObj [("id", JInt 7)]),
                    [Get "https://api.github.com/repos/a/b" None; Sleep 1;
                     Get "https://api.github.com/repos/a/b" None; Sleep 2;
                     Get "https://api.github.com/repos/a/b" None])).
  { cbn [retries_then]. eexists. eexists. split; [reflexivity|]. split; [reflexivity|].
    eexists. eexists. split; [reflexivity|]. split; [reflexivity|]. reflexivity. }
  split; [exact Hrun|].
  apply (governor_returns_first_settled 3 1 _ 2 [] _ ltac:(lia) Hok Hrun).
  right. reflexivity.
Defined.

(** ** Failures of the transport *)

(** X3: a failure of the transport that is neither a timeout nor a
    connection error reaches the governor as it is: against a transport
    that keeps failing that way, [_make_request] makes four GETs with
    sleeps of 1, 2 and 4 seconds in between and then raises that same
    requests exception. *)
Theorem other_request_exception_retried (w : World) (name endpoint : string)
    (ps : option params) (tr : trace) :
  (forall t u p, session_get w t u p = Fail (OtherRequestException name)) ->
  _make_request w endpoint ps tr =
  (Raise (RequestException (OtherRequestException name)),
   tr ++ Call endpoint ps :: attempt_events (url_of endpoint) ps 1 0 3).
Proof.
  intros Hfail.
  assert (Hbody : forall t,
             _make_request_body w endpoint ps t =
             (Raise (RequestException (OtherRequestException name)),
              t ++ [Get (url_of endpoint) ps])).
  { intros t. unfold _make_request_body. rewrite Hfail. reflexivity. }
  unfold _make_request, bind, emit, retry_with_exponential_backoff.
  change (Py.range (3 + 1)) with [0; 1; 2; 3].
  rewrite (retry_for_backs_off 3 1 _ 0 _ _ _ _ (Hbody _) eq_refl eq_refl eq_refl).
  rewrite (retry_for_backs_off 3 1 _ 1 _ _ _ _ (Hbody _) eq_refl eq_refl eq_refl).
  rewrite (retry_for_backs_off 3 1 _ 2 _ _ _ _ (Hbody _) eq_refl eq_refl eq_refl).
  rewrite (retry_for_caught 3 1 _ 3 _ _ _ _ (Hbody _) eq_refl).
  rewrite <- !app_assoc. reflexivity.
Qed.

Lemma other_request_exception_retried_witness :
  let w := Mock.always (Fail (OtherRequestException "TooManyRedirects")) in
  let u := "https://api.github.com/repos/a/b" in
  (forall t u p, session_get w t u p = Fail (OtherRequestException "TooManyRedirects"))
  /\ _make_request w "repos/a/b" None [] =
     (Raise (RequestException (OtherRequestException "TooManyRedirects")),
      [Call "repos/a/b" None; Get u None; Sleep 1; Get u None; Sleep 2; Get u None;
       Sleep 4; Get u None]).
Proof.
  cbv zeta. split; [reflexivity|].
  exact (other_request_exception_retried
           (Mock.always (Fail (OtherRequestException "TooManyRedirects")))
           "TooManyRedirects" "repos/a/b" None [] (fun _ _ _ => eq_refl)).
Defined.

(** X4: when the GET times out or the connection fails, [_make_request]
    raises a plain GitHubAPIError with the text "Request timeout" (also for
    a connect timeout, which is both) or "Connection error", after that one
    GET and without sleeping. *)
Theorem timeout_and_connection_error (w : World) (endpoint : string) (ps : option params)
    (k : request_exception) (tr : trace) :
  session_get w (tr ++ [Call endpoint ps]) (url_of endpoint) ps = Fail k ->
  is_Timeout k || is_ConnectionError k = true ->
  _make_request w endpoint ps tr =
  (Raise (GitHubAPIError (if is_Timeout k then "Request timeout" else "Connection error")),
   tr ++ [Call endpoint ps; Get (url_of endpoint) ps]).
Proof.
  intros Hget Hkind.
  unfold _make_request, bind, emit, retry_with_exponential_backoff.
  replace (tr ++ [Call endpoint ps; Get (url_of endpoint) ps])
    with ((tr ++ [Call endpoint ps]) ++ [Get (url_of endpoint) ps])
    by (rewrite <- app_assoc; reflexivity).
  apply retry_for_uncaught; [|reflexivity].
  unfold _make_request_body. fold (url_of endpoint). rewrite Hget.
  destruct (is_Timeout k); [reflexivity|].
  cbn [orb] in Hkind. rewrite Hkind. reflexivity.
Qed.

Lemma timeout_and_connection_error_witness :
  let w := Mock.always (Fail ConnectTimeout) in
  session_get w ([] ++ [Call "orgs/octocat" None]) (url_of "orgs/octocat") None
    = Fail ConnectTimeout
  /\ is_Timeout ConnectTimeout || is_ConnectionError ConnectTimeout = true
  /\ _make_request w "orgs/octocat" None [] =
     (Raise (GitHubAPIError "Request timeout"),
      [Call "orgs/octocat" None; Get "https://api.github.com/orgs/octocat" None]).
Proof.
  cbv zeta. split; [reflexivity|]. split; [reflexivity|].
  exact (timeout_and_connection_error (Mock.always (Fail ConnectTimeout))
           "orgs/octocat" None ConnectTimeout [] eq_refl eq_refl).
Defined.

(** ** The reset header *)

(** X5: the X-RateLimit-Reset header is read only when fewer than 10
    requests remain or the response is a rate-limited 403.  On any other
    response (X-RateLimit-Remaining absent or an int of at least 10) with
    a status of the success range or an error status, the outcome is the
    one the ordered rules give, whatever the reset header holds. *)
Theorem reset_header_read_on_demand (w : World) (r : Response) (tr : trace) :
  remaining_not_low r = true ->
  (status_code r =? 403) && Spec.indicates_rate_limit (text r) = false ->
  success_or_error r = true ->
  _handle_response w r tr = (Spec.rendered r (Spec.interpret (time_time w tr) r), tr).
Proof.
  unfold remaining_not_low, Spec.interpret, Spec.indicates_rate_limit.
  intros Hrem Hnot Hstatus. rewrite <- (ok_is_success r Hstatus).
  unfold _handle_response, bind at 1.
  assert (Hcheck :
            match header_lookup "X-RateLimit-Remaining" (headers r) with
            | Some v =>
                remaining <- py_int v ;;
                (if remaining <? 10
                 then reset_time <- int_header_or_0 "X-RateLimit-Reset" (headers r) ;;
                      current_time <- now w ;; ret tt
                 else ret tt)
            | None => ret tt
            end tr = (Ok tt, tr)).
  { destruct (header_lookup "X-RateLimit-Remaining" (headers r)) as [v|]; [|reflexivity].
    destruct (Py.int_of_str v) as [n|] eqn:Hv; [|discriminate].
    unfold bind. rewrite (py_int_value v n tr Hv).
    destruct (n <? 10); [discriminate|reflexivity]. }
  rewrite Hcheck, Hnot.
  destruct (status_code r =? 404); [reflexivity|].
  destruct (negb (ok r)); [reflexivity|].
  destruct (json_body r); reflexivity.
Qed.

Lemma reset_header_read_on_demand_witness :
  remaining_not_low Mock.odd_reset_header = true
  /\ success_or_error Mock.odd_reset_header = true
  /\ Spec.well_formed_headers Mock.odd_reset_header = false
  /\ _handle_response (Mock.always (Fail ReadTimeout)) Mock.odd_reset_header [] =
     (Ok (JObj [("id", JInt 7)]), []).
Proof.
  split; [reflexivity|]. split; [reflexivity|]. split; [reflexivity|].
  exact (reset_header_read_on_demand (Mock.always (Fail ReadTimeout))
           Mock.odd_reset_header [] eq_refl eq_refl eq_refl).
Defined.

(** ** README lookup: what propagates *)

Lemma lower_append (a b : string) : Py.lower (a +++ b) = Py.lower a +++ Py.lower b.
Proof. induction a as [|c a IH]; [reflexivity|]. cbn. now rewrite IH. Qed.

Lemma string_of_uint_numeric (d : Decimal.uint) :
  all_chars numeric_char (NilEmpty.string_of_uint d) = true.
Proof. induction d; cbn [NilEmpty.string_of_uint all_chars]; try rewrite IHd; reflexivity. Qed.

Lemma str_of_int_numeric (n : Z) : all_chars numeric_char (Py.str_of_int n) = true.
Proof.
  unfold Py.str_of_int, NilZero.string_of_int, NilZero.string_of_uint.
  destruct (Z.to_int n) as [d|d].
  - destruct d; try reflexivity; apply (string_of_uint_numeric _).
  - cbn [all_chars]. destruct d; try reflexivity; apply (string_of_uint_numeric _).
Qed.

Lemma contains_unfold (needle : string) (c : ascii) (t : string) :
  Py.contains needle (String c t) =
  if prefix needle (String c t) then true else Py.contains needle t.
Proof. reflexivity. Qed.

(** A run of digits cannot begin or continue the words "not found". *)
Lemma not_found_skips_numeric (d tail : string) :
  all_chars numeric_char d = true ->
  Py.contains "not found" (Py.lower d +++ tail) = Py.contains "not found" tail.
Proof.
  induction d as [|c d IH]; [reflexivity|].
  cbn [all_chars]. intros H. apply andb_prop in H as [Hc Hd].
  cbn [Py.lower String.append]. rewrite contains_unfold, (IH Hd).
  destruct c as [[|] [|] [|] [|] [|] [|] [|] [|]]; try discriminate Hc; reflexivity.
Qed.

Lemma rate_limit_message_not_not_found (wait : Z) :
  Py.contains "not found" (Py.lower (rate_limit_message wait)) = false.
Proof.
  unfold rate_limit_message. rewrite lower_append.
  cbn [Py.lower String.append].
  repeat (rewrite contains_unfold; cbn [prefix]).
  rewrite lower_append.
  rewrite (not_found_skips_numeric _ _ (str_of_int_numeric wait)).
  reflexivity.
Qed.

(** X6: [get_repository_readme] turns into [None] only failures whose text
    contains "not found".  A rate-limit failure, a timeout, a connection
    error, and every exception that is not a GitHubAPIError leave it as
    they left [_make_request]. *)
Theorem readme_failures_that_propagate (w : World) (owner repo_name : string) (e : exn)
    (tr tr' : trace) :
  valid_names owner repo_name = true ->
  _make_request w (readme_endpoint owner repo_name) None tr = (Raise e, tr') ->
  (exists msg, e = RateLimitError msg)
  \/ e = GitHubAPIError "Request timeout"
  \/ e = GitHubAPIError "Connection error"
  \/ is_GitHubAPIError e = false ->
  get_repository_readme w owner repo_name tr = (Raise e, tr').
Proof.
  intros Hvalid Hreq Hkind. apply negb_true_iff in Hvalid.
  unfold get_repository_readme. rewrite Hvalid.
  fold (readme_endpoint owner repo_name).
  unfold try_except_GitHubAPIError, bind at 1. rewrite Hreq.
  destruct Hkind as [[msg ->]|[->|[->|Hother]]].
  - destruct (make_request_rate_limit_message _ _ _ _ _ _ Hreq) as [wait ->].
    cbn [is_GitHubAPIError str_of_exn].
    rewrite rate_limit_message_not_not_found. reflexivity.
  - reflexivity.
  - reflexivity.
  - rewrite Hother. reflexivity.
Qed.

Lemma readme_failures_that_propagate_witness :
  let w := Mock.always (Resp Mock.rate_limited) in
  let e := RateLimitError "Rate limit exceeded. Try again in 60 seconds." in
  valid_names "octocat" "hello" = true
  /\ fst (_make_request w (readme_endpoint "octocat" "hello") None []) = Raise e
  /\ fst (get_repository_readme w "octocat" "hello" []) = Raise e.
Proof.
  cbv zeta. split; [reflexivity|]. split; [reflexivity|].
  rewrite (readme_failures_that_propagate (Mock.always (Resp Mock.rate_limited))
             "octocat" "hello"
             (RateLimitError "Rate limit exceeded. Try again in 60 seconds.") [] _
             eq_refl eq_refl (or_introl (ex_intro _ _ eq_refl))).
  reflexivity.
Defined.

(** X7: when the README request succeeds with a JSON object,
    [get_repository_readme] returns [None] if the object has no 'content'
    field, the decoded text of the field if the decoder accepts it, and
    lets the decoder's exception through otherwise; no further request is
    made. *)
Theorem readme_of_object_payload (w : World) (owner repo_name : string)
    (members : list (string * json)) (tr tr' : trace) :
  valid_names owner repo_name = true ->
  _make_request w (readme_endpoint owner repo_name) None tr = (Ok (JObj members), tr') ->
  match lookup "content" members with
  | None => get_repository_readme w owner repo_name tr = (Ok None, tr')
  | Some field =>
      match b64decode_utf8 w field with
      | Ok content => get_repository_readme w owner repo_name tr = (Ok (Some content), tr')
      | Raise e =>
          is_GitHubAPIError e = false ->
          get_repository_readme w owner repo_name tr = (Raise e, tr')
      | OutOfFuel => True
      end
  end.
Proof.
  intros Hvalid Hreq. apply negb_true_iff in Hvalid.
  assert (Hrun : get_repository_readme w owner repo_name tr =
                 try_except_GitHubAPIError
                   (has_content <- lift (py_in "content" (JObj members)) ;;
                    if has_content then
                      field <- lift (py_getitem (JObj members) "content") ;;
                      content <- lift (b64decode_utf8 w field) ;;
                      ret (Some content)
                    else ret None)
                   (fun e =>
                      if Py.contains "not found" (Py.lower (str_of_exn e)) then ret None
                      else raise e) tr').
  { unfold get_repository_readme. rewrite Hvalid.
    fold (readme_endpoint owner repo_name).
    unfold try_except_GitHubAPIError, bind at 1. rewrite Hreq. reflexivity. }
  destruct (lookup "content" members) as [field|] eqn:Hfield.
  - destruct (b64decode_utf8 w field) as [content|e|] eqn:Hdecode; [| |exact I];
      [|intros He]; rewrite Hrun;
      unfold try_except_GitHubAPIError, bind, lift, ret;
      cbn [py_in py_getitem]; rewrite Hfield, Hdecode; [reflexivity|].
    rewrite He. reflexivity.
  - rewrite Hrun. unfold try_except_GitHubAPIError, bind, lift, ret.
    cbn [py_in]. rewrite Hfield. reflexivity.
Qed.

Lemma readme_of_object_payload_witness :
  let w := Mock.always (Resp (Mock.payload (JObj [("content", JStr "Hello")]))) in
  valid_names "octocat" "hello" = true
  /\ get_repository_readme w "octocat" "hello" [] =
     (Ok (Some "Hello"),
      [Call "repos/octocat/hello/readme" None;
       Get "https://api.github.com/repos/octocat/hello/readme" None]).
Proof.
  cbv zeta. split; [reflexivity|].
  exact (readme_of_object_payload
           (Mock.always (Resp (Mock.payload (JObj [("content", JStr "Hello")]))))
           "octocat" "hello" [("content", JStr "Hello")] [] _ eq_refl eq_refl).
Defined.

(** ** The order of the page requests *)

Lemma no_calls_filter (evs : trace) : calls evs = 0%nat -> filter is_call evs = [].
Proof. unfold calls. apply length_zero_iff_nil. Qed.

Section PageOrder.

Variables (w : World) (endpoint : string) (mk_params : Z -> params) (size : Z).
Variable post : list json -> result (list json).
Hypothesis post_total : forall l, post l <> OutOfFuel.

(** Whatever the provider answers, the loop asks for consecutive pages,
    starting with [page], each once, and for nothing else. *)
Lemma paginate_page_order (fuel : nat) :
  forall (page : Z) (acc : list json) (tr : trace),
    exists res evs n,
      paginate w fuel endpoint mk_params size post page acc tr = (res, tr ++ evs)
      /\ filter is_call evs = page_calls endpoint mk_params page n
      /\ (fuel <> 0%nat -> (1 <= n)%nat)
      /\ Z.of_nat n <= Z.max 1 (101 - page)
      /\ (Z.max 1 (101 - page) <= Z.of_nat fuel -> res <> OutOfFuel).
Proof.
  induction fuel as [|fuel IH]; intros page acc tr.
  - exists OutOfFuel, [], 0%nat. cbn. rewrite app_nil_r.
    repeat split; [contradiction|lia|lia].
  - cbn [paginate]. unfold bind at 1.
    destruct (make_request_total w endpoint (Some (mk_params page)) tr)
      as (res & evs1 & -> & Hc1 & Hres).
    apply no_calls_filter in Hc1.
    assert (Hone : filter is_call (Call endpoint (Some (mk_params page)) :: evs1)
                   = page_calls endpoint mk_params page 1)
      by (cbn; rewrite Hc1; reflexivity).
    assert (Hstop : forall r : result (list json), r <> OutOfFuel ->
               exists res' evs n,
                 (r, tr ++ Call endpoint (Some (mk_params page)) :: evs1) = (res', tr ++ evs)
                 /\ filter is_call evs = page_calls endpoint mk_params page n
                 /\ (S fuel <> 0%nat -> (1 <= n)%nat)
                 /\ Z.of_nat n <= Z.max 1 (101 - page)
                 /\ (Z.max 1 (101 - page) <= Z.of_nat (S fuel) -> res' <> OutOfFuel)).
    { intros r Hr. exists r, (Call endpoint (Some (mk_params page)) :: evs1), 1%nat.
      repeat split; [exact Hone|lia|lia|auto]. }
    destruct res as [data|e|]; [| |contradiction].
    2:{ apply Hstop. discriminate. }
    destruct (negb (truthy data)); [apply Hstop; discriminate|].
    unfold bind, lift.
    pose proof (py_iter_total data) as Hiter.
    destruct (py_iter data) as [elements|e|]; [| |contradiction].
    2:{ apply Hstop. discriminate. }
    pose proof (post_total elements) as Hpost.
    destruct (post elements) as [kept|e|]; [| |contradiction].
    2:{ apply Hstop. discriminate. }
    pose proof (py_len_total data) as Hlen.
    destruct (py_len data) as [n|e|]; [| |contradiction].
    2:{ apply Hstop. discriminate. }
    destruct (n <? size); [apply Hstop; discriminate|].
    destruct (Z.gtb_spec (page + 1) 100) as [Hlast|Hmore];
      [apply Hstop; discriminate|].
    destruct (IH (page + 1) (acc ++ kept)
                (tr ++ Call endpoint (Some (mk_params page)) :: evs1))
      as (res' & evs2 & m & -> & Hcalls & _ & Hm & Hres').
    exists res', ((Call endpoint (Some (mk_params page)) :: evs1) ++ evs2), (S m).
    split; [rewrite <- app_assoc; reflexivity|].
    split; [rewrite filter_app, Hone, Hcalls; reflexivity|].
    split; [lia|]. split; [lia|].
    intros Hfuel. apply Hres'. lia.
Qed.

End PageOrder.

Lemma length_range_from (lo : Z) (n : nat) : length (Py.range_from lo n) = n.
Proof. revert lo. induction n as [|n IH]; intros lo; [reflexivity|]. cbn. now rewrite IH. Qed.

Lemma page_calls_are_page_requests (endpoint : string) (mk_params : Z -> params)
    (evs : trace) (page : Z) (n : nat) :
  (forall p, param_int "page" (mk_params p) <> None) ->
  filter is_call evs = page_calls endpoint mk_params page n ->
  calls evs = n /\ page_requests evs = n.
Proof.
  intros Hpage Hcalls. split.
  - unfold calls. rewrite Hcalls. unfold page_calls. now rewrite length_map, length_range_from.
  - assert (Hsame : filter is_page_request evs = filter is_page_request (filter is_call evs)).
    { clear. induction evs as [|e evs IH]; [reflexivity|].
      destruct e as [ep [ps|]|u ps|d]; cbn; try exact IH.
      destruct (param_int "page" ps); cbn; now rewrite IH. }
    unfold page_requests. rewrite Hsame, Hcalls. unfold page_calls.
    clear Hcalls Hsame. revert page.
    induction n as [|n IH]; intros page; [reflexivity|].
    cbn. specialize (Hpage page).
    destruct (param_int "page" (mk_params page)); [|contradiction].
    cbn. now rewrite IH.
Qed.

Lemma get_repository_pull_requests_loop_paginate (w : World) (fuel : nat)
    (endpoint state : string) (per_page page : Z) (acc : list json) (tr : trace) :
  get_repository_pull_requests_loop w fuel endpoint state per_page page acc tr =
  paginate w fuel endpoint (issues_params state per_page) (Z.min per_page 100)
    (fun l => Ok l) page acc tr.
Proof.
  revert page acc tr. induction fuel as [|fuel IH]; intros page acc tr; [reflexivity|].
  cbn [get_repository_pull_requests_loop paginate].
  fold (issues_params state per_page page).
  unfold bind, lift, ret.
  destruct (_make_request w endpoint (Some (issues_params state per_page page)) tr)
    as [[data|e|] tr1]; try reflexivity.
  destruct (negb (truthy data)); [reflexivity|].
  destruct (py_iter data) as [elements|e|]; try reflexivity.
  destruct (py_len data) as [n|e|]; try reflexivity.
  destruct (n <? Z.min per_page 100); [reflexivity|].
  destruct (page + 1 >? 100); [reflexivity|].
  apply IH.
Qed.

Lemma get_repository_contributors_loop_paginate (w : World) (fuel : nat)
    (endpoint : string) (per_page page : Z) (acc : list json) (tr : trace) :
  get_repository_contributors_loop w fuel endpoint per_page page acc tr =
  paginate w fuel endpoint (contributors_params per_page) (Z.min per_page 100)
    (fun l => Ok l) page acc tr.
Proof.
  revert page acc tr. induction fuel as [|fuel IH]; intros page acc tr; [reflexivity|].
  cbn [get_repository_contributors_loop paginate].
  fold (contributors_params per_page page).
  unfold bind, lift, ret.
  destruct (_make_request w endpoint (Some (contributors_params per_page page)) tr)
    as [[data|e|] tr1]; try reflexivity.
  destruct (negb (truthy data)); [reflexivity|].
  destruct (py_iter data) as [elements|e|]; try reflexivity.
  destruct (py_len data) as [n|e|]; try reflexivity.
  destruct (n <? Z.min per_page 100); [reflexivity|].
  destruct (page + 1 >? 100); [reflexivity|].
  apply IH.
Qed.

(** The whole unfiltered run from page 1 against a provider that serves
    pages. *)
Lemma paginate_serves_all (w : World) (endpoint : string) (mk_params : Z -> params)
    (size : Z) (items : list json) (tr : trace) :
  1 <= size ->
  serves_pages w endpoint mk_params size items ->
  paginate w 100 endpoint mk_params size (fun l => Ok l) 1 [] tr =
  (Ok (firstn (Z.to_nat (100 * size)) items),
   tr ++ page_events endpoint mk_params 1
           (Nat.min (length items / Z.to_nat size + 1) 100)).
Proof.
  intros Hsize Hserves. unfold serves_pages in Hserves.
  rewrite (paginate_serves w endpoint mk_params size (fun l => Ok l) (fun _ => true) items
             Hsize Hserves (fun a b => f_equal Ok (eq_sym (filter_true _)))
             99 100 1 [] tr ltac:(lia) ltac:(reflexivity) ltac:(lia)).
  cbv zeta. cbn [Z.sub Z.to_nat Z.pos_sub Nat.mul skipn app].
  rewrite filter_true, Z2Nat.inj_mul by lia. reflexivity.
Qed.

Lemma page_count_Z (items : list json) (size : Z) :
  1 <= size ->
  Z.of_nat (Nat.min (length items / Z.to_nat size + 1) 100)
  = Z.min (Py.len items / size + 1) 100.
Proof.
  intros Hsize.
  rewrite Nat2Z.inj_min, Nat2Z.inj_add, Nat2Z.inj_div, Z2Nat.id by lia. reflexivity.
Qed.

(** X8: the two fixed-kind listings never probe the owner.  Whatever the
    provider answers, [get_user_repositories] calls only
    users/<name>/repos and [get_organization_repositories] only
    orgs/<name>/repos, for pages 1, 2, ..., n in this order, each once,
    with 1 <= n <= 100, and comes to an end. *)
Theorem fixed_kind_listing_page_order (w : World) (name : string) (per_page : Z)
    (tr : trace) :
  valid_owner name = true ->
  (exists res evs n,
      get_user_repositories w name per_page tr = (res, tr ++ evs)
      /\ filter is_call evs
         = page_calls ("users/" +++ Py.strip name +++ "/repos")
             (repositories_params per_page) 1 n
      /\ (1 <= n <= 100)%nat /\ res <> OutOfFuel)
  /\ (exists res evs n,
         get_organization_repositories w name per_page tr = (res, tr ++ evs)
         /\ filter is_call evs
            = page_calls ("orgs/" +++ Py.strip name +++ "/repos")
                (repositories_params per_page) 1 n
         /\ (1 <= n <= 100)%nat /\ res <> OutOfFuel).
Proof.
  intros Hvalid. apply negb_true_iff in Hvalid.
  split.
  - unfold get_user_repositories, get_repositories. rewrite Hvalid.
    change ("user" =? "auto")%string with false. unfold bind at 1, ret at 1.
    change ("user" =? "org")%string with false.
    change ("user" =? "user")%string with true. cbn [negb orb].
    destruct (paginate_page_order w ("users/" +++ Py.strip name +++ "/repos")
                (repositories_params per_page) (Z.min per_page 100) (fun l => Ok l)
                ltac:(discriminate) 100 1 [] tr)
      as (res & evs & n & Hrun & Hcalls & Hn1 & Hn & Hres).
    exists res, evs, n. rewrite get_repositories_loop_paginate.
    split; [exact Hrun|]. split; [exact Hcalls|].
    split; [split; [apply Hn1; discriminate|lia]|]. apply Hres. lia.
  - unfold get_organization_repositories, get_repositories. rewrite Hvalid.
    change ("org" =? "auto")%string with false. unfold bind at 1, ret at 1.
    change ("org" =? "org")%string with true. cbn [negb orb].
    destruct (paginate_page_order w ("orgs/" +++ Py.strip name +++ "/repos")
                (repositories_params per_page) (Z.min per_page 100) (fun l => Ok l)
                ltac:(discriminate) 100 1 [] tr)
      as (res & evs & n & Hrun & Hcalls & Hn1 & Hn & Hres).
    exists res, evs, n. rewrite get_repositories_loop_paginate.
    split; [exact Hrun|]. split; [exact Hcalls|].
    split; [split; [apply Hn1; discriminate|lia]|]. apply Hres. lia.
Qed.

Lemma fixed_kind_listing_page_order_witness :
  let w := Mock.listing (Mock.repos 0 5) in
  valid_owner " octocat " = true
  /\ (exists res evs n,
         get_user_repositories w " octocat " 2 [] = (res, [] ++ evs)
         /\ filter is_call evs
            = page_calls "users/octocat/repos" (repositories_params 2) 1 n
         /\ (1 <= n <= 100)%nat /\ res <> OutOfFuel).
Proof.
  cbv zeta. split; [reflexivity|].
  exact (proj1 (fixed_kind_listing_page_order (Mock.listing (Mock.repos 0 5))
                  " octocat " 2 [] eq_refl)).
Defined.

(** ** Pull requests and contributors *)

Lemma listing_serves_contributors (items : list json) (endpoint : string) (per_page : Z) :
  serves_pages (Mock.listing items) endpoint (contributors_params per_page)
    (Z.min per_page 100) items.
Proof. intros tr page Hpage. eexists. split; [reflexivity|apply delivers_payload]. Qed.

(** X9: [get_repository_pull_requests].  (1) Against a provider that
    serves N entries in pages of the size P = min(per_page, 100) >= 1 asked
    for, it returns the first 100 * P of them unchanged and in order (all
    of them when N < 100 * P; nothing is filtered, the entries need not
    even be objects) after min(N / P + 1, 100) page requests of one GET
    each.  (2) Against any provider it asks repos/<owner>/<repo>/pulls for
    pages 1, 2, ..., n in order, 1 <= n <= 100, and comes to an end.
    (3) With an empty owner or repository name or a state other than
    open, closed, all it raises ValueError without any request. *)
Theorem get_repository_pull_requests_pagination :
  (forall (w : World) (owner repo_name state : string) (per_page : Z)
          (items : list json) (tr : trace),
      let size := Z.min per_page 100 in
      valid_issue_query owner repo_name state = true ->
      1 <= size ->
      serves_pages w (pulls_endpoint owner repo_name) (issues_params state per_page)
        size items ->
      exists evs,
        get_repository_pull_requests w owner repo_name state per_page tr =
          (Ok (firstn (Z.to_nat (100 * size)) items), tr ++ evs)
        /\ Z.of_nat (page_requests evs) = Z.min (Py.len items / size + 1) 100
        /\ gets evs = page_requests evs
        /\ (Py.len items < 100 * size -> firstn (Z.to_nat (100 * size)) items = items))
  /\ (forall (w : World) (owner repo_name state : string) (per_page : Z) (tr : trace),
         valid_issue_query owner repo_name state = true ->
         exists res evs n,
           get_repository_pull_requests w owner repo_name state per_page tr
             = (res, tr ++ evs)
           /\ filter is_call evs
              = page_calls (pulls_endpoint owner repo_name)
                  (issues_params state per_page) 1 n
           /\ (1 <= n <= 100)%nat /\ res <> OutOfFuel)
  /\ (forall (w : World) (owner repo_name state : string) (per_page : Z) (tr : trace),
         valid_issue_query owner repo_name state = false ->
         exists msg,
           get_repository_pull_requests w owner repo_name state per_page tr
             = (Raise (ValueError msg), tr)).
Proof.
  split; [|split].
  - intros w owner repo_name state per_page items tr size Hvalid Hsize Hserves.
    apply andb_prop in Hvalid as [Hnames Hstate]. apply negb_true_iff in Hnames.
    unfold get_repository_pull_requests. rewrite Hnames, Hstate. cbn [negb].
    fold (pulls_endpoint owner repo_name).
    rewrite get_repository_pull_requests_loop_paginate. fold size.
    rewrite (paginate_serves_all w _ _ size items tr Hsize Hserves).
    destruct (page_events_counts (pulls_endpoint owner repo_name)
                (issues_params state per_page) 1
                (Nat.min (length items / Z.to_nat size + 1) 100))
      as (Hp & Hg & _); [discriminate|].
    eexists. split; [reflexivity|].
    rewrite Hp, Hg. split; [apply page_count_Z; exact Hsize|]. split; [reflexivity|].
    intros Hall. unfold Py.len in Hall. apply firstn_all2. lia.
  - intros w owner repo_name state per_page tr Hvalid.
    apply andb_prop in Hvalid as [Hnames Hstate]. apply negb_true_iff in Hnames.
    unfold get_repository_pull_requests. rewrite Hnames, Hstate. cbn [negb].
    fold (pulls_endpoint owner repo_name).
    destruct (paginate_page_order w (pulls_endpoint owner repo_name)
                (issues_params state per_page) (Z.min per_page 100) (fun l => Ok l)
                ltac:(discriminate) 100 1 [] tr)
      as (res & evs & n & Hrun & Hcalls & Hn1 & Hn & Hres).
    exists res, evs, n. rewrite get_repository_pull_requests_loop_paginate.
    split; [exact Hrun|]. split; [exact Hcalls|].
    split; [split; [apply Hn1; discriminate|lia]|]. apply Hres. lia.
  - intros w owner repo_name state per_page tr Hvalid.
    unfold valid_issue_query in Hvalid. unfold get_repository_pull_requests.
    destruct ((owner =? EmptyString)%string || (repo_name =? EmptyString)%string);
      [eexists; reflexivity|].
    cbn [negb andb] in Hvalid. rewrite Hvalid. eexists. reflexivity.
Qed.

Lemma get_repository_pull_requests_pagination_witness :
  let w := Mock.listing Mock.issues_and_pull_requests in
  valid_issue_query "octocat" "hello" "all" = true
  /\ 1 <= Z.min 2 100
  /\ serves_pages w (pulls_endpoint "octocat" "hello") (issues_params "all" 2)
       (Z.min 2 100) Mock.issues_and_pull_requests
  /\ exists evs,
      get_repository_pull_requests w "octocat" "hello" "all" 2 [] =
        (Ok Mock.issues_and_pull_requests, evs)
      /\ Z.of_nat (page_requests evs) = 3.
Proof.
  cbv zeta. split; [reflexivity|]. split; [cbn; lia|].
  split; [apply listing_serves_issues|].
  destruct (proj1 get_repository_pull_requests_pagination
              (Mock.listing Mock.issues_and_pull_requests) "octocat" "hello" "all" 2
              Mock.issues_and_pull_requests [] eq_refl ltac:(cbn; lia)
              (listing_serves_issues _ _ _ _))
    as (evs & Hrun & Hcount & _ & _).
  exists evs. split; [exact Hrun|exact Hcount].
Defined.

(** X10: [get_repository_contributors], which sends only per_page and page.
    (1) Against a provider that serves N entries in pages of the size
    P = min(per_page, 100) >= 1 asked for, it returns the first 100 * P of
    them in order (all when N < 100 * P) after min(N / P + 1, 100) page
    requests of one GET each.  (2) Against any provider it asks
    repos/<owner>/<repo>/contributors for pages 1, 2, ..., n in order,
    1 <= n <= 100, and comes to an end.  (3) With an empty owner or
    repository name it raises ValueError without any request. *)
Theorem get_repository_contributors_pagination :
  (forall (w : World) (owner repo_name : string) (per_page : Z)
          (items : list json) (tr : trace),
      let size := Z.min per_page 100 in
      valid_names owner repo_name = true ->
      1 <= size ->
      serves_pages w (contributors_endpoint owner repo_name)
        (contributors_params per_page) size items ->
      exists evs,
        get_repository_contributors w owner repo_name per_page tr =
          (Ok (firstn (Z.to_nat (100 * size)) items), tr ++ evs)
        /\ Z.of_nat (page_requests evs) = Z.min (Py.len items / size + 1) 100
        /\ gets evs = page_requests evs
        /\ (Py.len items < 100 * size -> firstn (Z.to_nat (100 * size)) items = items))
  /\ (forall (w : World) (owner repo_name : string) (per_page : Z) (tr : trace),
         valid_names owner repo_name = true ->
         exists res evs n,
           get_repository_contributors w owner repo_name per_page tr = (res, tr ++ evs)
           /\ filter is_call evs
              = page_calls (contributors_endpoint owner repo_name)
                  (contributors_params per_page) 1 n
           /\ (1 <= n <= 100)%nat /\ res <> OutOfFuel)
  /\ (forall (w : World) (owner repo_name : string) (per_page : Z) (tr : trace),
         valid_names owner repo_name = false ->
         get_repository_contributors w owner repo_name per_page tr
           = (Raise (ValueError "Owner and repository name cannot be empty"), tr)).
Proof.
  split; [|split].
  - intros w owner repo_name per_page items tr size Hvalid Hsize Hserves.
    apply negb_true_iff in Hvalid.
    unfold get_repository_contributors. rewrite Hvalid.
    fold (contributors_endpoint owner repo_name).
    rewrite get_repository_contributors_loop_paginate. fold size.
    rewrite (paginate_serves_all w _ _ size items tr Hsize Hserves).
    destruct (page_events_counts (contributors_endpoint owner repo_name)
                (contributors_params per_page) 1
                (Nat.min (length items / Z.to_nat size + 1) 100))
      as (Hp & Hg & _); [discriminate|].
    eexists. split; [reflexivity|].
    rewrite Hp, Hg. split; [apply page_count_Z; exact Hsize|]. split; [reflexivity|].
    intros Hall. unfold Py.len in Hall. apply firstn_all2. lia.
  - intros w owner repo_name per_page tr Hvalid. apply negb_true_iff in Hvalid.
    unfold get_repository_contributors. rewrite Hvalid.
    fold (contributors_endpoint owner repo_name).
    destruct (paginate_page_order w (contributors_endpoint owner repo_name)
                (contributors_params per_page) (Z.min per_page 100) (fun l => Ok l)
                ltac:(discriminate) 100 1 [] tr)
      as (res & evs & n & Hrun & Hcalls & Hn1 & Hn & Hres).
    exists res, evs, n. rewrite get_repository_contributors_loop_paginate.
    split; [exact Hrun|]. split; [exact Hcalls|].
    split; [split; [apply Hn1; discriminate|lia]|]. apply Hres. lia.
  - intros w owner repo_name per_page tr Hvalid. apply negb_false_iff in Hvalid.
    unfold get_repository_contributors. rewrite Hvalid. reflexivity.
Qed.

Lemma get_repository_contributors_pagination_witness :
  let w := Mock.listing (Mock.repos 0 7) in
  valid_names "octocat" "hello" = true
  /\ 1 <= Z.min 300 100
  /\ serves_pages w (contributors_endpoint "octocat" "hello") (contributors_params 300)
       (Z.min 300 100) (Mock.repos 0 7)
  /\ exists evs,
      get_repository_contributors w "octocat" "hello" 300 [] = (Ok (Mock.repos 0 7), evs)
      /\ Z.of_nat (page_requests evs) = 1.
Proof.
  cbv zeta. split; [reflexivity|]. split; [cbn; lia|].
  split; [apply listing_serves_contributors|].
  destruct (proj1 get_repository_contributors_pagination
              (Mock.listing (Mock.repos 0 7)) "octocat" "hello" 300
              (Mock.repos 0 7) [] eq_refl ltac:(cbn; lia)
              (listing_serves_contributors _ _ _))
    as (evs & Hrun & Hcount & _ & _).
  exists evs. split; [exact Hrun|exact Hcount].
Defined.

(** ** The page size is clamped *)

Lemma paginate_ext (w : World) (endpoint : string) (mk1 mk2 : Z -> params) (size : Z)
    (post : list json -> result (list json)) (fuel : nat) :
  (forall p, mk1 p = mk2 p) ->
  forall (page : Z) (acc : list json) (tr : trace),
    paginate w fuel endpoint mk1 size post page acc tr =
    paginate w fuel endpoint mk2 size post page acc tr.
Proof.
  intros Hmk. induction fuel as [|fuel IH]; intros page acc tr; [reflexivity|].
  cbn [paginate]. rewrite Hmk. unfold bind, lift, ret.
  destruct (_make_request w endpoint (Some (mk2 page)) tr) as [[data|e|] tr1];
    try reflexivity.
  destruct (negb (truthy data)); [reflexivity|].
  destruct (py_iter data) as [elements|e|]; try reflexivity.
  destruct (post elements) as [kept|e|]; try reflexivity.
  destruct (py_len data) as [n|e|]; try reflexivity.
  destruct (n <? size); [reflexivity|].
  destruct (page + 1 >? 100); [reflexivity|].
  apply IH.
Qed.

Lemma clamp_min (per_page : Z) : 100 <= per_page -> Z.min per_page 100 = Z.min 100 100.
Proof. lia. Qed.

(** [get_repositories] read as three steps: validation, the owner kind,
    the loop. *)
Lemma get_repositories_after_validation (w : World) (owner_name owner_type : string)
    (per_page : Z) (tr : trace) :
  get_repositories w owner_name owner_type per_page tr =
  if (owner_name =? EmptyString)%string || (Py.strip owner_name =? EmptyString)%string
  then (Raise (ValueError "Owner name cannot be empty"), tr)
  else
    match owner_kind w owner_name owner_type tr with
    | (Ok kind, tr1) =>
        if negb ((kind =? "org")%string || (kind =? "user")%string)
        then (Raise (ValueError "Owner type must be 'org', 'user', or 'auto'"), tr1)
        else get_repositories_loop w 100
               (if (kind =? "org")%string
                then "orgs/" +++ Py.strip owner_name +++ "/repos"
                else "users/" +++ Py.strip owner_name +++ "/repos") per_page 1 [] tr1
    | (Raise e, tr1) => (Raise e, tr1)
    | (OutOfFuel, tr1) => (OutOfFuel, tr1)
    end.
Proof.
  unfold get_repositories, owner_kind.
  destruct ((owner_name =? EmptyString)%string
            || (Py.strip owner_name =? EmptyString)%string); [reflexivity|].
  unfold bind at 1.
  destruct (owner_type =? "auto")%string.
  - destruct (_detect_owner_type w (Py.strip owner_name) tr) as [[kind|e|] tr1];
      try reflexivity.
    destruct (negb ((kind =? "org")%string || (kind =? "user")%string)); reflexivity.
  - unfold ret. cbv beta iota.
    destruct (negb ((owner_type =? "org")%string || (owner_type =? "user")%string));
      reflexivity.
Qed.

(** X11: a page size above 100 is the same as 100.  For per_page >= 100
    each listing operation, and the single-page search, behaves exactly as
    with per_page = 100: same requests, same result. *)
Theorem per_page_clamped (w : World) (per_page : Z) (tr : trace) :
  100 <= per_page ->
  (forall owner_name owner_type,
      get_repositories w owner_name owner_type per_page tr
      = get_repositories w owner_name owner_type 100 tr)
  /\ (forall owner repo_name state,
         get_repository_issues w owner repo_name state per_page tr
         = get_repository_issues w owner repo_name state 100 tr)
  /\ (forall owner repo_name state,
         get_repository_pull_requests w owner repo_name state per_page tr
         = get_repository_pull_requests w owner repo_name state 100 tr)
  /\ (forall owner repo_name,
         get_repository_contributors w owner repo_name per_page tr
         = get_repository_contributors w owner repo_name 100 tr)
  /\ (forall query sort order,
         search_repositories w query sort order per_page tr
         = search_repositories w query sort order 100 tr).
Proof.
  intros Hpp. pose proof (clamp_min per_page Hpp) as Hmin.
  assert (Hrepos : forall p, repositories_params per_page p = repositories_params 100 p)
    by (intros p; unfold repositories_params; rewrite Hmin; reflexivity).
  assert (Hissues : forall state p,
             issues_params state per_page p = issues_params state 100 p)
    by (intros state p; unfold issues_params; rewrite Hmin; reflexivity).
  assert (Hcontributors :
            forall p, contributors_params per_page p = contributors_params 100 p)
    by (intros p; unfold contributors_params; rewrite Hmin; reflexivity).
  repeat apply conj.
  - intros owner_name owner_type.
    rewrite !get_repositories_after_validation.
    destruct ((owner_name =? EmptyString)%string
              || (Py.strip owner_name =? EmptyString)%string); [reflexivity|].
    destruct (owner_kind w owner_name owner_type tr) as [[kind|e|] tr1];
      [|reflexivity|reflexivity].
    destruct (negb ((kind =? "org")%string || (kind =? "user")%string)); [reflexivity|].
    rewrite !get_repositories_loop_paginate, Hmin.
    apply paginate_ext. exact Hrepos.
  - intros owner repo_name state. unfold get_repository_issues.
    destruct ((owner =? EmptyString)%string || (repo_name =? EmptyString)%string);
      [reflexivity|].
    destruct (negb (valid_state state)); [reflexivity|].
    rewrite !get_repository_issues_loop_paginate, Hmin.
    apply paginate_ext. apply Hissues.
  - intros owner repo_name state. unfold get_repository_pull_requests.
    destruct ((owner =? EmptyString)%string || (repo_name =? EmptyString)%string);
      [reflexivity|].
    destruct (negb (valid_state state)); [reflexivity|].
    rewrite !get_repository_pull_requests_loop_paginate, Hmin.
    apply paginate_ext. apply Hissues.
  - intros owner repo_name. unfold get_repository_contributors.
    destruct ((owner =? EmptyString)%string || (repo_name =? EmptyString)%string);
      [reflexivity|].
    rewrite !get_repository_contributors_loop_paginate, Hmin.
    apply paginate_ext. exact Hcontributors.
  - intros query sort order. unfold search_repositories. rewrite Hmin. reflexivity.
Qed.

Lemma per_page_clamped_witness :
  let w := Mock.listing (Mock.repos 0 5) in
  100 <= 250
  /\ get_repositories w "octocat" "user" 250 [] = get_repositories w "octocat" "user" 100 []
  /\ fst (get_repositories w "octocat" "user" 250 []) = Ok (Mock.repos 0 5).
Proof.
  cbv zeta. split; [lia|]. split.
  - exact (proj1 (per_page_clamped (Mock.listing (Mock.repos 0 5)) 250 [] ltac:(lia))
             "octocat" "user").
  - reflexivity.
Defined.

(** ** Owner-type detection and the listing that follows it *)

(** X12: what [_detect_owner_type] answers.  If the organization probe
    returns, the answer is "org" and the user endpoint is not contacted at
    all; the answer is "user" only after the organization probe has raised
    a GitHubAPIError and the user probe has returned; there is no third
    answer; and when both probes raise a GitHubAPIError, whatever the two
    errors were, the error raised is the "not found as organization or
    user" one. *)
Theorem detect_owner_type_answers (w : World) (owner_name : string) (tr : trace) :
  (forall j tr1,
      _make_request w ("orgs/" +++ owner_name) None tr = (Ok j, tr1) ->
      _detect_owner_type w owner_name tr = (Ok "org", tr1))
  /\ (forall kind tr2,
         _detect_owner_type w owner_name tr = (Ok kind, tr2) ->
         kind = "org" \/ kind = "user")
  /\ (forall tr2,
         _detect_owner_type w owner_name tr = (Ok "user", tr2) ->
         exists e1 tr1 j,
           _make_request w ("orgs/" +++ owner_name) None tr = (Raise e1, tr1)
           /\ is_GitHubAPIError e1 = true
           /\ _make_request w ("users/" +++ owner_name) None tr1 = (Ok j, tr2))
  /\ (forall e1 tr1 e2 tr2,
         _make_request w ("orgs/" +++ owner_name) None tr = (Raise e1, tr1) ->
         is_GitHubAPIError e1 = true ->
         _make_request w ("users/" +++ owner_name) None tr1 = (Raise e2, tr2) ->
         is_GitHubAPIError e2 = true ->
         _detect_owner_type w owner_name tr =
         (Raise (GitHubAPIError
                   ("Owner '" +++ owner_name +++ "' not found as organization or user")),
          tr2)).
Proof.
  pose proof (detect_owner_type_cases w owner_name tr) as Hcases.
  destruct (_make_request w ("orgs/" +++ owner_name) None tr) as [[j1|e1|] tr1] eqn:Horg.
  - repeat apply conj.
    + intros j tr1' H. inversion H; subst. exact Hcases.
    + intros kind tr2 H. rewrite Hcases in H. inversion H. left. reflexivity.
    + intros tr2 H. rewrite Hcases in H. discriminate.
    + intros e1 tr1' e2 tr2 H. discriminate.
  - destruct (is_GitHubAPIError e1) eqn:He1.
    + destruct (_make_request w ("users/" +++ owner_name) None tr1) as [[j2|e2|] tr2']
        eqn:Huser.
      * repeat apply conj.
        -- intros j tr1' H. discriminate.
        -- intros kind tr2 H. rewrite Hcases in H. inversion H. right. reflexivity.
        -- intros tr2 H. rewrite Hcases in H. inversion H; subst.
           exists e1, tr1, j2. auto.
        -- intros e1' tr1' e2 tr2 H. inversion H; subst. intros _ H2. rewrite Huser in H2.
           discriminate.
      * repeat apply conj.
        -- intros j tr1' H. discriminate.
        -- intros kind tr2 H. rewrite Hcases in H. discriminate.
        -- intros tr2 H. rewrite Hcases in H. discriminate.
        -- intros e1' tr1' e2' tr2 H. inversion H; subst. intros _ H2. rewrite Huser in H2.
           inversion H2; subst. intros He2. rewrite He2 in Hcases. exact Hcases.
      * repeat apply conj.
        -- intros j tr1' H. discriminate.
        -- intros kind tr2 H. rewrite Hcases in H. discriminate.
        -- intros tr2 H. rewrite Hcases in H. discriminate.
        -- intros e1' tr1' e2' tr2 H. inversion H; subst. intros _ H2. rewrite Huser in H2.
           discriminate.
    + repeat apply conj.
      * intros j tr1' H. discriminate.
      * intros kind tr2 H. rewrite Hcases in H. discriminate.
      * intros tr2 H. rewrite Hcases in H. discriminate.
      * intros e1' tr1' e2 tr2 H. inversion H; subst. congruence.
  - repeat apply conj.
    + intros j tr1' H. discriminate.
    + intros kind tr2 H. rewrite Hcases in H. discriminate.
    + intros tr2 H. rewrite Hcases in H. discriminate.
    + intros e1 tr1' e2 tr2 H. discriminate.
Qed.

Lemma detect_owner_type_answers_witness :
  let w := Mock.always (Resp (Mock.payload (JObj [("login", JStr "octocat")]))) in
  _make_request w ("orgs/" +++ "octocat") None [] =
    (Ok (JObj [("login", JStr "octocat")]),
     [Call "orgs/octocat" None; Get "https://api.github.com/orgs/octocat" None])
  /\ _detect_owner_type w "octocat" [] =
     (Ok "org", [Call "orgs/octocat" None; Get "https://api.github.com/orgs/octocat" None]).
Proof.
  cbv zeta. split; [reflexivity|].
  exact (proj1 (detect_owner_type_answers
                  (Mock.always (Resp (Mock.payload (JObj [("login", JStr "octocat")]))))
                  "octocat" []) _ _ eq_refl).
Defined.

Lemma detect_owner_type_kinds (w : World) (owner_name kind : string) (tr tr1 : trace) :
  _detect_owner_type w owner_name tr = (Ok kind, tr1) -> kind = "org" \/ kind = "user".
Proof.
  intros H. pose proof (detect_owner_type_cases w owner_name tr) as Hcases.
  destruct (_make_request w ("orgs/" +++ owner_name) None tr) as [[j1|e1|] tr0].
  - rewrite Hcases in H. inversion H. left. reflexivity.
  - destruct (is_GitHubAPIError e1); [|rewrite Hcases in H; discriminate].
    destruct (_make_request w ("users/" +++ owner_name) None tr0) as [[j2|e2|] tr2];
      rewrite Hcases in H; try discriminate.
    inversion H. right. reflexivity.
  - rewrite Hcases in H. discriminate.
Qed.

(** X13: automatic detection composes with the listing.  With owner type
    "auto" and a name that is not blank, [get_repositories] is the
    detection followed by the very listing that the detected kind, given
    explicitly, would have produced from the state the probes left; and an
    exception of the detection is the exception of the call. *)
Theorem get_repositories_auto (w : World) (owner_name : string) (per_page : Z)
    (tr : trace) :
  valid_owner owner_name = true ->
  match _detect_owner_type w (Py.strip owner_name) tr with
  | (Ok kind, tr1) =>
      get_repositories w owner_name "auto" per_page tr
      = get_repositories w owner_name kind per_page tr1
  | (Raise e, tr1) => get_repositories w owner_name "auto" per_page tr = (Raise e, tr1)
  | (OutOfFuel, tr1) => True
  end.
Proof.
  intros Hvalid. apply negb_true_iff in Hvalid.
  destruct (_detect_owner_type w (Py.strip owner_name) tr) as [[kind|e|] tr1] eqn:Hdetect;
    [| |exact I].
  - rewrite !get_repositories_after_validation, Hvalid.
    unfold owner_kind. change ("auto" =? "auto")%string with true. cbv beta iota.
    rewrite Hdetect.
    destruct (detect_owner_type_kinds _ _ _ _ _ Hdetect) as [->| ->]; reflexivity.
  - rewrite get_repositories_after_validation, Hvalid.
    unfold owner_kind. change ("auto" =? "auto")%string with true. cbv beta iota.
    rewrite Hdetect. reflexivity.
Qed.

Lemma get_repositories_auto_witness :
  let w := Mock.user_account (Mock.repos 0 3) in
  valid_owner "octocat" = true
  /\ fst (_detect_owner_type w (Py.strip "octocat") []) = Ok "user"
  /\ get_repositories w "octocat" "auto" 100 []
     = get_repositories w "octocat" "user" 100
         (snd (_detect_owner_type w (Py.strip "octocat") [])).
Proof.
  cbv zeta. split; [reflexivity|]. split; [reflexivity|].
  exact (get_repositories_auto (Mock.user_account (Mock.repos 0 3)) "octocat" 100 []
           eq_refl).
Defined.

(** ** Validation of the owner name *)

Lemma lstrip_all_space (s : string) :
  all_chars Py.is_space s = true -> Py.lstrip s = EmptyString.
Proof.
  induction s as [|c s IH]; [reflexivity|].
  cbn [all_chars Py.lstrip]. intros H. apply andb_prop in H as [Hc Hs].
  rewrite Hc. exact (IH Hs).
Qed.

Lemma rstrip_empty (s : string) :
  Py.rstrip s = EmptyString -> all_chars Py.is_space s = true.
Proof.
  induction s as [|c s IH]; [reflexivity|].
  cbn [Py.rstrip all_chars].
  destruct (Py.rstrip s) as [|c' s'] eqn:Hr; [|discriminate].
  destruct (Py.is_space c); [|discriminate].
  intros _. exact (IH eq_refl).
Qed.

Lemma lstrip_keeps_spaces (s : string) :
  all_chars Py.is_space (Py.lstrip s) = true -> all_chars Py.is_space s = true.
Proof.
  induction s as [|c s IH]; [reflexivity|].
  cbn [Py.lstrip]. destruct (Py.is_space c) eqn:Hc.
  - intros H. cbn [all_chars]. rewrite Hc. exact (IH H).
  - intros H. exact H.
Qed.

(** [s.strip()] is empty exactly when [s] is made of whitespace only. *)
Lemma strip_empty_iff (s : string) :
  Py.strip s = EmptyString <-> all_chars Py.is_space s = true.
Proof.
  unfold Py.strip. split.
  - intros H. apply lstrip_keeps_spaces, rstrip_empty, H.
  - intros H. rewrite (lstrip_all_space s H). reflexivity.
Qed.

Lemma detect_owner_type_first_call (w : World) (owner_name : string) (tr : trace) :
  exists res evs,
    _detect_owner_type w owner_name tr
    = (res, tr ++ Call ("orgs/" +++ owner_name) None :: evs).
Proof.
  pose proof (detect_owner_type_cases w owner_name tr) as Hcases.
  destruct (make_request_total w ("orgs/" +++ owner_name) None tr)
    as (r1 & evs1 & Hr1 & _ & _).
  rewrite Hr1 in Hcases.
  destruct r1 as [j1|e1|]; try (eexists; eexists; exact Hcases).
  destruct (is_GitHubAPIError e1); [|eexists; eexists; exact Hcases].
  destruct (make_request_total w ("users/" +++ owner_name) None
              (tr ++ Call ("orgs/" +++ owner_name) None :: evs1))
    as (r2 & evs2 & Hr2 & _ & _).
  rewrite Hr2 in Hcases.
  replace ((tr ++ Call ("orgs/" +++ owner_name) None :: evs1)
           ++ Call ("users/" +++ owner_name) None :: evs2)
    with (tr ++ Call ("orgs/" +++ owner_name) None
             :: (evs1 ++ Call ("users/" +++ owner_name) None :: evs2)) in Hcases
    by (rewrite <- app_assoc; reflexivity).
  destruct r2 as [j2|e2|]; eexists; eexists; exact Hcases.
Qed.

(** X14: [get_repositories] makes a request exactly when the owner name is
    not blank.  A name that is empty or made of whitespace only is refused
    with ValueError before anything is sent, whatever the owner type; any
    other name, with owner type auto, org or user, leads to at least one
    call. *)
Theorem blank_owner_name_is_refused (w : World) (owner_name owner_type : string)
    (per_page : Z) (tr : trace) :
  (all_chars Py.is_space owner_name = true ->
   get_repositories w owner_name owner_type per_page tr
   = (Raise (ValueError "Owner name cannot be empty"), tr))
  /\ (all_chars Py.is_space owner_name = false ->
      owner_type = "auto" \/ owner_type = "org" \/ owner_type = "user" ->
      exists res evs,
        get_repositories w owner_name owner_type per_page tr = (res, tr ++ evs)
        /\ (1 <= calls evs)%nat).
Proof.
  split.
  - intros Hblank. unfold get_repositories.
    apply strip_empty_iff in Hblank. rewrite Hblank.
    rewrite orb_true_r. reflexivity.
  - intros Hname Htype.
    assert (Hstrip : (Py.strip owner_name =? EmptyString)%string = false).
    { apply String.eqb_neq. intros H. apply strip_empty_iff in H. congruence. }
    assert (Hempty : (owner_name =? EmptyString)%string = false).
    { apply String.eqb_neq. intros ->. discriminate. }
    rewrite get_repositories_after_validation, Hempty, Hstrip. cbn [orb].
    assert (Hloop : forall kind t,
               kind = "org" \/ kind = "user" ->
               exists res evs,
                 (if negb ((kind =? "org")%string || (kind =? "user")%string)
                  then (Raise (ValueError "Owner type must be 'org', 'user', or 'auto'"), t)
                  else get_repositories_loop w 100
                         (if (kind =? "org")%string
                          then "orgs/" +++ Py.strip owner_name +++ "/repos"
                          else "users/" +++ Py.strip owner_name +++ "/repos")
                         per_page 1 [] t) = (res, t ++ evs)
                 /\ (1 <= calls evs)%nat).
    { intros kind t Hkind.
      replace (negb ((kind =? "org")%string || (kind =? "user")%string)) with false
        by (destruct Hkind; subst; reflexivity).
      rewrite get_repositories_loop_paginate.
      destruct (paginate_page_order w
                  (if (kind =? "org")%string
                   then "orgs/" +++ Py.strip owner_name +++ "/repos"
                   else "users/" +++ Py.strip owner_name +++ "/repos")
                  (repositories_params per_page) (Z.min per_page 100) (fun l => Ok l)
                  ltac:(discriminate) 100 1 [] t)
        as (res & evs & n & Hrun & Hcalls & Hn1 & _ & _).
      exists res, evs. split; [exact Hrun|].
      unfold calls. rewrite Hcalls. unfold page_calls.
      rewrite length_map, length_range_from. apply Hn1. discriminate. }
    unfold owner_kind.
    destruct Htype as [->|Hkind].
    + change ("auto" =? "auto")%string with true. cbv beta iota.
      destruct (detect_owner_type_first_call w (Py.strip owner_name) tr)
        as (r & evs0 & Hdetect).
      pose proof Hdetect as Hkinds. rewrite Hdetect.
      destruct r as [kind|e|].
      * destruct (Hloop kind (tr ++ Call ("orgs/" +++ Py.strip owner_name) None :: evs0)
                    (detect_owner_type_kinds _ _ _ _ _ Hkinds))
          as (res & evs & -> & Hc).
        exists res, ((Call ("orgs/" +++ Py.strip owner_name) None :: evs0) ++ evs).
        rewrite <- app_assoc. split; [reflexivity|].
        rewrite calls_app. unfold calls at 1. cbn. lia.
      * eexists. eexists. split; [reflexivity|]. unfold calls. cbn. lia.
      * eexists. eexists. split; [reflexivity|]. unfold calls. cbn. lia.
    + replace (owner_type =? "auto")%string with false
        by (destruct Hkind; subst; reflexivity).
      unfold ret. cbv beta iota. apply Hloop. exact Hkind.
Qed.

Lemma blank_owner_name_is_refused_witness :
  let w := Mock.user_account (Mock.repos 0 3) in
  all_chars Py.is_space "   " = true
  /\ get_repositories w "   " "auto" 100 [] =
     (Raise (ValueError "Owner name cannot be empty"), []).
Proof.
  cbv zeta. split; [reflexivity|].
  exact (proj1 (blank_owner_name_is_refused (Mock.user_account (Mock.repos 0 3))
                  "   " "auto" 100 []) eq_refl).
Defined.

(** ** Single-page search: validation and the one call *)

(** X15: [search_repositories] makes exactly one call when its arguments
    are valid, to search/repositories with the trimmed query, the sort and
    order given and per_page clamped to 100, and none when they are not: a
    blank query, a sort outside stars, forks, help-wanted-issues, updated,
    or an order outside asc, desc is refused with ValueError before
    anything is sent. *)
Theorem search_repositories_one_call (w : World) (query sort order : string)
    (per_page : Z) (tr : trace) :
  (valid_search query sort order = true ->
   exists res evs,
     search_repositories w query sort order per_page tr
     = (res, tr ++ Call "search/repositories"
                     (Some (search_repositories_params query sort order per_page))
                   :: evs)
     /\ calls evs = 0%nat /\ res <> OutOfFuel)
  /\ (valid_search query sort order = false ->
      exists msg,
        search_repositories w query sort order per_page tr = (Raise (ValueError msg), tr)).
Proof.
  unfold valid_search, search_repositories. split.
  - intros Hvalid.
    apply andb_prop in Hvalid as [Hvalid Horder].
    apply andb_prop in Hvalid as [Hquery Hsort].
    apply negb_true_iff in Hquery. rewrite Hquery, Hsort, Horder. cbn [negb].
    fold (search_repositories_params query sort order per_page).
    unfold bind at 1.
    destruct (make_request_total w "search/repositories"
                (Some (search_repositories_params query sort order per_page)) tr)
      as (res & evs & -> & Hc & Hres).
    destruct res as [data|e|]; [| |contradiction].
    2:{ exists (Raise e), evs. repeat split; [exact Hc|discriminate]. }
    unfold bind, lift, ret.
    pose proof (py_in_total "total_count" data) as Htotal.
    destruct (py_in "total_count" data) as [[|]|e|]; [| | |contradiction].
    + pose proof (py_in_total "items" data) as Hitems.
      destruct (py_in "items" data) as [[|]|e|]; [| | |contradiction].
      * pose proof (py_getitem_total data "total_count") as Hget.
        destruct (py_getitem data "total_count") as [t|e|]; [| |contradiction];
          eexists; exists evs; (split; [reflexivity|]); (split; [exact Hc|discriminate]).
      * eexists. exists evs. split; [reflexivity|]. split; [exact Hc|discriminate].
      * eexists. exists evs. split; [reflexivity|]. split; [exact Hc|discriminate].
    + eexists. exists evs. split; [reflexivity|]. split; [exact Hc|discriminate].
    + eexists. exists evs. split; [reflexivity|]. split; [exact Hc|discriminate].
  - intros Hvalid.
    destruct ((query =? EmptyString)%string || (Py.strip query =? EmptyString)%string);
      [eexists; reflexivity|].
    cbn [negb andb] in Hvalid.
    destruct (valid_sort sort); [|eexists; reflexivity].
    cbn [negb andb] in Hvalid. rewrite Hvalid. eexists. reflexivity.
Qed.

Lemma search_repositories_one_call_witness :
  let w := Mock.search_fixed 3 in
  valid_search " kinect language:C# " "stars" "desc" = true
  /\ valid_search "kinect" "watchers" "desc" = false
  /\ (exists res evs,
         search_repositories w " kinect language:C# " "stars" "desc" 150 []
         = (res, [] ++ Call "search/repositories"
                         (Some [("q", PStr "kinect language:C#"); ("sort", PStr "stars");
                                ("order", PStr "desc"); ("per_page", PInt 100)])
                       :: evs)
         /\ calls evs = 0%nat /\ res <> OutOfFuel)
  /\ (exists msg,
         search_repositories w "kinect" "watchers" "desc" 150 []
         = (Raise (ValueError msg), [])).
Proof.
  cbv zeta. split; [reflexivity|]. split; [reflexivity|]. split.
  - exact (proj1 (search_repositories_one_call (Mock.search_fixed 3)
                    " kinect language:C# " "stars" "desc" 150 []) eq_refl).
  - exact (proj2 (search_repositories_one_call (Mock.search_fixed 3)
                    "kinect" "watchers" "desc" 150 []) eq_refl).
Defined.

(** ** The search pager against any provider *)

Lemma no_calls_sizes (evs : trace) : calls evs = 0%nat -> requested_sizes evs = [].
Proof.
  unfold calls. induction evs as [|e evs IH]; [reflexivity|].
  destruct e as [ep ps|u ps|d]; cbn; [discriminate|exact IH|exact IH].
Qed.

(** One pass through the loop body, with the history it leaves. *)
Lemma search_body_trace (w : World) (query sort order : string) (k page : Z)
    (acc : list json) (tr : trace) :
  exists res evs,
    search_repositories_paginated_body w query sort order k page acc tr
    = (res, tr ++ Call "search/repositories"
                    (Some (search_params query sort order k page)) :: evs)
    /\ calls evs = 0%nat
    /\ res <> OutOfFuel
    /\ (forall p a, res = Ok (Continue p a) -> p = page + 1 /\ p <= 10).
Proof.
  unfold search_repositories_paginated_body, try_except_GitHubAPIError.
  unfold bind at 1.
  destruct (make_request_total w "search/repositories"
              (Some (search_params query sort order k page)) tr)
    as (res & evs & -> & Hc & Hres).
  assert (Hraise : forall e : exn,
             exists res' evs',
               (if is_GitHubAPIError e
                then (if Py.contains "rate limit" (Py.lower (str_of_exn e))
                      then ret (Break acc) else raise e)
                       (tr ++ Call "search/repositories"
                                (Some (search_params query sort order k page)) :: evs)
                else (Raise e,
                      tr ++ Call "search/repositories"
                              (Some (search_params query sort order k page)) :: evs))
               = (res', tr ++ Call "search/repositories"
                               (Some (search_params query sort order k page)) :: evs')
               /\ calls evs' = 0%nat /\ res' <> OutOfFuel
               /\ (forall p a, res' = Ok (Continue p a) -> p = page + 1 /\ p <= 10)).
  { intros e.
    destruct (is_GitHubAPIError e);
      [destruct (Py.contains "rate limit" (Py.lower (str_of_exn e)))|];
      eexists; exists evs; (split; [reflexivity|]); (split; [exact Hc|]);
      (split; [discriminate|]); intros p a H; discriminate. }
  assert (Hbreak : forall l : list json,
             exists res' evs',
               (Ok (Break l),
                tr ++ Call "search/repositories"
                        (Some (search_params query sort order k page)) :: evs)
               = (res', tr ++ Call "search/repositories"
                               (Some (search_params query sort order k page)) :: evs')
               /\ calls evs' = 0%nat /\ res' <> OutOfFuel
               /\ (forall p a, res' = Ok (Continue p a) -> p = page + 1 /\ p <= 10)).
  { intros l. eexists. exists evs. split; [reflexivity|]. split; [exact Hc|].
    split; [discriminate|]. intros p a H. discriminate. }
  destruct res as [data|e|]; [| |contradiction]; [|apply Hraise].
  unfold bind, lift, ret.
  pose proof (py_in_total "items" data) as Hin.
  destruct (py_in "items" data) as [has|e|]; [| |contradiction]; [|apply Hraise].
  destruct has; cbn [negb]; [|apply Hbreak].
  pose proof (py_getitem_total data "items") as Hget.
  destruct (py_getitem data "items") as [items|e|]; [| |contradiction]; [|apply Hraise].
  destruct (negb (truthy items)); [apply Hbreak|].
  pose proof (py_iter_total items) as Hiter.
  destruct (py_iter items) as [elements|e|]; [| |contradiction]; [|apply Hraise].
  pose proof (py_len_total items) as Hlen.
  destruct (py_len items) as [n|e|]; [| |contradiction]; [|apply Hraise].
  destruct (n <? k); [apply Hbreak|].
  destruct (Z.gtb_spec (page + 1) 10) as [Hlast|Hmore]; [apply Hbreak|].
  eexists. exists evs. split; [reflexivity|]. split; [exact Hc|].
  split; [discriminate|]. intros p a H. inversion H; subst. lia.
Qed.

Lemma search_loop_bounded (w : World) (query sort order : string)
    (max_results per_page : Z) (fuel : nat) :
  1 <= per_page <= 100 ->
  forall (page : Z) (acc : list json) (tr : trace),
    exists res evs,
      search_repositories_paginated_loop w fuel query sort order max_results per_page
        page acc tr = (res, tr ++ evs)
      /\ (calls evs <= fuel)%nat
      /\ sizes_in_range evs.
Proof.
  intros Hpp. unfold sizes_in_range.
  induction fuel as [|fuel IH]; intros page acc tr.
  - cbn [search_repositories_paginated_loop].
    destruct (negb (Py.len acc <? max_results));
      eexists; exists []; rewrite app_nil_r;
      (split; [reflexivity|]); (split; [cbn; lia|constructor]).
  - rewrite search_loop_unfold.
    destruct (Z.ltb_spec (Py.len acc) max_results) as [Hlt|Hge]; cbn [negb].
    2:{ eexists. exists []. rewrite app_nil_r. split; [reflexivity|].
        split; [cbn; lia|constructor]. }
    unfold bind.
    destruct (search_body_trace w query sort order
                (Z.min per_page (max_results - Py.len acc)) page acc tr)
      as (res & evs1 & -> & Hc1 & Hres & _).
    assert (Hsizes : requested_sizes
                       (Call "search/repositories"
                          (Some (search_params query sort order
                                   (Z.min per_page (max_results - Py.len acc)) page))
                        :: evs1)
                     = [Z.min per_page (max_results - Py.len acc)])
      by (cbn; rewrite (no_calls_sizes evs1 Hc1); reflexivity).
    assert (Hone : (calls (Call "search/repositories"
                             (Some (search_params query sort order
                                      (Z.min per_page (max_results - Py.len acc)) page))
                           :: evs1) = 1)%nat)
      by (unfold calls in *; cbn; rewrite Hc1; reflexivity).
    destruct res as [[l|p l]|e|]; [| | |contradiction].
    + eexists. eexists. split; [reflexivity|]. rewrite Hone, Hsizes.
      split; [lia|]. constructor; [lia|constructor].
    + destruct (IH p l (tr ++ Call "search/repositories"
                                (Some (search_params query sort order
                                         (Z.min per_page (max_results - Py.len acc))
                                         page)) :: evs1))
        as (res' & evs2 & -> & Hc2 & Hs2).
      eexists. eexists. split; [rewrite <- app_assoc; reflexivity|].
      rewrite calls_app, Hone, requested_sizes_app, Hsizes.
      split; [lia|]. constructor; [lia|exact Hs2].
    + eexists. eexists. split; [reflexivity|]. rewrite Hone, Hsizes.
      split; [lia|]. constructor; [lia|constructor].
Qed.

(** X16: whatever the provider answers, [search_repositories_paginated]
    comes to an end after at most 10 calls, and every call asks for at
    least 1 and at most 100 items; with max_results <= 0 it returns the
    empty list without any request. *)
Theorem search_pager_bounds (w : World) (query sort order : string) (max_results : Z)
    (tr : trace) :
  exists res evs,
    search_repositories_paginated w query sort order max_results tr = (res, tr ++ evs)
    /\ (calls evs <= 10)%nat
    /\ sizes_in_range evs
    /\ res <> OutOfFuel
    /\ (max_results <= 0 -> res = Ok [] /\ evs = []).
Proof.
  pose proof (search_repositories_paginated_total w query sort order max_results tr)
    as Htotal.
  unfold search_repositories_paginated in *.
  destruct (Z.leb_spec max_results 0) as [Hnone|Hsome].
  - exists (Ok []), []. rewrite app_nil_r.
    assert (Hrun : search_repositories_paginated_loop w 10 query sort order max_results
                     (Z.min 100 max_results) 1 [] tr = (Ok [], tr)).
    { rewrite search_loop_unfold.
      replace (Py.len (@nil json) <? max_results) with false
        by (symmetry; apply Z.ltb_ge; cbn; lia).
      reflexivity. }
    split; [exact Hrun|]. split; [cbn; lia|]. split; [constructor|].
    split; [discriminate|]. auto.
  - destruct (search_loop_bounded w query sort order max_results (Z.min 100 max_results)
                10 ltac:(lia) 1 [] tr)
      as (res & evs & Hrun & Hc & Hs).
    rewrite Hrun in Htotal. exists res, evs.
    split; [exact Hrun|]. split; [exact Hc|]. split; [exact Hs|].
    split; [exact Htotal|]. lia.
Qed.

Lemma search_pager_bounds_witness :
  0 <= 0
  /\ search_repositories_paginated (Mock.search_fixed 100) "kinect" "updated" "desc" 0 []
     = (Ok [], []).
Proof.
  split; [lia|].
  destruct (search_pager_bounds (Mock.search_fixed 100) "kinect" "updated" "desc" 0 [])
    as (res & evs & Hrun & _ & _ & _ & Hnone).
  destruct (Hnone ltac:(lia)) as [-> ->]. exact Hrun.
Defined.

(** ** The constructor *)

(** Looking a header up after setting one: the header set answers for
    every spelling of its name, all others are as before. *)
Lemma header_lookup_set (n name value : string) (h : list (string * string)) :
  header_lookup n (header_set name value h) =
  if (Py.lower name =? Py.lower n)%string then Some value else header_lookup n h.
Proof.
  induction h as [|[k v] h IH]; [reflexivity|].
  cbn [header_set header_lookup].
  destruct (String.eqb_spec (Py.lower k) (Py.lower name)) as [Hk|Hk].
  - cbn [header_lookup]. rewrite Hk.
    destruct (Py.lower name =? Py.lower n)%string; reflexivity.
  - cbn [header_lookup]. rewrite IH.
    destruct (String.eqb_spec (Py.lower k) (Py.lower n)) as [Hn|Hn]; [|reflexivity].
    destruct (String.eqb_spec (Py.lower name) (Py.lower n)) as [Hm|Hm]; [|reflexivity].
    congruence.
Qed.

(** X17: what the constructor leaves in the session.  The token is the
    argument when that is a non-empty string and the GITHUB_TOKEN of the
    environment otherwise.  Whatever headers the session started with,
    afterwards Accept and User-Agent (in any spelling) hold the client's
    values; Authorization holds "token <t>" when the token [t] is a
    non-empty string and is left as it was when there is none; every other
    header is as it was. *)
Theorem constructor_headers (token environ_GITHUB_TOKEN : option string)
    (default_headers : list (string * string)) (n : string) :
  let c := __init__ token environ_GITHUB_TOKEN default_headers in
  self_token c = effective_token token environ_GITHUB_TOKEN
  /\ self_base_url c = base_url
  /\ header_lookup n (self_headers c) =
     if (Py.lower n =? "authorization")%string
        && str_truthy (effective_token token environ_GITHUB_TOKEN)
     then option_map (String.append "token ") (effective_token token environ_GITHUB_TOKEN)
     else if (Py.lower n =? "user-agent")%string
     then Some "Azure-Function-GitHub-Query-Client/1.0"
     else if (Py.lower n =? "accept")%string
     then Some "application/vnd.github.v3+json"
     else header_lookup n default_headers.
Proof.
  cbv zeta. unfold __init__. fold (effective_token token environ_GITHUB_TOKEN).
  cbn [self_token self_base_url self_headers].
  split; [reflexivity|]. split; [reflexivity|].
  assert (Hrest :
            header_lookup n
              (header_set "User-Agent" "Azure-Function-GitHub-Query-Client/1.0"
                 (header_set "Accept" "application/vnd.github.v3+json" default_headers))
            = if (Py.lower n =? "user-agent")%string
              then Some "Azure-Function-GitHub-Query-Client/1.0"
              else if (Py.lower n =? "accept")%string
              then Some "application/vnd.github.v3+json"
              else header_lookup n default_headers).
  { rewrite !header_lookup_set.
    change (Py.lower "User-Agent") with "user-agent".
    change (Py.lower "Accept") with "accept".
    rewrite (String.eqb_sym "user-agent"), (String.eqb_sym "accept"). reflexivity. }
  destruct (effective_token token environ_GITHUB_TOKEN) as [t|].
  - destruct (str_truthy (Some t)).
    + rewrite header_lookup_set. change (Py.lower "Authorization") with "authorization".
      rewrite (String.eqb_sym "authorization").
      destruct (Py.lower n =? "authorization")%string; [reflexivity|exact Hrest].
    + rewrite andb_false_r. exact Hrest.
  - rewrite andb_false_r. exact Hrest.
Qed.

(** An empty token argument falls back on the environment; with no token
    anywhere no Authorization header is added. *)
Example constructor_token_examples :
  header_lookup "authorization" (self_headers (__init__ (Some EmptyString) (Some "s3cr3t") []))
  = Some "token s3cr3t"
  /\ header_lookup "Authorization" (self_headers (__init__ None None [])) = None
  /\ header_lookup "ACCEPT" (self_headers (__init__ None None [("accept", "*/*")]))
     = Some "application/vnd.github.v3+json".
Proof. repeat split. Qed.

(** ** Issue listing against any provider *)

(** X18: [get_repository_issues] checks its arguments before it sends
    anything, the names before the state: an empty owner or repository
    name, and otherwise a state other than open, closed, all, is refused
    with the ValueError of that check.  With valid arguments it asks
    repos/<owner>/<repo>/issues for pages 1, 2, ..., n in order,
    1 <= n <= 100, whatever the provider answers, and comes to an end. *)
Theorem get_repository_issues_requests (w : World) (owner repo_name state : string)
    (per_page : Z) (tr : trace) :
  (valid_names owner repo_name = false ->
   get_repository_issues w owner repo_name state per_page tr
   = (Raise (ValueError "Owner and repository name cannot be empty"), tr))
  /\ (valid_names owner repo_name = true -> valid_state state = false ->
      get_repository_issues w owner repo_name state per_page tr
      = (Raise (ValueError "State must be 'open', 'closed', or 'all'"), tr))
  /\ (valid_issue_query owner repo_name state = true ->
      exists res evs n,
        get_repository_issues w owner repo_name state per_page tr = (res, tr ++ evs)
        /\ filter is_call evs
           = page_calls (issues_endpoint owner repo_name)
               (issues_params state per_page) 1 n
        /\ (1 <= n <= 100)%nat /\ res <> OutOfFuel).
Proof.
  unfold valid_issue_query, valid_names, get_repository_issues. repeat apply conj.
  - intros Hnames. apply negb_false_iff in Hnames. rewrite Hnames. reflexivity.
  - intros Hnames Hstate. apply negb_true_iff in Hnames. rewrite Hnames, Hstate.
    reflexivity.
  - intros Hvalid. apply andb_prop in Hvalid as [Hnames Hstate].
    apply negb_true_iff in Hnames. rewrite Hnames, Hstate. cbn [negb].
    fold (issues_endpoint owner repo_name).
    destruct (paginate_page_order w (issues_endpoint owner repo_name)
                (issues_params state per_page) (Z.min per_page 100)
                without_pull_requests without_pull_requests_total 100 1 [] tr)
      as (res & evs & n & Hrun & Hcalls & Hn1 & Hn & Hres).
    exists res, evs, n. rewrite get_repository_issues_loop_paginate.
    split; [exact Hrun|]. split; [exact Hcalls|].
    split; [split; [apply Hn1; discriminate|lia]|]. apply Hres. lia.
Qed.

Lemma get_repository_issues_requests_witness :
  let w := Mock.listing Mock.issues_and_pull_requests in
  valid_names "octocat" "hello" = true
  /\ valid_state "merged" = false
  /\ get_repository_issues w "octocat" "hello" "merged" 100 []
     = (Raise (ValueError "State must be 'open', 'closed', or 'all'"), []).
Proof.
  cbv zeta. split; [reflexivity|]. split; [reflexivity|].
  exact (proj1 (proj2 (get_repository_issues_requests
                         (Mock.listing Mock.issues_and_pull_requests)
                         "octocat" "hello" "merged" 100 [])) eq_refl eq_refl).
Defined.

(** ** Pagination over requests that need a retry *)

Section Answered.

Variables (w : World) (endpoint : string) (mk_params : Z -> params) (size : Z).
Variable items : list json.

Hypothesis size_positive : 1 <= size.

(** Every request for a page returns that page in the end, after however
    many attempts. *)
Hypothesis answered :
  forall tr page, 1 <= page ->
    exists tr', _make_request w endpoint (Some (mk_params page)) tr
                = (Ok (JArr (page_of items size page)), tr').

Lemma paginate_answered_step (fuel : nat) (page : Z) (acc : list json) (tr : trace) :
  1 <= page ->
  exists tr1,
    paginate w (S fuel) endpoint mk_params size (fun l => Ok l) page acc tr =
    if (Py.len (page_of items size page) <? size) || (page + 1 >? 100)
    then (Ok (acc ++ page_of items size page), tr1)
    else paginate w fuel endpoint mk_params size (fun l => Ok l) (page + 1)
           (acc ++ page_of items size page) tr1.
Proof.
  intros Hpage. destruct (answered tr page Hpage) as (tr1 & Hreq).
  exists tr1. cbn [paginate]. unfold bind at 1. rewrite Hreq.
  destruct (page_of items size page) as [|x pg] eqn:Hpg.
  - cbn [truthy negb]. unfold ret.
    replace (Py.len (@nil json) <? size) with true
      by (symmetry; apply Z.ltb_lt; cbn; lia).
    cbn [orb]. rewrite app_nil_r. reflexivity.
  - cbn [truthy negb py_iter py_len]. unfold bind, lift, ret.
    destruct (Py.len (x :: pg) <? size); [reflexivity|].
    destruct (page + 1 >? 100); reflexivity.
Qed.

Lemma paginate_answered (m : nat) :
  forall (fuel : nat) (page : Z) (acc : list json) (tr : trace),
    1 <= page ->
    Z.of_nat (S m) = 101 - page ->
    (S m <= fuel)%nat ->
    fst (paginate w fuel endpoint mk_params size (fun l => Ok l) page acc tr) =
    Ok (acc ++ firstn (S m * Z.to_nat size)
                 (skipn (Z.to_nat (page - 1) * Z.to_nat size) items)).
Proof.
  set (P := Z.to_nat size).
  assert (HP : (0 < P)%nat) by (unfold P; lia).
  induction m as [|m IH]; intros fuel page acc tr Hpage Hm Hfuel;
    (destruct fuel as [|fuel]; [lia|]);
    destruct (paginate_answered_step fuel page acc tr Hpage) as (tr1 & ->);
    rewrite (page_of_nat size items size_positive page Hpage); fold P;
    set (rest := skipn (Z.to_nat (page - 1) * P) items);
    unfold Py.len; rewrite length_firstn.
  - replace (page + 1 >? 100) with true by (symmetry; apply Z.gtb_lt; lia).
    rewrite orb_true_r. replace (1 * P)%nat with P by lia. reflexivity.
  - replace (page + 1 >? 100) with false
      by (symmetry; rewrite Z.gtb_ltb; apply Z.ltb_ge; lia).
    rewrite orb_false_r.
    destruct (Z.ltb_spec (Z.of_nat (Nat.min P (length rest))) size) as [Hshort|Hfull].
    + assert (Hlen : (length rest < P)%nat) by (unfold P in *; lia).
      rewrite !firstn_all2 by lia. reflexivity.
    + assert (Hlen : (P <= length rest)%nat) by (unfold P in *; lia).
      rewrite (IH fuel (page + 1) _ _ ltac:(lia) ltac:(lia) ltac:(lia)).
      replace (Z.to_nat (page + 1 - 1) * P)%nat with (P + Z.to_nat (page - 1) * P)%nat
        by (replace (page + 1 - 1) with (Z.succ (page - 1)) by lia;
            rewrite Z2Nat.inj_succ by lia; lia).
      rewrite <- skipn_skipn. fold rest.
      rewrite <- !app_assoc.
      replace (S (S m) * P)%nat with (P + S m * P)%nat by lia.
      rewrite (firstn_add P (S m * P) rest). reflexivity.
Qed.

End Answered.

(** X19: retries do not disturb pagination.  If every call for a page
    returns that page in the end, after however many attempts of the
    governor, [get_repositories] returns the first 100 * P items in
    provider order (all of them when there are fewer), P = min(per_page,
    100) >= 1, exactly as against a provider that answers at once. *)
Theorem get_repositories_over_retries (w : World) (owner_name owner_type : string)
    (per_page : Z) (items : list json) (tr : trace) :
  let size := Z.min per_page 100 in
  valid_owner owner_name = true ->
  owner_type = "org" \/ owner_type = "user" ->
  1 <= size ->
  answers_pages w (repos_endpoint owner_type owner_name) (repositories_params per_page)
    size items ->
  fst (get_repositories w owner_name owner_type per_page tr)
  = Ok (firstn (Z.to_nat (100 * size)) items).
Proof.
  intros size Hvalid Htype Hsize Hanswers. apply negb_true_iff in Hvalid.
  rewrite get_repositories_after_validation, Hvalid.
  unfold owner_kind.
  replace (owner_type =? "auto")%string with false by (destruct Htype; subst; reflexivity).
  unfold ret. cbv beta iota.
  replace (negb ((owner_type =? "org")%string || (owner_type =? "user")%string))
    with false by (destruct Htype; subst; reflexivity).
  fold (repos_endpoint owner_type owner_name).
  rewrite get_repositories_loop_paginate. fold size.
  rewrite (paginate_answered w (repos_endpoint owner_type owner_name)
             (repositories_params per_page) size items Hsize Hanswers
             99 100 1 [] tr ltac:(lia) ltac:(reflexivity) ltac:(lia)).
  cbn [Z.sub Z.to_nat Z.pos_sub Nat.mul skipn app].
  rewrite Z2Nat.inj_mul by lia. reflexivity.
Qed.

Lemma first_attempt_after_call (tr : trace) (endpoint : string) (ps : option params) :
  Mock.first_attempt (tr ++ [Call endpoint ps]) = true.
Proof. unfold Mock.first_attempt. rewrite last_last. reflexivity. Qed.

Lemma first_attempt_after_sleep (tr : trace) (d : Q) :
  Mock.first_attempt (tr ++ [Sleep d]) = false.
Proof. unfold Mock.first_attempt. rewrite last_last. reflexivity. Qed.

Lemma flaky_listing_answers (items : list json) (endpoint : string) (per_page : Z) :
  answers_pages (Mock.flaky_listing items) endpoint (repositories_params per_page)
    (Z.min per_page 100) items.
Proof.
  intros tr page Hpage.
  set (w := Mock.flaky_listing items).
  set (ps := Some (repositories_params per_page page)).
  assert (H1 : forall t, Mock.first_attempt t = true ->
               _make_request_body w endpoint ps t =
               (Raise (RateLimitError "Rate limit exceeded. Try again in 60 seconds."),
                t ++ [Get (url_of endpoint) ps])).
  { intros t Ht. unfold _make_request_body. fold (url_of endpoint).
    unfold w at 1, Mock.flaky_listing, Mock.world. cbn [session_get].
    rewrite Ht. reflexivity. }
  assert (H2 : forall t, Mock.first_attempt t = false ->
               _make_request_body w endpoint ps t =
               (Ok (JArr (page_of items (Z.min per_page 100) page)),
                t ++ [Get (url_of endpoint) ps])).
  { intros t Ht. unfold _make_request_body. fold (url_of endpoint).
    unfold w at 1, Mock.flaky_listing, Mock.world. cbn [session_get].
    rewrite Ht. unfold ps. cbn [repositories_params param_int String.eqb Ascii.eqb Bool.eqb].
    apply handle_response_delivers, delivers_payload. }
  eexists. unfold _make_request, bind, emit, retry_with_exponential_backoff.
  change (Py.range (3 + 1)) with [0; 1; 2; 3].
  rewrite (retry_for_backs_off 3 1 _ 0 _ _ _ _
             (H1 _ (first_attempt_after_call tr endpoint ps)) eq_refl eq_refl eq_refl).
  rewrite (retry_for_returns 3 1 _ _ _ _ _ (H2 _ (first_attempt_after_sleep _ _))).
  reflexivity.
Qed.

Lemma get_repositories_over_retries_witness :
  let w := Mock.flaky_listing (Mock.repos 0 5) in
  valid_owner "octocat" = true
  /\ 1 <= Z.min 2 100
  /\ answers_pages w (repos_endpoint "user" "octocat") (repositories_params 2)
       (Z.min 2 100) (Mock.repos 0 5)
  /\ fst (get_repositories w "octocat" "user" 2 []) = Ok (Mock.repos 0 5)
  /\ sleeps (snd (get_repositories w "octocat" "user" 2 [])) = [1%Q; 1%Q; 1%Q].
Proof.
  cbv zeta. split; [reflexivity|]. split; [cbn; lia|].
  split; [apply flaky_listing_answers|]. split.
  - exact (get_repositories_over_retries (Mock.flaky_listing (Mock.repos 0 5))
             "octocat" "user" 2 (Mock.repos 0 5) [] eq_refl (or_intror eq_refl)
             ltac:(cbn; lia) (flaky_listing_answers _ _ _)).
  - vm_compute. reflexivity.
Defined.

(** ** Issue pages with entries that are not containers *)

Lemma without_pull_requests_scalar (l : list json) :
  existsb is_scalar l = true -> is_TypeError (without_pull_requests l) = true.
Proof.
  induction l as [|j l IH]; [discriminate|].
  cbn [existsb without_pull_requests]. intros H.
  destruct (is_scalar j) eqn:Hj.
  - destruct j; try discriminate; reflexivity.
  - cbn [orb] in H. specialize (IH H).
    destruct (py_in "pull_request" j) as [b|e|] eqn:Hin.
    + destruct (without_pull_requests l) as [t|e|]; try discriminate.
      destruct e; try discriminate. reflexivity.
    + destruct j; try discriminate.
    + destruct j; discriminate.
Qed.

(** X20: the pull-request filter needs entries it can search.  If the
    first page the provider delivers is a list with an entry that is null,
    a boolean or a number, [get_repository_issues] raises TypeError after
    that one call; nothing is returned. *)
Theorem issues_page_with_scalar_entry (w : World) (owner repo_name state : string)
    (per_page : Z) (entries : list json) (r : Response) (tr : trace) :
  valid_issue_query owner repo_name state = true ->
  session_get w (tr ++ [Call (issues_endpoint owner repo_name)
                          (Some (issues_params state per_page 1))])
    (url_of (issues_endpoint owner repo_name)) (Some (issues_params state per_page 1))
  = Resp r ->
  delivers r (JArr entries) ->
  existsb is_scalar entries = true ->
  exists msg,
    get_repository_issues w owner repo_name state per_page tr =
    (Raise (TypeError msg),
     tr ++ [Call (issues_endpoint owner repo_name) (Some (issues_params state per_page 1));
            Get (url_of (issues_endpoint owner repo_name))
              (Some (issues_params state per_page 1))]).
Proof.
  intros Hvalid Hget Hdel Hscalar.
  apply andb_prop in Hvalid as [Hnames Hstate]. apply negb_true_iff in Hnames.
  unfold get_repository_issues. rewrite Hnames, Hstate. cbn [negb].
  fold (issues_endpoint owner repo_name).
  rewrite get_repository_issues_loop_paginate.
  cbn [paginate]. unfold bind at 1.
  rewrite (make_request_delivers w _ _ r _ tr Hget Hdel).
  destruct entries as [|x entries]; [discriminate|].
  cbn [truthy negb py_iter]. unfold bind at 1, lift at 1. unfold bind at 1, lift at 1.
  pose proof (without_pull_requests_scalar (x :: entries) Hscalar) as Herr.
  destruct (without_pull_requests (x :: entries)) as [kept|e|]; try discriminate.
  destruct e; try discriminate. eexists. reflexivity.
Qed.

Lemma issues_page_with_scalar_entry_witness :
  let w := Mock.always (Resp (Mock.payload (JArr [Mock.issue 1; JNull]))) in
  valid_issue_query "octocat" "hello" "open" = true
  /\ existsb is_scalar [Mock.issue 1; JNull] = true
  /\ exists msg,
      fst (get_repository_issues w "octocat" "hello" "open" 100 [])
      = Raise (TypeError msg).
Proof.
  cbv zeta. split; [reflexivity|]. split; [reflexivity|].
  destruct (issues_page_with_scalar_entry
              (Mock.always (Resp (Mock.payload (JArr [Mock.issue 1; JNull]))))
              "octocat" "hello" "open" 100 [Mock.issue 1; JNull]
              (Mock.payload (JArr [Mock.issue 1; JNull])) []
              eq_refl eq_refl (delivers_payload _) eq_refl) as [msg Hrun].
  exists msg. rewrite Hrun. reflexivity.
Defined.

(** ** A governor without retries *)

(** X21: with max_retries <= 0 the decorator does not retry: the decorated
    call is one call of the operation, with its outcome and nothing
    added.  (For max_retries < 0 the loop is empty and the call after the
    loop is the only one; for max_retries = 0 the only attempt is the
    last, and its caught failure is raised again.) *)
Theorem governor_without_retries {A : Type} (max_retries : Z) (base_delay : Q)
    (func : M A) (tr : trace) :
  max_retries <= 0 ->
  retry_with_exponential_backoff max_retries base_delay func tr = func tr.
Proof.
  intros Hmax. unfold retry_with_exponential_backoff, Py.range.
  destruct (Z.eq_dec max_retries 0) as [->|Hneg].
  - change (Z.to_nat (0 + 1)) with 1%nat. rewrite range_from_S, retry_for_cons.
    destruct (func tr) as [[a|e|] t]; try reflexivity.
    destruct (caught_by_retry e); reflexivity.
  - replace (Z.to_nat (max_retries + 1)) with 0%nat by lia. reflexivity.
Qed.

Lemma governor_without_retries_witness :
  let func := _make_request_body (Mock.always (Resp Mock.rate_limited)) "repos/a/b" None in
  0 <= 0
  /\ retry_with_exponential_backoff 0 1 func [] =
     (Raise (RateLimitError "Rate limit exceeded. Try again in 60 seconds."),
      [Get "https://api.github.com/repos/a/b" None]).
Proof.
  cbv zeta. split; [lia|].
  rewrite (governor_without_retries 0 1
             (_make_request_body (Mock.always (Resp Mock.rate_limited)) "repos/a/b" None)
             [] ltac:(lia)).
  reflexivity.
Defined.

(** ** A governor with a negative base delay *)

(** X23: the governor does not retry with a negative base delay.  After
    the first failure it catches, with retries left, [time.sleep] refuses
    the negative length, and its ValueError ends the call in the state the
    failed attempt left: no sleep, no second attempt. *)
Theorem negative_base_delay_ends_the_call {A : Type} (max_retries : Z) (base_delay : Q)
    (func : M A) (tr tr' : trace) (e : exn) :
  0 < max_retries ->
  (base_delay < 0)%Q -> (- long_sleep <= base_delay)%Q ->
  func tr = (Raise e, tr') ->
  caught_by_retry e = true ->
  retry_with_exponential_backoff max_retries base_delay func tr
  = (Raise (ValueError "sleep length must be non-negative"), tr').
Proof.
  intros Hmax Hneg Hmin Hf Hc. unfold retry_with_exponential_backoff.
  rewrite <- attempts_from_0, (attempts_from_step max_retries 0) by lia.
  rewrite (retry_for_caught max_retries base_delay func 0 _ tr tr' e Hf Hc).
  replace (0 =? max_retries) with false by (symmetry; apply Z.eqb_neq; lia).
  unfold back_off, bind, lift, delay. change (1024 <=? 0) with false. cbv iota.
  rewrite time_sleep_negative; [reflexivity| |].
  - setoid_replace (base_delay * inject_Z (2 ^ 0))%Q with base_delay; [exact Hneg|].
    change (inject_Z (2 ^ 0)) with 1%Q. apply Qmult_1_r.
  - setoid_replace (base_delay * inject_Z (2 ^ 0))%Q with base_delay; [exact Hmin|].
    change (inject_Z (2 ^ 0)) with 1%Q. apply Qmult_1_r.
Qed.

Lemma negative_base_delay_ends_the_call_witness :
  let func := _make_request_body (Mock.always (Resp Mock.rate_limited)) "repos/a/b" None in
  0 < 3
  /\ (- (1 # 2) < 0)%Q
  /\ (- long_sleep <= - (1 # 2))%Q
  /\ func [] = (Raise (RateLimitError "Rate limit exceeded. Try again in 60 seconds."),
               [Get "https://api.github.com/repos/a/b" None])
  /\ retry_with_exponential_backoff 3 (- (1 # 2)) func [] =
     (Raise (ValueError "sleep length must be non-negative"),
      [Get "https://api.github.com/repos/a/b" None]).
Proof.
  cbv zeta. split; [lia|]. split; [reflexivity|]. split; [discriminate|].
  split; [reflexivity|].
  exact (negative_base_delay_ends_the_call 3 (- (1 # 2))
           (_make_request_body (Mock.always (Resp Mock.rate_limited)) "repos/a/b" None)
           [] _ _ (proj1 (Z.ltb_lt 0 3) eq_refl) eq_refl
           ltac:(discriminate)
           eq_refl eq_refl).
Defined.

(** ** Names made of whitespace *)

Lemma paginate_first_call (w : World) (endpoint : string) (mk_params : Z -> params)
    (size : Z) (post : list json -> result (list json)) (fuel : nat) (page : Z)
    (acc : list json) (tr : trace) :
  (forall l, post l <> OutOfFuel) ->
  exists res evs,
    paginate w (S fuel) endpoint mk_params size post page acc tr
    = (res, tr ++ Call endpoint (Some (mk_params page)) :: evs).
Proof.
  intros Hpost. cbn [paginate]. unfold bind at 1.
  destruct (make_request_total w endpoint (Some (mk_params page)) tr)
    as (res & evs1 & -> & _ & _).
  destruct res as [data|e|]; try (eexists; eexists; reflexivity).
  destruct (negb (truthy data)); [eexists; eexists; reflexivity|].
  unfold bind, lift.
  destruct (py_iter data) as [elements|e|]; try (eexists; eexists; reflexivity).
  destruct (post elements) as [kept|e|]; try (eexists; eexists; reflexivity).
  destruct (py_len data) as [n|e|]; try (eexists; eexists; reflexivity).
  destruct (n <? size); [eexists; eexists; reflexivity|].
  destruct (page + 1 >? 100); [eexists; eexists; reflexivity|].
  destruct (paginate_bounded w endpoint mk_params size post Hpost fuel (page + 1)
              (acc ++ kept) (tr ++ Call endpoint (Some (mk_params page)) :: evs1))
    as (res' & evs2 & -> & _).
  exists res', (evs1 ++ evs2). rewrite <- app_assoc. reflexivity.
Qed.

Lemma readme_first_call (w : World) (owner repo_name : string) (tr : trace) :
  valid_names owner repo_name = true ->
  exists res evs,
    get_repository_readme w owner repo_name tr
    = (res, tr ++ Call (readme_endpoint owner repo_name) None :: evs).
Proof.
  intros Hvalid. apply negb_true_iff in Hvalid.
  unfold get_repository_readme. rewrite Hvalid.
  fold (readme_endpoint owner repo_name).
  unfold try_except_GitHubAPIError, bind at 1.
  destruct (make_request_total w (readme_endpoint owner repo_name) None tr)
    as (res & evs & -> & _ & _).
  destruct res as [data|e|].
  - unfold bind, lift, ret.
    destruct (py_in "content" data) as [[|]|e|].
    + destruct (py_getitem data "content") as [field|e|].
      * destruct (b64decode_utf8 w field) as [content|e|];
          try (eexists; eexists; reflexivity).
        destruct (is_GitHubAPIError e);
          [destruct (Py.contains "not found" (Py.lower (str_of_exn e)))|];
          eexists; eexists; reflexivity.
      * destruct (is_GitHubAPIError e);
          [destruct (Py.contains "not found" (Py.lower (str_of_exn e)))|];
          eexists; eexists; reflexivity.
      * eexists; eexists; reflexivity.
    + eexists; eexists; reflexivity.
    + destruct (is_GitHubAPIError e);
        [destruct (Py.contains "not found" (Py.lower (str_of_exn e)))|];
        eexists; eexists; reflexivity.
    + eexists; eexists; reflexivity.
  - destruct (is_GitHubAPIError e);
      [destruct (Py.contains "not found" (Py.lower (str_of_exn e)))|];
      eexists; eexists; reflexivity.
  - eexists; eexists; reflexivity.
Qed.

(** X22: the repository operations refuse an empty owner name but not a
    blank one.  With the empty string as owner, README, issues, pull
    requests and contributors alike raise ValueError before anything is
    sent (whatever the other arguments).  An owner made of one or more
    whitespace characters passes the check, is trimmed to nothing, and the
    request goes out for the path repos//<repo>/.... *)
Theorem blank_owner_is_sent (w : World) (owner repo_name : string) (tr : trace) :
  all_chars Py.is_space owner = true ->
  (owner = EmptyString ->
   get_repository_readme w owner repo_name tr = names_refused tr
   /\ (forall state per_page,
          get_repository_issues w owner repo_name state per_page tr = names_refused tr)
   /\ (forall state per_page,
          get_repository_pull_requests w owner repo_name state per_page tr
          = names_refused tr)
   /\ (forall per_page,
          get_repository_contributors w owner repo_name per_page tr = names_refused tr))
  /\ (owner <> EmptyString ->
      repo_name <> EmptyString ->
      (exists res evs,
          get_repository_readme w owner repo_name tr
          = (res, tr ++ Call ("repos//" +++ Py.strip repo_name +++ "/readme") None :: evs))
      /\ (forall state per_page,
             valid_state state = true ->
             exists res evs,
               get_repository_issues w owner repo_name state per_page tr
               = (res, tr ++ Call ("repos//" +++ Py.strip repo_name +++ "/issues")
                               (Some (issues_params state per_page 1)) :: evs))
      /\ (forall state per_page,
             valid_state state = true ->
             exists res evs,
               get_repository_pull_requests w owner repo_name state per_page tr
               = (res, tr ++ Call ("repos//" +++ Py.strip repo_name +++ "/pulls")
                               (Some (issues_params state per_page 1)) :: evs))
      /\ (forall per_page,
             exists res evs,
               get_repository_contributors w owner repo_name per_page tr
               = (res, tr ++ Call ("repos//" +++ Py.strip repo_name +++ "/contributors")
                               (Some (contributors_params per_page 1)) :: evs))).
Proof.
  intros Hblank. split.
  - intros ->. repeat apply conj; reflexivity.
  - intros Howner Hrepo.
    assert (Hstrip : Py.strip owner = EmptyString) by (apply strip_empty_iff; exact Hblank).
    assert (Hnames : (owner =? EmptyString)%string || (repo_name =? EmptyString)%string
                     = false).
    { apply orb_false_intro; apply String.eqb_neq; assumption. }
    assert (Hvalid : valid_names owner repo_name = true)
      by (unfold valid_names; rewrite Hnames; reflexivity).
    repeat apply conj.
    + destruct (readme_first_call w owner repo_name tr Hvalid) as (res & evs & Hrun).
      unfold readme_endpoint in Hrun. rewrite Hstrip in Hrun.
      exists res, evs. exact Hrun.
    + intros state per_page Hstate.
      unfold get_repository_issues. rewrite Hnames, Hstate, Hstrip. cbn [negb].
      rewrite get_repository_issues_loop_paginate.
      apply paginate_first_call. exact without_pull_requests_total.
    + intros state per_page Hstate.
      unfold get_repository_pull_requests. rewrite Hnames, Hstate, Hstrip. cbn [negb].
      rewrite get_repository_pull_requests_loop_paginate.
      apply (paginate_first_call w _ (issues_params state per_page)). discriminate.
    + intros per_page.
      unfold get_repository_contributors. rewrite Hnames, Hstrip.
      rewrite get_repository_contributors_loop_paginate.
      apply (paginate_first_call w _ (contributors_params per_page)). discriminate.
Qed.

Lemma blank_owner_is_sent_witness :
  let w := Mock.always (Resp (Mock.plain 404 "Not Found")) in
  (all_chars Py.is_space EmptyString = true
   /\ get_repository_readme w EmptyString "hello" [] =
      (Raise (ValueError "Owner and repository name cannot be empty"), [])
   /\ get_repository_issues w EmptyString "hello" "every" 100 [] =
      (Raise (ValueError "Owner and repository name cannot be empty"), []))
  /\ (all_chars Py.is_space " " = true
      /\ " " <> EmptyString
      /\ "hello" <> EmptyString
      /\ exists res evs,
          get_repository_readme w " " "hello" []
          = (res, [] ++ Call "repos//hello/readme" None :: evs)).
Proof.
  cbv zeta. split.
  - split; [reflexivity|].
    destruct (proj1 (blank_owner_is_sent (Mock.always (Resp (Mock.plain 404 "Not Found")))
                       EmptyString "hello" [] eq_refl) eq_refl)
      as (Hreadme & Hissues & _).
    split; [exact Hreadme|exact (Hissues "every" 100)].
  - split; [reflexivity|]. split; [discriminate|]. split; [discriminate|].
    exact (proj1 (proj2 (blank_owner_is_sent
                           (Mock.always (Resp (Mock.plain 404 "Not Found")))
                           " " "hello" [] eq_refl)
                    ltac:(discriminate) ltac:(discriminate))).
Defined.
